(** * paytr-go: the PayTR client, its request tokens and its transport

    A shallow embedding of [payment/payment.go] and [domain/payment.go].
    Go strings are byte sequences and are modelled by [string] (one [ascii]
    per byte); [float64] values are modelled by their IEEE-754 bit pattern.
    The parts of the Go standard library the package calls and whose result
    is fixed by a public specification (SHA-256, HMAC, base64, the ['f']
    float format, [strings.EqualFold] against an ASCII name, the UTF-8
    decoding by which [json.Marshal] writes a string) are written out;
    the parts that talk to the outside world (URL parsing, the HTTP
    transport, the JSON decoder of response bodies) are fields of a
    [Runtime] the service runs in. *)

From Stdlib Require Import ZArith List String Ascii Bool Lia.
Import ListNotations.

Local Open Scope string_scope.
Local Open Scope Z_scope.

(** ** Bytes *)

Module Bytes.

Definition byte_of_ascii (c : ascii) : Z := Z.of_N (N_of_ascii c).
Definition ascii_of_byte (b : Z) : ascii := ascii_of_N (Z.to_N (b mod 256)).

(** [[]byte(s)] *)
Definition of_string (s : string) : list Z :=
  List.map byte_of_ascii (list_ascii_of_string s).

Definition to_string (bs : list Z) : string :=
  string_of_list_ascii (List.map ascii_of_byte bs).

(** Big-endian encoding of [x] on [n] bytes. *)
Fixpoint be (n : nat) (x : Z) : list Z :=
  match n with
  | O => []
  | S k => Z.land (Z.shiftr x (8 * Z.of_nat k)) 255 :: be k x
  end.

Fixpoint chunks (fuel : nat) (size : nat) (bs : list Z) : list (list Z) :=
  match fuel, bs with
  | O, _ => []
  | _, [] => []
  | S fuel', _ => firstn size bs :: chunks fuel' size (skipn size bs)
  end.

End Bytes.

(** ** crypto/sha256 (FIPS 180-4) *)

Module sha256.

Definition Size : nat := 32.
Definition BlockSize : nat := 64.

Definition w32 (x : Z) : Z := Z.land x 4294967295.
Definition add32 (x y : Z) : Z := w32 (x + y).
Definition rotr (n x : Z) : Z :=
  Z.lor (Z.shiftr x n) (w32 (Z.shiftl x (32 - n))).

Definition Ch (x y z : Z) : Z :=
  Z.lxor (Z.land x y) (Z.land (Z.lxor x 4294967295) z).
Definition Maj (x y z : Z) : Z :=
  Z.lxor (Z.lxor (Z.land x y) (Z.land x z)) (Z.land y z).
Definition bsig0 (x : Z) : Z :=
  Z.lxor (Z.lxor (rotr 2 x) (rotr 13 x)) (rotr 22 x).
Definition bsig1 (x : Z) : Z :=
  Z.lxor (Z.lxor (rotr 6 x) (rotr 11 x)) (rotr 25 x).
Definition ssig0 (x : Z) : Z :=
  Z.lxor (Z.lxor (rotr 7 x) (rotr 18 x)) (Z.shiftr x 3).
Definition ssig1 (x : Z) : Z :=
  Z.lxor (Z.lxor (rotr 17 x) (rotr 19 x)) (Z.shiftr x 10).

(** The first [n] primes are the primes below [bound], for a [bound] that
    is large enough. *)
Definition is_prime (n : Z) : bool :=
  (2 <=? n)
  && List.forallb (fun d => negb (n mod Z.of_nat d =? 0))
       (List.seq 2 (Z.to_nat n - 2)).

Definition primes_below (bound : nat) : list Z :=
  List.filter is_prime (List.map Z.of_nat (List.seq 0 bound)).

(** The integer cube root, one bit at a time from bit [bits - 1] down. *)
Fixpoint icbrt (bits : nat) (n r : Z) : Z :=
  match bits with
  | O => r
  | S i =>
      let c := r + 2 ^ Z.of_nat i in
      icbrt i n (if c * c * c <=? n then c else r)
  end.

(** FIPS 180-4, 4.2.2: the first 32 bits of the fractional parts of the
    cube roots of the first 64 primes. *)
Definition K : list Z :=
  Eval vm_compute in
    List.map (fun p => w32 (icbrt 40 (p * 2 ^ 96) 0)) (primes_below 312).

(** FIPS 180-4, 5.3.3: the first 32 bits of the fractional parts of the
    square roots of the first 8 primes. *)
Definition init : list Z :=
  Eval vm_compute in
    List.map (fun p => w32 (Z.sqrt (p * 2 ^ 64))) (primes_below 20).

(** The message with its padding: a [0x80] byte, zeros up to 56 modulo
    64, then the bit length on eight big-endian bytes. *)
Definition pad (msg : list Z) : list Z :=
  let len := Z.of_nat (List.length msg) in
  let zeros := Z.to_nat ((55 - len) mod 64) in
  msg ++ [128] ++ List.repeat 0 zeros ++ Bytes.be 8 (8 * len).

Fixpoint words (fuel : nat) (bs : list Z) : list Z :=
  match fuel, bs with
  | S fuel', b0 :: b1 :: b2 :: b3 :: rest =>
      (b0 * 16777216 + b1 * 65536 + b2 * 256 + b3) :: words fuel' rest
  | _, _ => []
  end.

(** The message schedule, most recent word first. *)
Fixpoint schedule (n : nat) (rev_w : list Z) : list Z :=
  match n with
  | O => rev_w
  | S k =>
      let w := add32 (add32 (ssig1 (nth 1 rev_w 0)) (nth 6 rev_w 0))
                     (add32 (ssig0 (nth 14 rev_w 0)) (nth 15 rev_w 0)) in
      schedule k (w :: rev_w)
  end.

Record regs := Regs { ra : Z; rb : Z; rc : Z; rd : Z;
                      re : Z; rf : Z; rg : Z; rh : Z }.

Definition round (r : regs) (kw : Z * Z) : regs :=
  let (k, w) := kw in
  let t1 := add32 (add32 (add32 (rh r) (bsig1 (re r)))
                         (add32 (Ch (re r) (rf r) (rg r)) k)) w in
  let t2 := add32 (bsig0 (ra r)) (Maj (ra r) (rb r) (rc r)) in
  Regs (add32 t1 t2) (ra r) (rb r) (rc r) (add32 (rd r) t1) (re r) (rf r) (rg r).

Definition regs_of (h : list Z) : regs :=
  Regs (nth 0 h 0) (nth 1 h 0) (nth 2 h 0) (nth 3 h 0)
       (nth 4 h 0) (nth 5 h 0) (nth 6 h 0) (nth 7 h 0).

Definition block (h : list Z) (blk : list Z) : list Z :=
  let w := List.rev (schedule 48 (List.rev (words 16 blk))) in
  let r0 := regs_of h in
  let r := List.fold_left round (List.combine K w) r0 in
  [ add32 (ra r0) (ra r); add32 (rb r0) (rb r); add32 (rc r0) (rc r);
    add32 (rd r0) (rd r); add32 (re r0) (re r); add32 (rf r0) (rf r);
    add32 (rg r0) (rg r); add32 (rh r0) (rh r) ].

(** [sha256.Sum256] *)
Definition Sum256 (msg : list Z) : list Z :=
  let p := pad msg in
  let h := List.fold_left block (Bytes.chunks (List.length p) 64 p) init in
  List.flat_map (Bytes.be 4) h.

(** A [hash.Hash] made by [sha256.New]: the state is observable only
    through [Sum], which hashes everything written so far. *)
Record digest := Digest { written : list Z }.

Definition New : digest := Digest [].
Definition Write (d : digest) (p : list Z) : digest := Digest (written d ++ p).
Definition Reset (d : digest) : digest := Digest [].
(** [d.Sum(in)] appends the hash to [in] and leaves [d] unchanged. *)
Definition Sum (d : digest) (b : list Z) : list Z := b ++ Sum256 (written d).

End sha256.

(** ** crypto/hmac *)

Module hmac.

Record t := Mk { opad : list Z; ipad : list Z;
                 outer : sha256.digest; inner : sha256.digest }.

(** [copy(dst, key)] on a zeroed block. *)
Definition copy_block (blocksize : nat) (key : list Z) : list Z :=
  firstn blocksize key ++ List.repeat 0 (blocksize - List.length key).

(** [hmac.New(sha256.New, key)] *)
Definition New (key : list Z) : t :=
  let outer := sha256.New in
  let inner := sha256.New in
  let blocksize := sha256.BlockSize in
  let '(outer, key) :=
    if (blocksize <? List.length key)%nat
    then let outer := sha256.Write outer key in (outer, sha256.Sum outer [])
    else (outer, key) in
  let ipad := List.map (fun b => Z.lxor b 0x36) (copy_block blocksize key) in
  let opad := List.map (fun b => Z.lxor b 0x5c) (copy_block blocksize key) in
  Mk opad ipad outer (sha256.Write inner ipad).

Definition Write (h : t) (p : list Z) : t :=
  Mk (opad h) (ipad h) (outer h) (sha256.Write (inner h) p).

(** [h.Sum(in)] *)
Definition Sum (h : t) (b : list Z) : list Z :=
  let origLen := List.length b in
  let b := sha256.Sum (inner h) b in
  let outer := sha256.Reset (outer h) in
  let outer := sha256.Write outer (opad h) in
  let outer := sha256.Write outer (skipn origLen b) in
  sha256.Sum outer (firstn origLen b).

End hmac.

(** ** encoding/base64, [StdEncoding] *)

Module base64.

Definition encodeStd : string :=
  "ABCDEFGHIJKLMNOPQRSTUVWXYZabcdefghijklmnopqrstuvwxyz0123456789+/".

Definition enc (v : Z) : ascii :=
  match String.get (Z.to_nat v) encodeStd with
  | Some c => c
  | None => "="%char
  end.

Fixpoint encode (fuel : nat) (src : list Z) : string :=
  match fuel with
  | O => ""
  | S fuel' =>
      match src with
      | [] => ""
      | [b0] =>
          let v := b0 * 65536 in
          String (enc (Z.land (Z.shiftr v 18) 63))
            (String (enc (Z.land (Z.shiftr v 12) 63)) "==")
      | [b0; b1] =>
          let v := b0 * 65536 + b1 * 256 in
          String (enc (Z.land (Z.shiftr v 18) 63))
            (String (enc (Z.land (Z.shiftr v 12) 63))
               (String (enc (Z.land (Z.shiftr v 6) 63)) "="))
      | b0 :: b1 :: b2 :: rest =>
          let v := b0 * 65536 + b1 * 256 + b2 in
          String (enc (Z.land (Z.shiftr v 18) 63))
            (String (enc (Z.land (Z.shiftr v 12) 63))
               (String (enc (Z.land (Z.shiftr v 6) 63))
                  (String (enc (Z.land v 63)) (encode fuel' rest))))
      end
  end.

(** [base64.StdEncoding.EncodeToString] *)
Definition EncodeToString (src : list Z) : string :=
  encode (S (List.length src)) src.

End base64.

Definition hex_of (bs : list Z) : string :=
  let d (v : Z) := match String.get (Z.to_nat v) "0123456789abcdef" with
                  | Some c => c | None => "?"%char end in
  List.fold_right (fun b acc => String (d (b / 16)) (String (d (b mod 16)) acc)) "" bs.

(** ** float64 and strconv.FormatFloat *)

(** A [float64] is its IEEE-754 binary64 bit pattern, as
    [math.Float64bits] returns it. *)
Definition float64 : Type := Z.

Module strconv.

Definition mantbits : Z := 52.
Definition expbits : Z := 11.
Definition bias : Z := -1023.

Definition neg_of (bits : float64) : bool :=
  negb (Z.shiftr bits (expbits + mantbits) =? 0).
Definition exp_of (bits : float64) : Z :=
  Z.land (Z.shiftr bits mantbits) (Z.shiftl 1 expbits - 1).
Definition mant_of (bits : float64) : Z :=
  Z.land bits (Z.shiftl 1 mantbits - 1).

(** Neither an infinity nor a NaN. *)
Definition is_finite (bits : float64) : bool :=
  negb (exp_of bits =? Z.shiftl 1 expbits - 1).

(** [decimal]: the digits [d] (characters '0'..'9', [nd] is their
    number) and the position [dp] of the decimal point. *)
Record decimal := Dec { d : list ascii; dp : Z }.

Definition nd (a : decimal) : Z := Z.of_nat (List.length (d a)).

Definition digit (v : Z) : ascii := Bytes.ascii_of_byte (48 + v).

Fixpoint digits_aux (fuel : nat) (n : Z) (acc : list ascii) : list ascii :=
  match fuel with
  | O => acc
  | S fuel' =>
      if n <=? 0 then acc
      else digits_aux fuel' (n / 10) (digit (n mod 10) :: acc)
  end.

(** The decimal digits of [n], most significant first; none for 0. *)
Definition digits_of (n : Z) : list ascii :=
  digits_aux (S (Z.to_nat (Z.log2 n))) n [].

Fixpoint strip0 (rev_d : list ascii) : list ascii :=
  match rev_d with
  | c :: rest => if Ascii.eqb c "0" then strip0 rest else rev_d
  | [] => []
  end.

(** [trim]: drop the trailing zeros; the point of an empty decimal is 0. *)
Definition trim (a : decimal) : decimal :=
  let ds := List.rev (strip0 (List.rev (d a))) in
  match ds with
  | [] => Dec [] 0
  | _ => Dec ds (dp a)
  end.

(** [d.Assign(mant); d.Shift(k)]: the exact decimal expansion of
    [mant * 2^k].  The library shifts digit by digit and keeps up to 800
    digits; a binary64 value never needs more than 767, so nothing is
    cut and the result is the expansion computed here. *)
Definition assign_shift (mant k : Z) : decimal :=
  if 0 <=? k then
    let ds := digits_of (mant * 2 ^ k) in
    trim (Dec ds (Z.of_nat (List.length ds)))
  else
    let ds := digits_of (mant * 5 ^ (- k)) in
    trim (Dec ds (Z.of_nat (List.length ds) + k)).

Definition digit_at (a : decimal) (i : Z) : ascii :=
  nth (Z.to_nat i) (d a) "0"%char.

Definition odd_digit (c : ascii) : bool :=
  negb ((Bytes.byte_of_ascii c - 48) mod 2 =? 0).

(** [shouldRoundUp]; the [trunc] flag of the library is never set here. *)
Definition shouldRoundUp (a : decimal) (n : Z) : bool :=
  if (n <? 0) || (nd a <=? n) then false
  else if Ascii.eqb (digit_at a n) "5" && (n + 1 =? nd a)
       then (0 <? n) && odd_digit (digit_at a (n - 1))
       else 53 <=? Bytes.byte_of_ascii (digit_at a n).

Definition RoundDown (a : decimal) (n : Z) : decimal :=
  if (n <? 0) || (nd a <=? n) then a
  else trim (Dec (firstn (Z.to_nat n) (d a)) (dp a)).

(** The loop of [RoundUp] on the kept digits, last digit first: the
    first digit below '9' is incremented and the 9s after it dropped. *)
Fixpoint carry (rev_d : list ascii) : option (list ascii) :=
  match rev_d with
  | [] => None
  | c :: rest =>
      if Bytes.byte_of_ascii c <? 57
      then Some (Bytes.ascii_of_byte (Bytes.byte_of_ascii c + 1) :: rest)
      else carry rest
  end.

Definition RoundUp (a : decimal) (n : Z) : decimal :=
  if (n <? 0) || (nd a <=? n) then a
  else match carry (List.rev (firstn (Z.to_nat n) (d a))) with
       | Some rev_d => Dec (List.rev rev_d) (dp a)
       | None => Dec ["1"%char] (dp a + 1)
       end.

Definition Round (a : decimal) (n : Z) : decimal :=
  if (n <? 0) || (nd a <=? n) then a
  else if shouldRoundUp a n then RoundUp a n else RoundDown a n.

(** [fmtF]: %f layout, [-]ddddd.ddd *)
Definition fmtF (neg : bool) (a : decimal) (prec : nat) : string :=
  let sign := if neg then "-" else "" in
  let integer : list ascii :=
    if 0 <? dp a then
      let m := Z.min (nd a) (dp a) in
      (firstn (Z.to_nat m) (d a) ++ List.repeat "0"%char (Z.to_nat (dp a - m)))%list
    else ["0"%char] in
  let fraction : list ascii :=
    match prec with
    | O => []
    | _ => "."%char ::
           List.map (fun i => let j := dp a + Z.of_nat i in
                              if (0 <=? j) && (j <? nd a) then digit_at a j
                              else "0"%char)
                    (List.seq 0 prec)
    end in
  sign ++ string_of_list_ascii (integer ++ fraction).

Definition bigFtoa_f (prec : nat) (neg : bool) (mant exp : Z) : string :=
  let a := assign_shift mant (exp - mantbits) in
  let a := Round a (dp a + Z.of_nat prec) in
  fmtF neg a prec.

(** [strconv.FormatFloat(val, 'f', prec, 64)] with [prec >= 0], the only
    format this package asks for. *)
Definition FormatFloat_f (val : float64) (prec : nat) : string :=
  let neg := neg_of val in
  let exp := exp_of val in
  let mant := mant_of val in
  if exp =? Z.shiftl 1 expbits - 1 then
    if negb (mant =? 0) then "NaN"
    else if neg then "-Inf" else "+Inf"
  else
    let '(exp, mant) :=
      if exp =? 0 then (exp + 1, mant)
      else (exp, Z.lor mant (Z.shiftl 1 mantbits)) in
    bigFtoa_f prec neg mant (exp + bias).

End strconv.

(** Some [float64] constants, by their bits. *)
Module F64.
Definition of_100 : float64 := 0x4059000000000000.
Definition of_99_999 : float64 := 0x4058ffef9db22d0e.
Definition of_50 : float64 := 0x4049000000000000.
Definition of_1 : float64 := 0x3ff0000000000000.
Definition of_0_125 : float64 := 0x3fc0000000000000.
Definition of_100_001 : float64 := 0x40590010624dd2f2.
Definition of_100_002 : float64 := 0x40590020c49ba5e3.
Definition zero : float64 := 0.
Definition neg_zero : float64 := 0x8000000000000000.
Definition NaN : float64 := 0x7ff8000000000000.
Definition Inf : float64 := 0x7ff0000000000000.
Definition min_denormal : float64 := 1.
Definition max_finite : float64 := 0x7fefffffffffffff.
End F64.

(** ** fmt.Sprintf *)

Module fmt.

Inductive operand :=
| Str (s : string)
| Float64 (f : float64).

(** [%s] and [%v] of an operand.  A float under [%s] or [%v] does not
    occur in this package; its rendering is not modelled. *)
Definition verb_s (verb : ascii) (a : option operand) : string :=
  match a with
  | Some (Str s) => s
  | Some (Float64 _) => String "%" (String "!" (String verb "(float64)"))
  | None => String "%" (String "!" (String verb "(MISSING)"))
  end.

(** [fmtFloat] for [%.<prec>f] without flags: [strconv.AppendFloat] with
    a leading '+' added for the sign handling and taken off again. *)
Definition verb_f (prec : nat) (a : option operand) : string :=
  match a with
  | Some (Float64 f) => strconv.FormatFloat_f f prec
  | Some (Str s) => "%!f(string=" ++ s ++ ")"
  | None => "%!f(MISSING)"
  end.

Definition is_digit (c : ascii) : bool :=
  let b := Bytes.byte_of_ascii c in (48 <=? b) && (b <=? 57).

(** [doPrintf] for the directives this package uses: [%s], [%v],
    [%.Nf] with one digit [N], and [%%].  Operands that are left over or of
    the wrong kind, which no call of this package has, are marked but not
    rendered the way the library renders them. *)
Fixpoint doPrintf (format : string) (a : list operand) : string :=
  match format with
  | EmptyString =>
      match a with
      | [] => ""
      | _ => "%!(EXTRA)"
      end
  | String "%" (String "%" rest) => String "%" (doPrintf rest a)
  | String "%" (String "s" rest) =>
      verb_s "s" (List.hd_error a) ++ doPrintf rest (List.tl a)
  | String "%" (String "v" rest) =>
      verb_s "v" (List.hd_error a) ++ doPrintf rest (List.tl a)
  | String "%" (String "." (String p (String "f" rest))) =>
      if is_digit p
      then verb_f (Z.to_nat (Bytes.byte_of_ascii p - 48)) (List.hd_error a)
             ++ doPrintf rest (List.tl a)
      else String "%" (String "." (String p (String "f" (doPrintf rest a))))
  | String c rest => String c (doPrintf rest a)
  end.

Definition Sprintf (format : string) (a : list operand) : string :=
  doPrintf format a.

End fmt.

(** ** Errors and results *)

(** The [error] values that reach a caller of this package. *)
Inductive error :=
| errorString (msg : string)             (* what [fmt.Errorf] returns *)
| UnsupportedValueError (str : string)   (* [json.Marshal] on NaN or an infinity *)
| mapstructure_Error (errs : list string) (* [*mapstructure.Error] *)
| foreign (origin msg : string).         (* made by the runtime: net/url, the
                                            transport, a body reader, the JSON decoder *)

(** A Go return pair [(value, error)] of which exactly one is set. *)
Inductive result (A : Type) :=
| Ok (a : A)
| Err (err : error).
Arguments Ok {A} a.
Arguments Err {A} err.

Definition is_ok {A} (r : result A) : bool :=
  match r with Ok _ => true | Err _ => false end.

(** ** unicode/utf8 *)

Module utf8.

Definition RuneSelf : Z := 0x80.

(** U+FFFD, the replacement character, in UTF-8: EF BF BD. *)
Definition RuneError : string :=
  String (Bytes.ascii_of_byte 0xEF)
    (String (Bytes.ascii_of_byte 0xBF) (String (Bytes.ascii_of_byte 0xBD) "")).

Definition between (lo hi : Z) (c : ascii) : bool :=
  (lo <=? Bytes.byte_of_ascii c) && (Bytes.byte_of_ascii c <=? hi).

(** The continuation bytes. *)
Definition locb : Z := 0x80.
Definition hicb : Z := 0xBF.

(** [DecodeRuneInString(s)], of which the callers here use the width
    only: the number of bytes of the encoding at the head of [s], and 0
    where the function returns [(RuneError, 1)], that is where no valid
    encoding starts.  The first byte fixes the size and the range the
    second byte must be in (the tables [first] and [acceptRanges]): no
    continuation byte or C0, C1, F5..FF in front, no overlong form, no
    surrogate, nothing above U+10FFFF. *)
Definition width (s : string) : nat :=
  match s with
  | EmptyString => 0%nat
  | String s0 rest =>
      let x := Bytes.byte_of_ascii s0 in
      if x <? RuneSelf then 1%nat
      else if x <? 0xC2 then 0%nat
      else if x <? 0xE0 then
        match rest with
        | String s1 _ => if between locb hicb s1 then 2%nat else 0%nat
        | _ => 0%nat
        end
      else if x <? 0xF0 then
        let lo := if x =? 0xE0 then 0xA0 else locb in
        let hi := if x =? 0xED then 0x9F else hicb in
        match rest with
        | String s1 (String s2 _) =>
            if between lo hi s1 && between locb hicb s2 then 3%nat else 0%nat
        | _ => 0%nat
        end
      else if x <? 0xF5 then
        let lo := if x =? 0xF0 then 0x90 else locb in
        let hi := if x =? 0xF4 then 0x8F else hicb in
        match rest with
        | String s1 (String s2 (String s3 _)) =>
            if between lo hi s1 && between locb hicb s2 && between locb hicb s3
            then 4%nat else 0%nat
        | _ => 0%nat
        end
      else 0%nat
  end.

(** [ValidString]: the string is a sequence of valid encodings;
    [pending] bytes at the head belong to an encoding already accepted. *)
Fixpoint valid (pending : nat) (s : string) : bool :=
  match s with
  | EmptyString => true
  | String c rest =>
      match pending with
      | S k => valid k rest
      | O => match width s with
             | O => false
             | S k => valid k rest
             end
      end
  end.

Definition ValidString (s : string) : bool := valid 0 s.

End utf8.

(** ** JSON documents *)

(** A JSON document: what [json.Marshal] renders to bytes, and the dynamic
    values ([nil], [bool], [float64], [string], [[]interface{}],
    [map[string]interface{}]) [json.Unmarshal] stores in an
    [interface{}].  The entries of an object decoded into a Go map have
    distinct keys; their order stands for the order in which the Go runtime
    ranges over that map. *)
#[local] Set Warnings "-register-all".
Inductive json :=
| JNull
| JBool (b : bool)
| JNumber (f : float64)
| JInt (n : Z)
| JString (s : string)
| JArray (l : list json)
| JObject (m : list (string * json)).
#[local] Set Warnings "register-all".

Module Json.

(** A struct field as the encoder sees it: its key, whether the tag
    carries [omitempty], and its value. *)
Record field := Field { key : string; omitempty : bool; value : json }.

(** [isEmptyValue] *)
Definition isEmptyValue (v : json) : bool :=
  match v with
  | JNull => true
  | JBool b => negb b
  | JNumber f => (Z.land f (Z.shiftl 1 63 - 1) =? 0)
  | JInt n => (n =? 0)
  | JString s => (String.length s =? 0)%nat
  | JArray l => (List.length l =? 0)%nat
  | JObject m => (List.length m =? 0)%nat
  end.

(** The string a reader gets back from what the string encoder writes
    for [s]: the encoder walks [s] one encoding at a time, copies (or
    escapes) what [DecodeRuneInString] accepts and writes [\ufffd] for
    each byte at which it returns [(RuneError, 1)].  [pending] bytes at
    the head belong to an encoding already accepted. *)
Fixpoint written_from (pending : nat) (s : string) : string :=
  match s with
  | EmptyString => EmptyString
  | String c rest =>
      match pending with
      | S k => String c (written_from k rest)
      | O => match utf8.width s with
             | O => utf8.RuneError ++ written_from 0 rest
             | S k => String c (written_from k rest)
             end
      end
  end.

Definition written (s : string) : string := written_from 0 s.

(** The value that goes out for a field of one of the kinds the payloads
    of this package have (string, float64, int). *)
Definition wire (v : json) : json :=
  match v with
  | JString s => JString (written s)
  | _ => v
  end.

(** The float encoder refuses NaN and the infinities. *)
Definition encode_value (v : json) : result json :=
  match v with
  | JNumber f =>
      if strconv.is_finite f then Ok v
      else Err (UnsupportedValueError (strconv.FormatFloat_f f 2))
  | _ => Ok (wire v)
  end.

Fixpoint encode_fields (fs : list field) : result (list (string * json)) :=
  match fs with
  | [] => Ok []
  | f :: rest =>
      if omitempty f && isEmptyValue (value f) then encode_fields rest
      else match encode_value (value f) with
           | Err e => Err e
           | Ok v => match encode_fields rest with
                     | Err e => Err e
                     | Ok m => Ok ((key f, v) :: m)
                     end
           end
  end.

(** [json.Marshal] of a struct whose fields are [fs], in declaration
    order with embedded structs expanded in place. *)
Definition marshal_struct (fs : list field) : result json :=
  match encode_fields fs with
  | Err e => Err e
  | Ok m => Ok (JObject m)
  end.

Fixpoint lookup (k : string) (m : list (string * json)) : option json :=
  match m with
  | [] => None
  | (k', v) :: rest => if String.eqb k' k then Some v else lookup k rest
  end.

(** The members a struct without [omitempty] fields serializes to. *)
Definition pairs (fs : list field) : list (string * json) :=
  List.map (fun f => (key f, wire (value f))) fs.

(** The member [k] of an object. *)
Definition member (k : string) (doc : json) : option json :=
  match doc with
  | JObject m => lookup k m
  | _ => None
  end.

End Json.

(** What [json.Marshal] does on a value of type [A]. *)
Class Marshaler (A : Type) := Marshal : A -> result json.

(** ** config and domain: the records of [domain/payment.go] *)

Module config.
Record PayTRConfig := Mk {
  MerchantID : string;
  MerchantKey : string;
  MerchantSalt : string }.
End config.

Module domain.

Definition PayTRBaseURL : string := "https://www.paytr.com".

Module CommonPaymentRequest.
Record t := Mk {
  MerchantID : string;
  UserIP : string;
  MerchantOid : string;
  Email : string;
  PaymentAmount : float64;
  PaymentType : string;
  Currency : string;
  TestMode : string;
  NonThreeD : string;
  MerchantOkURL : string;
  MerchantFailURL : string;
  UserName : string;
  UserAddress : string;
  UserPhone : string;
  UserBasket : string;
  DebugOn : string;
  ClientLang : string;
  PayTRToken : string;
  InstallmentCount : string }.

(** [req.PayTRToken = tok] *)
Definition set_PayTRToken (tok : string) (r : t) : t :=
  Mk (MerchantID r) (UserIP r) (MerchantOid r) (Email r) (PaymentAmount r)
     (PaymentType r) (Currency r) (TestMode r) (NonThreeD r)
     (MerchantOkURL r) (MerchantFailURL r) (UserName r) (UserAddress r)
     (UserPhone r) (UserBasket r) (DebugOn r) (ClientLang r) tok
     (InstallmentCount r).

(** [req.MerchantID = id] *)
Definition set_MerchantID (id : string) (r : t) : t :=
  Mk id (UserIP r) (MerchantOid r) (Email r) (PaymentAmount r)
     (PaymentType r) (Currency r) (TestMode r) (NonThreeD r)
     (MerchantOkURL r) (MerchantFailURL r) (UserName r) (UserAddress r)
     (UserPhone r) (UserBasket r) (DebugOn r) (ClientLang r) (PayTRToken r)
     (InstallmentCount r).

Definition fields (r : t) : list Json.field :=
  [ Json.Field "merchant_id" false (JString (MerchantID r));
    Json.Field "user_ip" false (JString (UserIP r));
    Json.Field "merchant_oid" false (JString (MerchantOid r));
    Json.Field "email" false (JString (Email r));
    Json.Field "payment_amount" false (JNumber (PaymentAmount r));
    Json.Field "payment_type" false (JString (PaymentType r));
    Json.Field "currency" false (JString (Currency r));
    Json.Field "test_mode" false (JString (TestMode r));
    Json.Field "non_3d" false (JString (NonThreeD r));
    Json.Field "merchant_ok_url" false (JString (MerchantOkURL r));
    Json.Field "merchant_fail_url" false (JString (MerchantFailURL r));
    Json.Field "user_name" false (JString (UserName r));
    Json.Field "user_address" false (JString (UserAddress r));
    Json.Field "user_phone" false (JString (UserPhone r));
    Json.Field "user_basket" false (JString (UserBasket r));
    Json.Field "debug_on" false (JString (DebugOn r));
    Json.Field "client_lang" false (JString (ClientLang r));
    Json.Field "paytr_token" false (JString (PayTRToken r));
    Json.Field "installment_count" false (JString (InstallmentCount r)) ].
End CommonPaymentRequest.

Module NewCardPaymentRequest.
Record t := Mk {
  CommonPaymentRequest : CommonPaymentRequest.t;
  CardOwner : string;
  CardNumber : string;
  ExpiryMonth : string;
  ExpiryYear : string;
  CVV : string;
  CardType : string;
  StoreCard : string }.

(** [req.PayTRToken = tok], through the embedded struct. *)
Definition set_PayTRToken (tok : string) (r : t) : t :=
  Mk (CommonPaymentRequest.set_PayTRToken tok (CommonPaymentRequest r))
     (CardOwner r) (CardNumber r) (ExpiryMonth r) (ExpiryYear r) (CVV r)
     (CardType r) (StoreCard r).

Definition fields (r : t) : list Json.field :=
  CommonPaymentRequest.fields (CommonPaymentRequest r) ++
  [ Json.Field "cc_owner" false (JString (CardOwner r));
    Json.Field "card_number" false (JString (CardNumber r));
    Json.Field "expiry_month" false (JString (ExpiryMonth r));
    Json.Field "expiry_year" false (JString (ExpiryYear r));
    Json.Field "cvv" false (JString (CVV r));
    Json.Field "card_type" false (JString (CardType r));
    Json.Field "store_card" false (JString (StoreCard r)) ].
End NewCardPaymentRequest.

Module SavedCardPaymentRequest.
Record t := Mk {
  CommonPaymentRequest : CommonPaymentRequest.t;
  UToken : string;
  CToken : string;
  CVV : string;
  RecurringPayment : string }.

Definition set_PayTRToken (tok : string) (r : t) : t :=
  Mk (CommonPaymentRequest.set_PayTRToken tok (CommonPaymentRequest r))
     (UToken r) (CToken r) (CVV r) (RecurringPayment r).

(** [req.RecurringPayment = v] *)
Definition set_RecurringPayment (v : string) (r : t) : t :=
  Mk (CommonPaymentRequest r) (UToken r) (CToken r) (CVV r) v.

Definition fields (r : t) : list Json.field :=
  CommonPaymentRequest.fields (CommonPaymentRequest r) ++
  [ Json.Field "utoken" false (JString (UToken r));
    Json.Field "ctoken" false (JString (CToken r));
    Json.Field "cvv" false (JString (CVV r));
    Json.Field "recurring_payment" false (JString (RecurringPayment r)) ].
End SavedCardPaymentRequest.

Module PayTRResponse.
(** [Data] is [None] for a nil map. *)
Record t := Mk {
  Status : string;
  Message : string;
  Data : option (list (string * json)) }.
End PayTRResponse.

Module AddNewCardRequest.
Record t := Mk {
  UserID : string;
  CardOwner : string;
  CardNumber : string;
  ExpiryMonth : string;
  ExpiryYear : string;
  CVV : string;
  CardType : string;
  UserIP : string;
  MerchantOid : string;
  Email : string;
  UserName : string;
  UserAddress : string;
  UserPhone : string;
  MerchantOkURL : string;
  MerchantFailURL : string;
  ClientLang : string;
  Currency : string;
  PaymentAmount : float64 }.
End AddNewCardRequest.

Module RefundRequest.
Record t := Mk {
  MerchantOid : string;
  ReturnAmount : float64;
  ReferenceNo : string }.
End RefundRequest.

Module StatusInquiryRequest.
Record t := Mk { MerchantOid : string }.
End StatusInquiryRequest.

Module SubmerchantPayment.
Record t := Mk {
  SubmerchantId : string;
  SubmerchantPrice : string;
  SubmerchantPayoutRate : string;
  SubmerchantPayoutAmount : string }.
End SubmerchantPayment.

Module StatusInquiryResponse.
Record t := Mk {
  Status : string;
  PaymentAmount : string;
  PaymentTotal : string;
  PaymentDate : string;
  Currency : string;
  NetTutar : string;
  KesintiTutari : string;
  Taksit : string;
  KartMarka : string;
  MaskedPan : string;
  OdemeTipi : string;
  TestMode : string;
  Returns : string;
  ErrNo : string;
  ErrMsg : string;
  SubmerchantPayments : list SubmerchantPayment.t }.
End StatusInquiryResponse.

Module TransactionDetailsRequest.
Record t := Mk {
  StartDate : string;
  EndDate : string;
  Dummy : Z }.
End TransactionDetailsRequest.

Module Transaction.
Record t := Mk {
  IslemTipi : string;
  NetTutar : string;
  KesintiTutari : string;
  KesintiOrani : string;
  IslemTutari : string;
  OdemeTutari : string;
  IslemTarihi : string;
  ParaBirimi : string;
  Taksit : string;
  KartMarka : string;
  KartNo : string;
  SiparisNo : string;
  OdemeTipi : string }.
End Transaction.

Module TransactionDetailsResponse.
Record t := Mk {
  Status : string;
  Transactions : list Transaction.t;
  ErrMsg : string }.
End TransactionDetailsResponse.

End domain.

#[export] Instance Marshal_NewCardPaymentRequest
  : Marshaler domain.NewCardPaymentRequest.t :=
  fun r => Json.marshal_struct (domain.NewCardPaymentRequest.fields r).

#[export] Instance Marshal_SavedCardPaymentRequest
  : Marshaler domain.SavedCardPaymentRequest.t :=
  fun r => Json.marshal_struct (domain.SavedCardPaymentRequest.fields r).

(** ** strings.EqualFold *)

Module strings.

Definition is_upper (c : ascii) : bool :=
  let b := Bytes.byte_of_ascii c in (65 <=? b) && (b <=? 90).

Definition lower (c : ascii) : ascii :=
  if is_upper c then Bytes.ascii_of_byte (Bytes.byte_of_ascii c + 32) else c.

Definition is_k (c : ascii) : bool := Ascii.eqb (lower c) "k".
Definition is_s (c : ascii) : bool := Ascii.eqb (lower c) "s".

(** [strings.EqualFold(s, t)] for an ASCII [t] (a Go field name).  An
    ASCII byte of [s] matches the byte of [t] up to letter case.  Of the
    runes outside ASCII only two fold to an ASCII letter: U+212A (Kelvin
    sign, bytes E2 84 AA) folds to 'k' and U+017F (long s, bytes C5 BF)
    to 's'; any other one, and a byte that is not valid UTF-8, matches
    nothing in [t]. *)
Fixpoint EqualFold (s t : string) {struct t} : bool :=
  match t with
  | EmptyString => match s with EmptyString => true | _ => false end
  | String ct t' =>
      match s with
      | EmptyString => false
      | String cs s' =>
          if Bytes.byte_of_ascii cs <? 128
          then Ascii.eqb (lower cs) (lower ct) && EqualFold s' t'
          else match s' with
               | String c1 (String c2 s3) =>
                   if (Bytes.byte_of_ascii cs =? 0xE2) && (Bytes.byte_of_ascii c1 =? 0x84)
                      && (Bytes.byte_of_ascii c2 =? 0xAA)
                   then is_k ct && EqualFold s3 t'
                   else if (Bytes.byte_of_ascii cs =? 0xC5) && (Bytes.byte_of_ascii c1 =? 0xBF)
                   then is_s ct && EqualFold (String c2 s3) t'
                   else false
               | String c1 s2 =>
                   if (Bytes.byte_of_ascii cs =? 0xC5) && (Bytes.byte_of_ascii c1 =? 0xBF)
                   then is_s ct && EqualFold s2 t'
                   else false
               | EmptyString => false
               end
      end
  end.

(** Insertion of [x] in a list sorted bytewise, for [sort.Strings]. *)
Fixpoint insert (x : string) (l : list string) : list string :=
  match l with
  | [] => [x]
  | y :: rest => if String.leb x y then x :: l else y :: insert x rest
  end.

Definition Sort (l : list string) : list string :=
  List.fold_right insert [] l.

Definition newline : string := String (ascii_of_nat 10) "".

(** [strings.Join] *)
Definition Join (elems : list string) (sep : string) : string :=
  String.concat sep elems.

End strings.

(** [strconv.Itoa] of a number that is not negative. *)
Definition Itoa (n : Z) : string :=
  if n <=? 0 then "0" else string_of_list_ascii (strconv.digits_of n).

(** ** The runtime the service runs in *)

Module http.

(** A response body: the bytes [io.ReadAll] gets out of it, or the error
    the read ends with. *)
Inductive body :=
| Bytes (content : string)
| Broken (err : error).

(** The request body is kept as the JSON document whose rendering
    [bytes.NewBuffer(jsonData)] holds. *)
Record Request := MkRequest {
  Method : string;
  URL : string;
  Header : list (string * string);
  Body : json }.

Record Response := MkResponse {
  StatusCode : Z;
  RespBody : body }.

(** [req.Header.Set(k, v)] *)
Definition Header_Set (k v : string) (r : Request) : Request :=
  MkRequest (Method r) (URL r)
    ((k, v) :: List.filter (fun kv => negb (String.eqb (fst kv) k)) (Header r))
    (Body r).

End http.

Class Runtime := {
  (** the state of everything outside the process: network and gateway *)
  World : Type;
  (** [net/url.Parse] as [http.NewRequest] uses it: the error, if any *)
  url_Parse : string -> option error;
  (** [json.Unmarshal(body, &result)] for a [PayTRResponse] *)
  json_Unmarshal : string -> result domain.PayTRResponse.t;
  (** [%v] of a decoded JSON value *)
  fmt_v : json -> string;
  (** [&http.Client{Timeout: 10 * time.Second}], the network itself *)
  http_Client : http.Request -> World -> result http.Response * World;
}.

(** [HTTPClient]: anything with a [Do] method. *)
Definition HTTPClient `{Runtime} : Type :=
  http.Request -> World -> result http.Response * World.

Module io.
(** [io.ReadAll] *)
Definition ReadAll (b : http.body) : result string :=
  match b with
  | http.Bytes content => Ok content
  | http.Broken err => Err err
  end.
End io.

(** ** mapstructure.Decode, default configuration *)

Module mapstructure.
Section Decode.
Context `{Runtime}.

Definition typeName (v : json) : string :=
  match v with
  | JNull => "<nil>"
  | JBool _ => "bool"
  | JNumber _ => "float64"
  | JInt _ => "int"
  | JString _ => "string"
  | JArray _ => "[]interface {}"
  | JObject _ => "map[string]interface {}"
  end.

Definition kindName (v : json) : string :=
  match v with
  | JNull => "invalid"
  | JBool _ => "bool"
  | JNumber _ => "float64"
  | JInt _ => "int"
  | JString _ => "string"
  | JArray _ => "slice"
  | JObject _ => "map"
  end.

(** The slower search: the first key the runtime ranges over that
    matches the field name. *)
Fixpoint search (m : list (string * json)) (fieldName : string) : option json :=
  match m with
  | [] => None
  | (k, v) :: rest =>
      if strings.EqualFold k fieldName then Some v else search rest fieldName
  end.

(** The value a struct field is decoded from: the entry under the field
    name itself, else one under a key equal to it up to case. *)
Definition find (m : list (string * json)) (fieldName : string) : option json :=
  match Json.lookup fieldName m with
  | Some v => Some v
  | None => search m fieldName
  end.

Definition qualify (name fieldName : string) : string :=
  if (String.length name =? 0)%nat then fieldName
  else name ++ "." ++ fieldName.

(** [decode] into a string that is still zero: [nil] sets nothing, a
    string is stored, anything else is an error (no weak typing). *)
Definition decodeString (name : string) (data : json) : string * list string :=
  match data with
  | JNull => ("", [])
  | JString s => (s, [])
  | _ => ("", ["'" ++ name ++ "' expected type 'string', got unconvertible type '"
                 ++ typeName data ++ "', value: '" ++ fmt_v data ++ "'"])
  end.

Definition field_string (name : string) (m : list (string * json))
    (fieldName : string) : string * list string :=
  match find m fieldName with
  | None => ("", [])
  | Some v => decodeString (qualify name fieldName) v
  end.

Definition expected_map (name : string) (data : json) : list string :=
  ["'" ++ name ++ "' expected a map, got '" ++ kindName data ++ "'"].

(** [decodeSlice]: the elements are decoded in turn under the names
    [name[0]], [name[1]], ... and their errors collected. *)
Fixpoint decode_elems {A} (elem : string -> json -> A * list string)
    (name : string) (i : Z) (l : list json) : list A * list string :=
  match l with
  | [] => ([], [])
  | x :: rest =>
      let '(a, e1) := elem (name ++ "[" ++ Itoa i ++ "]") x in
      let '(l', e2) := decode_elems elem name (i + 1) rest in
      (a :: l', e1 ++ e2)%list
  end.

Definition decodeSlice {A} (elem : string -> json -> A * list string)
    (name : string) (data : json) : list A * list string :=
  match data with
  | JNull => ([], [])
  | JArray l => decode_elems elem name 0 l
  | _ => ([], ["'" ++ name ++ "': source data must be an array or slice, got "
                 ++ kindName data])
  end.

Definition field_slice {A} (elem : string -> json -> A * list string)
    (name : string) (m : list (string * json)) (fieldName : string)
    : list A * list string :=
  match find m fieldName with
  | None => ([], [])
  | Some v => decodeSlice elem (qualify name fieldName) v
  end.

Import domain.

Definition decode_SubmerchantPayment (name : string) (data : json)
    : SubmerchantPayment.t * list string :=
  match data with
  | JNull => (SubmerchantPayment.Mk "" "" "" "", [])
  | JObject m =>
      let '(f1, e1) := field_string name m "SubmerchantId" in
      let '(f2, e2) := field_string name m "SubmerchantPrice" in
      let '(f3, e3) := field_string name m "SubmerchantPayoutRate" in
      let '(f4, e4) := field_string name m "SubmerchantPayoutAmount" in
      (SubmerchantPayment.Mk f1 f2 f3 f4, e1 ++ e2 ++ e3 ++ e4)%list
  | _ => (SubmerchantPayment.Mk "" "" "" "", expected_map name data)
  end.

Definition decode_Transaction (name : string) (data : json)
    : Transaction.t * list string :=
  match data with
  | JNull => (Transaction.Mk "" "" "" "" "" "" "" "" "" "" "" "" "", [])
  | JObject m =>
      let '(f1, e1) := field_string name m "IslemTipi" in
      let '(f2, e2) := field_string name m "NetTutar" in
      let '(f3, e3) := field_string name m "KesintiTutari" in
      let '(f4, e4) := field_string name m "KesintiOrani" in
      let '(f5, e5) := field_string name m "IslemTutari" in
      let '(f6, e6) := field_string name m "OdemeTutari" in
      let '(f7, e7) := field_string name m "IslemTarihi" in
      let '(f8, e8) := field_string name m "ParaBirimi" in
      let '(f9, e9) := field_string name m "Taksit" in
      let '(f10, e10) := field_string name m "KartMarka" in
      let '(f11, e11) := field_string name m "KartNo" in
      let '(f12, e12) := field_string name m "SiparisNo" in
      let '(f13, e13) := field_string name m "OdemeTipi" in
      (Transaction.Mk f1 f2 f3 f4 f5 f6 f7 f8 f9 f10 f11 f12 f13,
       e1 ++ e2 ++ e3 ++ e4 ++ e5 ++ e6 ++ e7 ++ e8 ++ e9 ++ e10 ++ e11
          ++ e12 ++ e13)%list
  | _ => (Transaction.Mk "" "" "" "" "" "" "" "" "" "" "" "" "",
          expected_map name data)
  end.

(** [decodeStructFromMap] into a zero [StatusInquiryResponse]. *)
Definition decode_StatusInquiryResponse (m : list (string * json))
    : StatusInquiryResponse.t * list string :=
  let name := "" in
  let '(f1, e1) := field_string name m "Status" in
  let '(f2, e2) := field_string name m "PaymentAmount" in
  let '(f3, e3) := field_string name m "PaymentTotal" in
  let '(f4, e4) := field_string name m "PaymentDate" in
  let '(f5, e5) := field_string name m "Currency" in
  let '(f6, e6) := field_string name m "NetTutar" in
  let '(f7, e7) := field_string name m "KesintiTutari" in
  let '(f8, e8) := field_string name m "Taksit" in
  let '(f9, e9) := field_string name m "KartMarka" in
  let '(f10, e10) := field_string name m "MaskedPan" in
  let '(f11, e11) := field_string name m "OdemeTipi" in
  let '(f12, e12) := field_string name m "TestMode" in
  let '(f13, e13) := field_string name m "Returns" in
  let '(f14, e14) := field_string name m "ErrNo" in
  let '(f15, e15) := field_string name m "ErrMsg" in
  let '(f16, e16) :=
    field_slice decode_SubmerchantPayment name m "SubmerchantPayments" in
  (StatusInquiryResponse.Mk f1 f2 f3 f4 f5 f6 f7 f8 f9 f10 f11 f12 f13 f14
     f15 f16,
   e1 ++ e2 ++ e3 ++ e4 ++ e5 ++ e6 ++ e7 ++ e8 ++ e9 ++ e10 ++ e11 ++ e12
      ++ e13 ++ e14 ++ e15 ++ e16)%list.

(** [decodeStructFromMap] into a zero [TransactionDetailsResponse]. *)
Definition decode_TransactionDetailsResponse (m : list (string * json))
    : TransactionDetailsResponse.t * list string :=
  let name := "" in
  let '(f1, e1) := field_string name m "Status" in
  let '(f2, e2) := field_slice decode_Transaction name m "Transactions" in
  let '(f3, e3) := field_string name m "ErrMsg" in
  (TransactionDetailsResponse.Mk f1 f2 f3, e1 ++ e2 ++ e3)%list.

(** [mapstructure.Decode(data, &result)] where [data] is the [Data] map
    of an envelope and [result] a zero struct.  A nil map has no keys:
    nothing is set and nothing fails. *)
Definition Decode {A} (decode : list (string * json) -> A * list string)
    (data : option (list (string * json))) : result A :=
  let '(a, errs) := decode (match data with Some m => m | None => [] end) in
  match errs with
  | [] => Ok a
  | _ => Err (mapstructure_Error errs)
  end.

End Decode.
End mapstructure.

(** [err.Error()] *)
Definition Error (err : error) : string :=
  match err with
  | errorString msg => msg
  | UnsupportedValueError str => "json: unsupported value: " ++ str
  | mapstructure_Error errs =>
      Itoa (Z.of_nat (List.length errs)) ++ " error(s) decoding:"
        ++ strings.newline ++ strings.newline
        ++ strings.Join (strings.Sort (List.map (fun e => "* " ++ e) errs))
             strings.newline
  | foreign _ msg => msg
  end.

Module Errorf.
(** [fmt.Errorf(format, a...)] without [%w]: an error whose text is the
    formatted string. *)
Definition Errorf (format : string) (a : list fmt.operand) : error :=
  errorString (fmt.Sprintf format a).
End Errorf.

(** ** Package payment *)

Module payment.

Import domain.

(** The anonymous request structs of the secondary endpoints. *)
Module RefundPaymentReq.
Record t := Mk {
  MerchantID : string;
  MerchantOid : string;
  ReturnAmount : float64;
  PayTRToken : string;
  ReferenceNo : string }.
Definition set_PayTRToken (tok : string) (r : t) : t :=
  Mk (MerchantID r) (MerchantOid r) (ReturnAmount r) tok (ReferenceNo r).
Definition fields (r : t) : list Json.field :=
  [ Json.Field "merchant_id" false (JString (MerchantID r));
    Json.Field "merchant_oid" false (JString (MerchantOid r));
    Json.Field "return_amount" false (JNumber (ReturnAmount r));
    Json.Field "paytr_token" false (JString (PayTRToken r));
    Json.Field "reference_no" true (JString (ReferenceNo r)) ].
End RefundPaymentReq.

Module StatusInquiryReq.
Record t := Mk {
  MerchantID : string;
  MerchantOid : string;
  PayTRToken : string }.
Definition set_PayTRToken (tok : string) (r : t) : t :=
  Mk (MerchantID r) (MerchantOid r) tok.
Definition fields (r : t) : list Json.field :=
  [ Json.Field "merchant_id" false (JString (MerchantID r));
    Json.Field "merchant_oid" false (JString (MerchantOid r));
    Json.Field "paytr_token" false (JString (PayTRToken r)) ].
End StatusInquiryReq.

Module TransactionDetailsReq.
Record t := Mk {
  MerchantID : string;
  StartDate : string;
  EndDate : string;
  Dummy : Z;
  PayTRToken : string }.
Definition set_PayTRToken (tok : string) (r : t) : t :=
  Mk (MerchantID r) (StartDate r) (EndDate r) (Dummy r) tok.
Definition fields (r : t) : list Json.field :=
  [ Json.Field "merchant_id" false (JString (MerchantID r));
    Json.Field "start_date" false (JString (StartDate r));
    Json.Field "end_date" false (JString (EndDate r));
    Json.Field "dummy" true (JInt (Dummy r));
    Json.Field "paytr_token" false (JString (PayTRToken r)) ].
End TransactionDetailsReq.

Module BinDetailsReq.
Record t := Mk {
  MerchantID : string;
  BinNumber : string;
  PayTRToken : string }.
Definition fields (r : t) : list Json.field :=
  [ Json.Field "merchant_id" false (JString (MerchantID r));
    Json.Field "bin_number" false (JString (BinNumber r));
    Json.Field "paytr_token" false (JString (PayTRToken r)) ].
End BinDetailsReq.

Module SavedCardsReq.
Record t := Mk {
  MerchantID : string;
  UToken : string;
  PayTRToken : string }.
Definition fields (r : t) : list Json.field :=
  [ Json.Field "merchant_id" false (JString (MerchantID r));
    Json.Field "utoken" false (JString (UToken r));
    Json.Field "paytr_token" false (JString (PayTRToken r)) ].
End SavedCardsReq.

Module DeleteSavedCardReq.
Record t := Mk {
  MerchantID : string;
  UToken : string;
  CToken : string;
  PayTRToken : string }.
Definition fields (r : t) : list Json.field :=
  [ Json.Field "merchant_id" false (JString (MerchantID r));
    Json.Field "utoken" false (JString (UToken r));
    Json.Field "ctoken" false (JString (CToken r));
    Json.Field "paytr_token" false (JString (PayTRToken r)) ].
End DeleteSavedCardReq.

#[export] Instance Marshal_RefundPaymentReq : Marshaler RefundPaymentReq.t :=
  fun r => Json.marshal_struct (RefundPaymentReq.fields r).
#[export] Instance Marshal_StatusInquiryReq : Marshaler StatusInquiryReq.t :=
  fun r => Json.marshal_struct (StatusInquiryReq.fields r).
#[export] Instance Marshal_TransactionDetailsReq
  : Marshaler TransactionDetailsReq.t :=
  fun r => Json.marshal_struct (TransactionDetailsReq.fields r).
#[export] Instance Marshal_BinDetailsReq : Marshaler BinDetailsReq.t :=
  fun r => Json.marshal_struct (BinDetailsReq.fields r).
#[export] Instance Marshal_SavedCardsReq : Marshaler SavedCardsReq.t :=
  fun r => Json.marshal_struct (SavedCardsReq.fields r).
#[export] Instance Marshal_DeleteSavedCardReq : Marshaler DeleteSavedCardReq.t :=
  fun r => Json.marshal_struct (DeleteSavedCardReq.fields r).

Section Service.
Context `{Runtime}.

(** What a call does to the outside, in order: a request handed to the
    client's [Do], and a call of [mapstructure.Decode]. *)
Inductive event :=
| EvDo (req : http.Request)
| EvDecode (data : option (list (string * json))).

Record state := MkState { world : World; trace : list event }.

(** A computation of the service: it may talk to the world and is
    recorded in the trace. *)
Definition IO (A : Type) : Type := state -> A * state.

Definition ret {A} (a : A) : IO A := fun st => (a, st).
Definition bind {A B} (m : IO A) (k : A -> IO B) : IO B :=
  fun st => let '(a, st') := m st in k a st'.

Notation "x <- m ;; k" := (bind m (fun x => k))
  (at level 61, m at next level, right associativity).

(** [client.Do(req)] *)
Definition Do (client : HTTPClient) (req : http.Request)
    : IO (result http.Response) :=
  fun st =>
    let '(r, w) := client req (world st) in
    (r, MkState w (trace st ++ [EvDo req])).

(** [mapstructure.Decode(data, &result)] *)
Definition mapstructure_Decode {A}
    (decode : list (string * json) -> A * list string)
    (data : option (list (string * json))) : IO (result A) :=
  fun st =>
    (mapstructure.Decode decode data,
     MkState (world st) (trace st ++ [EvDecode data])).

(** [http.NewRequest(method, url, body)]; the method of this package,
    [POST], is always accepted, the URL has to parse. *)
Definition http_NewRequest (method url : string) (body : json)
    : result http.Request :=
  match url_Parse url with
  | Some err => Err err
  | None => Ok (http.MkRequest method url [] body)
  end.

Record service := Service {
  config : config.PayTRConfig;
  client : HTTPClient }.

Definition SetHTTPClient (s : service) (c : HTTPClient) : service :=
  Service (config s) c.

Definition NewService (cfg : config.PayTRConfig) : service :=
  Service cfg http_Client.

Definition generateToken (s : service) (req : CommonPaymentRequest.t) : string :=
  let hashStr := fmt.Sprintf "%s%s%s%s%s%s%s%s%s%s"
    [ fmt.Str (config.MerchantID (config s));
      fmt.Str (CommonPaymentRequest.UserIP req);
      fmt.Str (CommonPaymentRequest.MerchantOid req);
      fmt.Str (CommonPaymentRequest.Email req);
      fmt.Str (strconv.FormatFloat_f (CommonPaymentRequest.PaymentAmount req) 2);
      fmt.Str (CommonPaymentRequest.PaymentType req);
      fmt.Str (CommonPaymentRequest.InstallmentCount req);
      fmt.Str (CommonPaymentRequest.Currency req);
      fmt.Str (CommonPaymentRequest.TestMode req);
      fmt.Str (CommonPaymentRequest.NonThreeD req) ] in
  let hmacStr := hashStr ++ config.MerchantSalt (config s) in
  let h := hmac.New (Bytes.of_string (config.MerchantKey (config s))) in
  let h := hmac.Write h (Bytes.of_string hmacStr) in
  base64.EncodeToString (hmac.Sum h []).

Definition generateSimpleToken (s : service) (data : string) : string :=
  let hmacStr := data ++ config.MerchantSalt (config s) in
  let h := hmac.New (Bytes.of_string (config.MerchantKey (config s))) in
  let h := hmac.Write h (Bytes.of_string hmacStr) in
  base64.EncodeToString (hmac.Sum h []).

Definition sendRequest {A} `{Marshaler A} (s : service) (req : A) (url : string)
    : IO (result PayTRResponse.t) :=
  match Marshal req with
  | Err err => ret (Err err)
  | Ok jsonData =>
      match http_NewRequest "POST" url jsonData with
      | Err err => ret (Err err)
      | Ok httpReq =>
          let httpReq :=
            http.Header_Set "Content-Type" "application/json" httpReq in
          resp <- Do (client s) httpReq ;;
          match resp with
          | Err err => ret (Err err)
          | Ok resp =>
              match io.ReadAll (http.RespBody resp) with
              | Err err => ret (Err err)
              | Ok body =>
                  match json_Unmarshal body with
                  | Err err => ret (Err err)
                  | Ok result => ret (Ok result)
                  end
              end
          end
      end
  end.

(** *** Payments *)

Definition NewCardPayment (s : service) (req : NewCardPaymentRequest.t)
    : IO (result PayTRResponse.t) :=
  let req := NewCardPaymentRequest.set_PayTRToken
               (generateToken s (NewCardPaymentRequest.CommonPaymentRequest req)) req in
  sendRequest s req (PayTRBaseURL ++ "/odeme").

Definition SavedCardPayment (s : service) (req : SavedCardPaymentRequest.t)
    : IO (result PayTRResponse.t) :=
  let req := SavedCardPaymentRequest.set_PayTRToken
               (generateToken s (SavedCardPaymentRequest.CommonPaymentRequest req)) req in
  sendRequest s req (PayTRBaseURL ++ "/odeme").

Definition RecurringPayment (s : service) (req : SavedCardPaymentRequest.t)
    : IO (result PayTRResponse.t) :=
  let req := SavedCardPaymentRequest.set_RecurringPayment "1" req in
  let req := SavedCardPaymentRequest.set_PayTRToken
               (generateToken s (SavedCardPaymentRequest.CommonPaymentRequest req)) req in
  sendRequest s req (PayTRBaseURL ++ "/odeme").

Definition RefundPayment (s : service) (req : RefundRequest.t)
    : IO (result PayTRResponse.t) :=
  let paytrReq := RefundPaymentReq.Mk
    (config.MerchantID (config s))
    (RefundRequest.MerchantOid req)
    (RefundRequest.ReturnAmount req)
    ""
    (RefundRequest.ReferenceNo req) in
  let hashStr := fmt.Sprintf "%s%s%.2f"
    [ fmt.Str (config.MerchantID (config s));
      fmt.Str (RefundRequest.MerchantOid req);
      fmt.Float64 (RefundRequest.ReturnAmount req) ] in
  let paytrReq :=
    RefundPaymentReq.set_PayTRToken (generateSimpleToken s hashStr) paytrReq in
  sendRequest s paytrReq (PayTRBaseURL ++ "/odeme/iade").

Definition MerchantStatusInquiry (s : service) (req : StatusInquiryRequest.t)
    : IO (result StatusInquiryResponse.t) :=
  let paytrReq := StatusInquiryReq.Mk
    (config.MerchantID (config s))
    (StatusInquiryRequest.MerchantOid req)
    "" in
  let paytrReq := StatusInquiryReq.set_PayTRToken
    (generateSimpleToken s
       (config.MerchantID (config s) ++ StatusInquiryRequest.MerchantOid req))
    paytrReq in
  r <- sendRequest s paytrReq (PayTRBaseURL ++ "/odeme/durum-sorgu") ;;
  match r with
  | Err err => ret (Err err)
  | Ok paytrResp =>
      if negb (String.eqb (PayTRResponse.Status paytrResp) "success")
      then ret (Err (Errorf.Errorf "PayTR error: %s"
                       [fmt.Str (PayTRResponse.Message paytrResp)]))
      else
        d <- mapstructure_Decode mapstructure.decode_StatusInquiryResponse
               (PayTRResponse.Data paytrResp) ;;
        match d with
        | Err err => ret (Err (Errorf.Errorf "error decoding response: %v"
                                 [fmt.Str (Error err)]))
        | Ok result => ret (Ok result)
        end
  end.

Definition GetTransactionDetails (s : service) (req : TransactionDetailsRequest.t)
    : IO (result TransactionDetailsResponse.t) :=
  let paytrReq := TransactionDetailsReq.Mk
    (config.MerchantID (config s))
    (TransactionDetailsRequest.StartDate req)
    (TransactionDetailsRequest.EndDate req)
    (TransactionDetailsRequest.Dummy req)
    "" in
  let paytrReq := TransactionDetailsReq.set_PayTRToken
    (generateSimpleToken s
       (config.MerchantID (config s) ++ TransactionDetailsRequest.StartDate req
          ++ TransactionDetailsRequest.EndDate req))
    paytrReq in
  r <- sendRequest s paytrReq (PayTRBaseURL ++ "/rapor/islem-dokumu") ;;
  match r with
  | Err err => ret (Err err)
  | Ok paytrResp =>
      d <- mapstructure_Decode mapstructure.decode_TransactionDetailsResponse
             (PayTRResponse.Data paytrResp) ;;
      match d with
      | Err err => ret (Err (Errorf.Errorf "error decoding response: %v"
                               [fmt.Str (Error err)]))
      | Ok result => ret (Ok result)
      end
  end.

(** *** Cards *)

Definition GetBinDetails (s : service) (binNumber : string)
    : IO (result PayTRResponse.t) :=
  let req := BinDetailsReq.Mk
    (config.MerchantID (config s))
    binNumber
    (generateSimpleToken s (binNumber ++ config.MerchantID (config s))) in
  sendRequest s req (PayTRBaseURL ++ "/odeme/api/bin-detail").

Definition GetSavedCards (s : service) (utoken : string)
    : IO (result PayTRResponse.t) :=
  let req := SavedCardsReq.Mk
    (config.MerchantID (config s))
    utoken
    (generateSimpleToken s utoken) in
  sendRequest s req (PayTRBaseURL ++ "/odeme/capi/list").

Definition DeleteSavedCard (s : service) (utoken ctoken : string)
    : IO (result PayTRResponse.t) :=
  let req := DeleteSavedCardReq.Mk
    (config.MerchantID (config s))
    utoken
    ctoken
    (generateSimpleToken s (utoken ++ ctoken)) in
  sendRequest s req (PayTRBaseURL ++ "/odeme/capi/delete").

(** The basket literal [[["Card Validation", "1", 1]]] of the source;
    [dquote] is the double quote character. *)
Definition dquote : string := String (ascii_of_nat 34) "".

Definition card_validation_basket : string :=
  "[[" ++ dquote ++ "Card Validation" ++ dquote ++ ", " ++ dquote ++ "1"
    ++ dquote ++ ", 1]]".

Definition AddNewCard (s : service) (req : AddNewCardRequest.t)
    : IO (result PayTRResponse.t) :=
  let paytrReq := NewCardPaymentRequest.Mk
    (CommonPaymentRequest.Mk
       (config.MerchantID (config s))        (* MerchantID *)
       (AddNewCardRequest.UserIP req)        (* UserIP *)
       (AddNewCardRequest.MerchantOid req)   (* MerchantOid *)
       (AddNewCardRequest.Email req)         (* Email *)
       F64.of_1                              (* PaymentAmount *)
       "card"                                (* PaymentType *)
       "TRY"                                 (* Currency *)
       "1"                                   (* TestMode *)
       "0"                                   (* NonThreeD *)
       (AddNewCardRequest.MerchantOkURL req) (* MerchantOkURL *)
       (AddNewCardRequest.MerchantFailURL req) (* MerchantFailURL *)
       (AddNewCardRequest.CardOwner req)     (* UserName *)
       (AddNewCardRequest.UserAddress req)   (* UserAddress *)
       (AddNewCardRequest.UserPhone req)     (* UserPhone *)
       card_validation_basket               (* UserBasket *)
       "1"                                   (* DebugOn *)
       "tr"                                  (* ClientLang *)
       ""                                    (* PayTRToken *)
       "0")                                  (* InstallmentCount *)
    (AddNewCardRequest.CardOwner req)
    (AddNewCardRequest.CardNumber req)
    (AddNewCardRequest.ExpiryMonth req)
    (AddNewCardRequest.ExpiryYear req)
    (AddNewCardRequest.CVV req)
    (AddNewCardRequest.CardType req)
    "1" in
  let paytrReq := NewCardPaymentRequest.set_PayTRToken
    (generateToken s (NewCardPaymentRequest.CommonPaymentRequest paytrReq))
    paytrReq in
  sendRequest s paytrReq (PayTRBaseURL ++ "/odeme").

End Service.
End payment.

(** ** Running a call and reading its trace *)

Module Run.
Section Calls.
Context `{Runtime}.
Import payment.

(** A call made in world [w], with an empty trace to start from. *)
Definition run {A} (m : IO A) (w : World) : A * state := m (MkState w []).

Definition returned {A} (m : IO A) (w : World) : A := fst (run m w).

Definition requests_of (tr : list event) : list http.Request :=
  List.flat_map (fun e => match e with EvDo r => [r] | EvDecode _ => [] end) tr.

Definition decodes_of (tr : list event) : list (option (list (string * json))) :=
  List.flat_map (fun e => match e with EvDo _ => [] | EvDecode d => [d] end) tr.

(** The requests a call hands to the transport, in order. *)
Definition outbound {A} (m : IO A) (w : World) : list http.Request :=
  requests_of (trace (snd (run m w))).

(** The payloads a call hands to [mapstructure.Decode], in order. *)
Definition decoded {A} (m : IO A) (w : World) : list (option (list (string * json))) :=
  decodes_of (trace (snd (run m w))).

(** The request carries [tok] as its [paytr_token]. *)
Definition signed_with (tok : string) (r : http.Request) : Prop :=
  Json.member "paytr_token" (http.Body r) = Some (JString tok).

(** The request is a JSON POST to [url]. *)
Definition posted_to (url : string) (r : http.Request) : Prop :=
  http.Method r = "POST" /\ http.URL r = url
  /\ http.Header r = [("Content-Type", "application/json")].

(** The request [sendRequest] builds for a document and a URL. *)
Definition the_request (url : string) (doc : json) : http.Request :=
  http.MkRequest "POST" url [("Content-Type", "application/json")] doc.

(** What the caller gets out of a transport answer. *)
Definition read_envelope (resp : result http.Response) : result domain.PayTRResponse.t :=
  match resp with
  | Err err => Err err
  | Ok resp =>
      match io.ReadAll (http.RespBody resp) with
      | Err err => Err err
      | Ok body => json_Unmarshal body
      end
  end.

(** The payloads the two decoding endpoints send. *)
Definition status_inquiry_payload (s : service)
    (req : domain.StatusInquiryRequest.t) : StatusInquiryReq.t :=
  StatusInquiryReq.Mk (config.MerchantID (config s))
    (domain.StatusInquiryRequest.MerchantOid req)
    (generateSimpleToken s
       (config.MerchantID (config s) ++ domain.StatusInquiryRequest.MerchantOid req)).

Definition transaction_details_payload (s : service)
    (req : domain.TransactionDetailsRequest.t) : TransactionDetailsReq.t :=
  TransactionDetailsReq.Mk (config.MerchantID (config s))
    (domain.TransactionDetailsRequest.StartDate req)
    (domain.TransactionDetailsRequest.EndDate req)
    (domain.TransactionDetailsRequest.Dummy req)
    (generateSimpleToken s
       (config.MerchantID (config s) ++ domain.TransactionDetailsRequest.StartDate req
          ++ domain.TransactionDetailsRequest.EndDate req)).

(** The error a failed decoding is reported with. *)
Definition decoding_error (err : error) : error :=
  Errorf.Errorf "error decoding response: %v" [fmt.Str (Error err)].

(** The error a refusal of the gateway is reported with. *)
Definition gateway_error (env : domain.PayTRResponse.t) : error :=
  Errorf.Errorf "PayTR error: %s" [fmt.Str (domain.PayTRResponse.Message env)].

Definition decoded_or_error {A} (d : result A) : result A :=
  match d with
  | Err err => Err (decoding_error err)
  | Ok a => Ok a
  end.

(** The request without the member [k] of its JSON body. *)
Definition without_member (k : string) (r : http.Request) : http.Request :=
  http.MkRequest (http.Method r) (http.URL r) (http.Header r)
    (match http.Body r with
     | JObject m => JObject (List.filter (fun kv => negb (String.eqb (fst kv) k)) m)
     | doc => doc
     end).

(** The five stages of [sendRequest]. *)
Inductive stage :=
| Serialize     (* json.Marshal of the payload *)
| Construct     (* http.NewRequest *)
| Transport     (* client.Do *)
| ReadBody      (* io.ReadAll of the response body *)
| Deserialize.  (* json.Unmarshal of the body *)

(** [fails_at s req url w st err]: in a call made in world [w] the stages
    before [st] succeed and [st] fails with [err]. *)
Inductive fails_at {A} `{Marshaler A} (s : service) (req : A) (url : string)
    (w : World) : stage -> error -> Prop :=
| fails_Serialize err :
    Marshal req = Err err ->
    fails_at s req url w Serialize err
| fails_Construct doc err :
    Marshal req = Ok doc ->
    http_NewRequest "POST" url doc = Err err ->
    fails_at s req url w Construct err
| fails_Transport doc httpReq err :
    Marshal req = Ok doc ->
    http_NewRequest "POST" url doc = Ok httpReq ->
    fst (client s (http.Header_Set "Content-Type" "application/json" httpReq) w)
    = Err err ->
    fails_at s req url w Transport err
| fails_ReadBody doc httpReq resp err :
    Marshal req = Ok doc ->
    http_NewRequest "POST" url doc = Ok httpReq ->
    fst (client s (http.Header_Set "Content-Type" "application/json" httpReq) w)
    = Ok resp ->
    io.ReadAll (http.RespBody resp) = Err err ->
    fails_at s req url w ReadBody err
| fails_Deserialize doc httpReq resp body err :
    Marshal req = Ok doc ->
    http_NewRequest "POST" url doc = Ok httpReq ->
    fst (client s (http.Header_Set "Content-Type" "application/json" httpReq) w)
    = Ok resp ->
    io.ReadAll (http.RespBody resp) = Ok body ->
    json_Unmarshal body = Err err ->
    fails_at s req url w Deserialize err.

(** All five stages succeed and the decoder yields [env]. *)
Inductive succeeds {A} `{Marshaler A} (s : service) (req : A) (url : string)
    (w : World) (env : domain.PayTRResponse.t) : Prop :=
| all_stages doc httpReq resp body :
    Marshal req = Ok doc ->
    http_NewRequest "POST" url doc = Ok httpReq ->
    fst (client s (http.Header_Set "Content-Type" "application/json" httpReq) w)
    = Ok resp ->
    io.ReadAll (http.RespBody resp) = Ok body ->
    json_Unmarshal body = Ok env ->
    succeeds s req url w env.

(** How many requests a call that fails at a stage has made by then. *)
Definition posts_before_failure (st : stage) : nat :=
  match st with
  | Serialize | Construct => 0
  | Transport | ReadBody | Deserialize => 1
  end.

(** The paths of the endpoints. *)
Definition endpoint_paths : list string :=
  [ "/odeme"; "/odeme/iade"; "/odeme/durum-sorgu"; "/rapor/islem-dokumu";
    "/odeme/api/bin-detail"; "/odeme/capi/list"; "/odeme/capi/delete" ].

(** The payload holds the string [v] under every key that names the
    [Status] field, and there is such a key. *)
Definition carries_status (m : list (string * json)) (v : string) : Prop :=
  (exists k, List.In (k, JString v) m /\ strings.EqualFold k "Status" = true)
  /\ (forall k v', List.In (k, v') m -> strings.EqualFold k "Status" = true ->
                   v' = JString v).

(** The payload has no key that names the [Status] field. *)
Definition no_status (m : list (string * json)) : Prop :=
  forall k v, List.In (k, v) m -> strings.EqualFold k "Status" = false.

(** The JSON body of the request has the members [ms]. *)
Definition has_members (ms : list (string * json)) (r : http.Request) : Prop :=
  List.Forall (fun kv => Json.member (fst kv) (http.Body r) = Some (snd kv)) ms.

(** The request carries [tok] as its token and, as its merchant ID, [id]
    as the encoder writes it. *)
Definition carries_identity (tok id : string) (r : http.Request) : Prop :=
  signed_with tok r
  /\ Json.member "merchant_id" (http.Body r) = Some (JString (Json.written id)).

(** The call made one request, and it satisfies [P]. *)
Definition sends_one (P : http.Request -> Prop) (l : list http.Request) : Prop :=
  exists r, l = [r] /\ P r.

End Calls.
End Run.

(** ** The token schemes as the specification words them *)

Module Spec.

Definition xor_pad (c : Z) (k0 : list Z) : list Z :=
  List.map (fun b => Z.lxor b c) k0.

(** HMAC as RFC 2104 defines it over SHA-256 (block size 64): the key,
    hashed first when longer than a block, is padded with zeros to a block
    [k0]; the result is H((k0 xor opad) || H((k0 xor ipad) || text)). *)
Definition HMAC_SHA256 (key text : list Z) : list Z :=
  let k := if (64 <? List.length key)%nat then sha256.Sum256 key else key in
  let k0 := (k ++ List.repeat 0 (64 - List.length k))%list in
  sha256.Sum256 (xor_pad 0x5c k0 ++ sha256.Sum256 (xor_pad 0x36 k0 ++ text)).

(** Append the salt, hash with the secret key, encode as base64. *)
Definition token (cfg : config.PayTRConfig) (input : string) : string :=
  base64.EncodeToString
    (HMAC_SHA256 (Bytes.of_string (config.MerchantKey cfg))
       (Bytes.of_string (input ++ config.MerchantSalt cfg))).

(** The amount with two decimal places. *)
Definition amount2 (f : float64) : string := strconv.FormatFloat_f f 2.

(** The signed fields of the primary scheme, in their order. *)
Definition primary_fields (cfg : config.PayTRConfig)
    (req : domain.CommonPaymentRequest.t) : list string :=
  [ config.MerchantID cfg;
    domain.CommonPaymentRequest.UserIP req;
    domain.CommonPaymentRequest.MerchantOid req;
    domain.CommonPaymentRequest.Email req;
    amount2 (domain.CommonPaymentRequest.PaymentAmount req);
    domain.CommonPaymentRequest.PaymentType req;
    domain.CommonPaymentRequest.InstallmentCount req;
    domain.CommonPaymentRequest.Currency req;
    domain.CommonPaymentRequest.TestMode req;
    domain.CommonPaymentRequest.NonThreeD req ].

Definition primary_input (cfg : config.PayTRConfig)
    (req : domain.CommonPaymentRequest.t) : string :=
  String.concat "" (primary_fields cfg req).

Definition primary_token (cfg : config.PayTRConfig)
    (req : domain.CommonPaymentRequest.t) : string :=
  token cfg (primary_input cfg req).

(** The endpoints of the secondary scheme with the values each signs. *)
Inductive endpoint :=
| Refund (orderID : string) (amount : float64)
| StatusInquiry (orderID : string)
| TransactionReport (startDate endDate : string)
| BinLookup (binNumber : string)
| SavedCardList (userToken : string)
| SavedCardDelete (userToken cardToken : string).

(** The table of pre-salt token inputs. *)
Definition secondary_input (cfg : config.PayTRConfig) (e : endpoint) : string :=
  match e with
  | Refund orderID amount => config.MerchantID cfg ++ orderID ++ amount2 amount
  | StatusInquiry orderID => config.MerchantID cfg ++ orderID
  | TransactionReport startDate endDate =>
      config.MerchantID cfg ++ startDate ++ endDate
  | BinLookup binNumber => binNumber ++ config.MerchantID cfg
  | SavedCardList userToken => userToken
  | SavedCardDelete userToken cardToken => userToken ++ cardToken
  end.

Definition secondary_token (cfg : config.PayTRConfig) (e : endpoint) : string :=
  token cfg (secondary_input cfg e).

(** A rendering [-]d...d.dd: an optional sign, at least one digit, a
    point, exactly two digits. *)
Definition is_digit (c : ascii) : Prop :=
  48 <= Bytes.byte_of_ascii c <= 57.

Definition two_decimals (s : string) : Prop :=
  exists (sign : string) (int : list ascii) (d1 d2 : ascii),
    s = sign ++ string_of_list_ascii (int ++ ["."%char; d1; d2])
    /\ (sign = "" \/ sign = "-")
    /\ int <> [] /\ List.Forall is_digit int /\ is_digit d1 /\ is_digit d2.

(** The digits of a decimal are digit characters. *)
Definition wf_decimal (a : strconv.decimal) : Prop :=
  List.Forall is_digit (strconv.d a).

(** The fields of a request the primary scheme reads. *)
Definition signed_part (req : domain.CommonPaymentRequest.t)
    : string * string * string * float64 * string * string * string * string * string :=
  (domain.CommonPaymentRequest.UserIP req,
   domain.CommonPaymentRequest.MerchantOid req,
   domain.CommonPaymentRequest.Email req,
   domain.CommonPaymentRequest.PaymentAmount req,
   domain.CommonPaymentRequest.PaymentType req,
   domain.CommonPaymentRequest.InstallmentCount req,
   domain.CommonPaymentRequest.Currency req,
   domain.CommonPaymentRequest.TestMode req,
   domain.CommonPaymentRequest.NonThreeD req).

End Spec.

(** ** A runtime for the package's tests

    [payment_test.go] replaces the transport by a mock that answers every
    request with one fixed envelope, rendered by [json.Marshal].  The
    runtime below is that setting: the world is the list of the requests
    the mock has seen, and the JSON decoder knows the bodies the mock can
    send. *)

Module mock.

Import domain.

(** A JSON string literal without escapes. *)
Definition q (s : string) : string := payment.dquote ++ s ++ payment.dquote.

(** The envelope of [TestSavedCardPayment], and its wire form. *)
Definition saved_card_envelope : PayTRResponse.t :=
  PayTRResponse.Mk "success" "Saved card payment successful" None.

Definition saved_card_body : string :=
  "{" ++ q "status" ++ ":" ++ q "success" ++ "," ++ q "message" ++ ":"
    ++ q "Saved card payment successful" ++ "}".

(** The envelope of [TestMerchantStatusInquiry]. *)
Definition status_envelope : PayTRResponse.t :=
  PayTRResponse.Mk "success" "Merchant status retrieved"
    (Some [ ("currency", JString "TRY");
            ("payment_amount", JString "100.00");
            ("status", JString "success") ]).

Definition status_body : string :=
  "{" ++ q "status" ++ ":" ++ q "success" ++ "," ++ q "message" ++ ":"
    ++ q "Merchant status retrieved" ++ "," ++ q "data" ++ ":{"
    ++ q "currency" ++ ":" ++ q "TRY" ++ "," ++ q "payment_amount" ++ ":"
    ++ q "100.00" ++ "," ++ q "status" ++ ":" ++ q "success" ++ "}}".

(** A gateway refusal. *)
Definition failed_envelope : PayTRResponse.t :=
  PayTRResponse.Mk "failed" "Order not found" None.

Definition failed_body : string :=
  "{" ++ q "status" ++ ":" ++ q "failed" ++ "," ++ q "message" ++ ":"
    ++ q "Order not found" ++ "}".

(** A success envelope whose payload has a number where the typed result
    wants a string. *)
Definition mistyped_envelope : PayTRResponse.t :=
  PayTRResponse.Mk "success" "ok" (Some [("status", JBool true)]).

Definition mistyped_body : string :=
  "{" ++ q "status" ++ ":" ++ q "success" ++ "," ++ q "message" ++ ":"
    ++ q "ok" ++ "," ++ q "data" ++ ":{" ++ q "status" ++ ":true}}".

Definition bodies : list (string * PayTRResponse.t) :=
  [ (saved_card_body, saved_card_envelope);
    (status_body, status_envelope);
    (failed_body, failed_envelope);
    (mistyped_body, mistyped_envelope) ].

Fixpoint assoc (k : string) (l : list (string * PayTRResponse.t))
    : option PayTRResponse.t :=
  match l with
  | [] => None
  | (k', v) :: rest => if String.eqb k' k then Some v else assoc k rest
  end.

Definition unmarshal (body : string) : result PayTRResponse.t :=
  match assoc body bodies with
  | Some env => Ok env
  | None => Err (foreign "encoding/json" "invalid character looking for beginning of value")
  end.

(** URLs without a space or a control character parse. *)
Definition parse_url (u : string) : option error :=
  if List.forallb (fun c => (32 <? Bytes.byte_of_ascii c) && (Bytes.byte_of_ascii c <? 127))
       (list_ascii_of_string u)
  then None
  else Some (foreign "net/url" "invalid character in URL").

Definition show_value (v : json) : string :=
  match v with
  | JString s => s
  | JBool true => "true"
  | JBool false => "false"
  | JNull => "<nil>"
  | _ => "?"
  end.

(** No network in this runtime: the default client cannot connect. *)
Definition offline (r : http.Request) (w : list http.Request)
    : result http.Response * list http.Request :=
  (Err (foreign "net/http" "dial tcp: connection refused"), (w ++ [r])%list).

Definition runtime : Runtime :=
  {| World := list http.Request;
     url_Parse := parse_url;
     json_Unmarshal := unmarshal;
     fmt_v := show_value;
     http_Client := offline |}.

(** [mockHTTPClient]: every request is answered 200 with [body]. *)
Definition mockHTTPClient (body : string) : @HTTPClient runtime :=
  fun r w => (Ok (http.MkResponse 200 (http.Bytes body)), (w ++ [r])%list).

(** A transport whose response body cannot be read to its end. *)
Definition brokenBodyClient : @HTTPClient runtime :=
  fun r w => (Ok (http.MkResponse 200 (http.Broken (foreign "io" "unexpected EOF"))),
              (w ++ [r])%list).

Definition test_config : config.PayTRConfig :=
  config.Mk "test_merchant" "test_key" "test_salt".

(** [setupTestService] *)
Definition setupTestService (body : string) : @payment.service runtime :=
  @payment.SetHTTPClient runtime (@payment.NewService runtime test_config)
    (mockHTTPClient body).

(** The services of the tests, by the envelope their mock answers with. *)
Definition s_saved : @payment.service runtime := setupTestService saved_card_body.
Definition s_status : @payment.service runtime := setupTestService status_body.
Definition s_failed : @payment.service runtime := setupTestService failed_body.

Definition inquiry : StatusInquiryRequest.t :=
  StatusInquiryRequest.Mk "test_order_123".

(** The request of [TestNewCardPayment]; [amount] is its [PaymentAmount]. *)
Definition common_request (userIP oid : string) (amount : float64)
    : CommonPaymentRequest.t :=
  CommonPaymentRequest.Mk "test_merchant" userIP oid "test@example.com" amount
    "card" "TRY" "1" "" "" "" "" "" "" "" "" "" "" "".

Definition new_card_request (amount : float64) : NewCardPaymentRequest.t :=
  NewCardPaymentRequest.Mk (common_request "127.0.0.1" "test_order_123" amount)
    "John Doe" "4111111111111111" "12" "2025" "123" "" "".

Definition saved_card_request (amount : float64) : SavedCardPaymentRequest.t :=
  SavedCardPaymentRequest.Mk (common_request "127.0.0.1" "test_order_456" amount)
    "test_utoken" "test_ctoken" "123" "".

(** An add-card request whose user and card owner have different names. *)
Definition add_card_request : AddNewCardRequest.t :=
  AddNewCardRequest.Mk "test_user" "John Doe" "4111111111111111" "12" "2025"
    "123" "" "127.0.0.1" "card_order_1" "jane@example.com" "Jane Roe"
    "1 Main St" "5550100" "https://shop.example/ok" "https://shop.example/fail"
    "en" "USD" F64.of_50.

End mock.

(** ** Further readings of a call *)

Module More.
Section Readings.
Context `{Runtime}.
Import payment.

(** The tokens the requests carry. *)
Definition tokens_sent (l : list http.Request) : list (option json) :=
  List.map (fun r => Json.member "paytr_token" (http.Body r)) l.

(** A transport that answers as [c] does, with the status code replaced. *)
Definition with_status (code : Z) (c : HTTPClient) : HTTPClient :=
  fun r w =>
    (match fst (c r w) with
     | Ok resp => Ok (http.MkResponse code (http.RespBody resp))
     | Err err => Err err
     end,
     snd (c r w)).

(** The fields of an [AddNewCardRequest] that [AddNewCard] reads. *)
Definition add_card_used (req : domain.AddNewCardRequest.t)
    : list string :=
  [ domain.AddNewCardRequest.CardOwner req;
    domain.AddNewCardRequest.CardNumber req;
    domain.AddNewCardRequest.ExpiryMonth req;
    domain.AddNewCardRequest.ExpiryYear req;
    domain.AddNewCardRequest.CVV req;
    domain.AddNewCardRequest.CardType req;
    domain.AddNewCardRequest.UserIP req;
    domain.AddNewCardRequest.MerchantOid req;
    domain.AddNewCardRequest.Email req;
    domain.AddNewCardRequest.UserAddress req;
    domain.AddNewCardRequest.UserPhone req;
    domain.AddNewCardRequest.MerchantOkURL req;
    domain.AddNewCardRequest.MerchantFailURL req ].

(** The zero values of the two typed results. *)
Definition zero_StatusInquiryResponse : domain.StatusInquiryResponse.t :=
  domain.StatusInquiryResponse.Mk "" "" "" "" "" "" "" "" "" "" "" "" "" "" "" [].

Definition zero_TransactionDetailsResponse : domain.TransactionDetailsResponse.t :=
  domain.TransactionDetailsResponse.Mk "" [] "".

(** The key has an underscore in it. *)
Definition has_underscore (k : string) : Prop :=
  List.In "_"%char (list_ascii_of_string k).

(** A decoded value a string field accepts: a string, or [nil]. *)
Definition string_or_nil (v : json) : bool :=
  match v with
  | JString _ | JNull => true
  | _ => false
  end.

(** The character is one of the 64 of the standard base64 alphabet. *)
Definition is_base64_char (c : ascii) : bool :=
  List.existsb (Ascii.eqb c) (list_ascii_of_string base64.encodeStd).

(** The text is 43 characters of the base64 alphabet and one padding
    character: what base64 makes of 32 bytes. *)
Definition well_formed_token (tok : string) : Prop :=
  String.length tok = 44%nat
  /\ tok = String.substring 0 43 tok ++ "="
  /\ List.forallb is_base64_char
       (list_ascii_of_string (String.substring 0 43 tok)) = true.

(** The request carries a well-formed token. *)
Definition carries_token (r : http.Request) : Prop :=
  exists tok, Run.signed_with tok r /\ well_formed_token tok.

(** Whatever request of [l1] and of [l2] one takes, the two carry the
    same token. *)
Definition same_token (l1 l2 : list http.Request) : Prop :=
  forall r1 r2, List.In r1 l1 -> List.In r2 l2 ->
    Json.member "paytr_token" (http.Body r1)
    = Json.member "paytr_token" (http.Body r2).

(** The renderings of the amounts that are not finite. *)
Definition not_a_number_text (str : string) : Prop :=
  str = "NaN" \/ str = "+Inf" \/ str = "-Inf".

End Readings.
End More.
Example sha256_constants :
  List.length sha256.K = 64%nat /\ List.length sha256.init = 8%nat
  /\ List.hd 0 sha256.K = 1116352408 /\ List.last sha256.K 0 = 3329325298
  /\ List.hd 0 sha256.init = 1779033703 /\ List.last sha256.init 0 = 1541459225.
Proof. vm_compute. repeat split; reflexivity. Qed.

Example sha256_abc :
  hex_of (sha256.Sum256 (Bytes.of_string "abc"))
  = "ba7816bf8f01cfea414140de5dae2223b00361a396177a9cb410ff61f20015ad".
Proof. vm_compute. reflexivity. Qed.

Example hmac_rfc4231_case2 :
  hex_of (hmac.Sum (hmac.Write (hmac.New (Bytes.of_string "Jefe"))
                      (Bytes.of_string "what do ya want for nothing?")) [])
  = "5bdcc146bf60754e6a042426089575c75a003f089d2739839dec58b964ec3843".
Proof. vm_compute. reflexivity. Qed.

Example base64_foobar : base64.EncodeToString (Bytes.of_string "fooba") = "Zm9vYmE=".
Proof. vm_compute. reflexivity. Qed.

Example fmt_tests :
  List.map (fun f => strconv.FormatFloat_f f 2)
    [F64.of_100; F64.of_99_999; F64.of_50; F64.of_1; F64.of_0_125;
     F64.of_100_001; F64.zero; F64.neg_zero; F64.NaN; F64.Inf;
     F64.min_denormal; 0x3f847ae147ae147b; 0x3f789374bc6a7efa; 0xc058ffef9db22d0e;
     0x3fd8000000000000; 0x3fefae147ae147ae; 0x3feff5c28f5c28f6]
  = ["100.00"; "100.00"; "50.00"; "1.00"; "0.12"; "100.00"; "0.00"; "-0.00";
     "NaN"; "+Inf"; "0.00"; "0.01"; "0.01"; "-100.00"; "0.38"; "0.99"; "1.00"].
Proof. vm_compute. reflexivity. Qed.

Example sprintf_tests :
  (fmt.Sprintf "%s%s%.2f" [fmt.Str "m"; fmt.Str "oid"; fmt.Float64 F64.of_50],
   fmt.Sprintf "PayTR error: %s" [fmt.Str "declined"],
   fmt.Sprintf "100%% %v" [fmt.Str "ok"])
  = ("moid50.00", "PayTR error: declined", "100% ok").
Proof. vm_compute. reflexivity. Qed.

Example EqualFold_tests :
  List.map (fun k => strings.EqualFold k "Status")
    ["Status"; "status"; "STATUS"; "statu"; "status_"; "Statvs";
     String (ascii_of_nat 197) (String (ascii_of_nat 191) "tatus")]
  = [true; true; true; false; false; false; true].
Proof. vm_compute. reflexivity. Qed.

(** The string encoder on the cases of [DecodeRuneInString]: ASCII and
    well-formed encodings of two, three and four bytes are kept (U+FFFD
    itself too); a lone continuation byte, a byte that cannot start an
    encoding, a truncated encoding, an overlong form, a surrogate and a
    code point above U+10FFFF give one U+FFFD for each of their bytes. *)
Example written_tests :
  let b := fun l => Bytes.to_string l in
  let fffd := [0xEF; 0xBF; 0xBD] in
  Json.written "John Doe" = "John Doe"
  /\ Json.written (b [0x4A; 0xC3; 0xA9]) = b [0x4A; 0xC3; 0xA9]
  /\ Json.written (b [0xE2; 0x82; 0xAC; 0xF0; 0x9F; 0x98; 0x80])
     = b [0xE2; 0x82; 0xAC; 0xF0; 0x9F; 0x98; 0x80]
  /\ Json.written (b fffd) = b fffd
  /\ Json.written (b [0x4A; 0x6F; 0x73; 0xE9]) = b ([0x4A; 0x6F; 0x73] ++ fffd)%list
  /\ Json.written (b [0x75; 0xFF; 0x31]) = b ([0x75] ++ fffd ++ [0x31])%list
  /\ Json.written (b [0x80]) = b fffd
  /\ Json.written (b [0xE2; 0x82]) = b (fffd ++ fffd)%list
  /\ Json.written (b [0xC0; 0x80]) = b (fffd ++ fffd)%list
  /\ Json.written (b [0xED; 0xA0; 0x80]) = b (fffd ++ fffd ++ fffd)%list
  /\ Json.written (b [0xF4; 0x90; 0x80; 0x80]) = b (fffd ++ fffd ++ fffd ++ fffd)%list
  /\ utf8.ValidString (b [0x4A; 0xC3; 0xA9]) = true
  /\ utf8.ValidString (b [0x4A; 0x6F; 0x73; 0xE9]) = false.
Proof. vm_compute. repeat split. Qed.

(** * Properties *)

(** ** Strings *)

Lemma append_nil_r (s : string) : s ++ "" = s.
Proof. induction s as [|c s IH]; simpl; [reflexivity | now rewrite IH]. Qed.

Lemma append_assoc (a b c : string) : (a ++ b) ++ c = a ++ (b ++ c).
Proof. induction a as [|x a IH]; simpl; [reflexivity | now rewrite IH]. Qed.

Lemma append_length (a b : string) :
  String.length (a ++ b) = (String.length a + String.length b)%nat.
Proof. induction a as [|x a IH]; simpl; [reflexivity | now rewrite IH]. Qed.

Lemma append_inj_l (p a b : string) : p ++ a = p ++ b -> a = b.
Proof.
  induction p as [|x p IH]; simpl; intros E; [exact E|].
  injection E as E. now apply IH.
Qed.

Lemma append_inj_r (a b q : string) : a ++ q = b ++ q -> a = b.
Proof.
  revert b. induction a as [|x a IH]; intros [|y b] E; simpl in E.
  - reflexivity.
  - exfalso. apply (f_equal String.length) in E. simpl in E.
    rewrite append_length in E. lia.
  - exfalso. apply (f_equal String.length) in E. simpl in E.
    rewrite append_length in E. lia.
  - injection E as -> E. f_equal. now apply IH.
Qed.

Lemma concat_nil_cons (a : string) (l : list string) :
  String.concat "" (a :: l) = a ++ String.concat "" l.
Proof. destruct l; simpl; [now rewrite append_nil_r | reflexivity]. Qed.

Lemma concat_nil_app (l1 l2 : list string) :
  String.concat "" (l1 ++ l2) = String.concat "" l1 ++ String.concat "" l2.
Proof.
  induction l1 as [|a l1 IH]; [reflexivity|].
  change ((a :: l1) ++ l2)%list with (a :: (l1 ++ l2))%list.
  now rewrite !concat_nil_cons, IH, append_assoc.
Qed.

(** ** The Go HMAC object computes RFC 2104 *)

Lemma block_length (h blk : list Z) : List.length (sha256.block h blk) = 8%nat.
Proof. reflexivity. Qed.

Lemma fold_block_length (blocks : list (list Z)) (h : list Z) :
  List.length h = 8%nat ->
  List.length (List.fold_left sha256.block blocks h) = 8%nat.
Proof.
  revert h. induction blocks as [|b blocks IH]; intros h Hh; simpl.
  - exact Hh.
  - apply IH, block_length.
Qed.

Lemma Sum256_length (msg : list Z) : List.length (sha256.Sum256 msg) = 32%nat.
Proof.
  unfold sha256.Sum256.
  pose proof (fold_block_length
    (Bytes.chunks (List.length (sha256.pad msg)) 64 (sha256.pad msg))
    sha256.init eq_refl) as L.
  destruct (List.fold_left sha256.block _ sha256.init)
    as [|h0 [|h1 [|h2 [|h3 [|h4 [|h5 [|h6 [|h7 [|h8 t]]]]]]]]];
    try discriminate L.
  reflexivity.
Qed.

Lemma hmac_object_is_HMAC (key text : list Z) :
  hmac.Sum (hmac.Write (hmac.New key) text) [] = Spec.HMAC_SHA256 key text.
Proof.
  unfold hmac.Sum, hmac.Write, hmac.New, Spec.HMAC_SHA256, Spec.xor_pad,
    hmac.copy_block, sha256.BlockSize.
  destruct (64 <? List.length key)%nat eqn:Hlen; cbn [hmac.inner hmac.outer
    hmac.opad hmac.ipad sha256.Sum sha256.Write sha256.Reset sha256.New
    sha256.written List.length List.app].
  - rewrite (List.firstn_all2 (sha256.Sum256 key))
      by (rewrite Sum256_length; lia).
    reflexivity.
  - apply Nat.ltb_ge in Hlen.
    rewrite (List.firstn_all2 key) by exact Hlen.
    reflexivity.
Qed.

(** ** fmt.Sprintf at the formats of the package *)

(** ** Strings on the wire *)

Lemma list_ascii_of_append (a b : string) :
  list_ascii_of_string (a ++ b)
  = (list_ascii_of_string a ++ list_ascii_of_string b)%list.
Proof. induction a as [|c a IH]; simpl; [reflexivity | now rewrite IH]. Qed.

Lemma written_from_valid (s : string) :
  forall pending, utf8.valid pending s = true -> Json.written_from pending s = s.
Proof.
  induction s as [|c s IH]; intros pending V; [reflexivity|].
  cbn [utf8.valid Json.written_from] in *.
  destruct pending as [|k]; [|now rewrite (IH k V)].
  destruct (utf8.width (String c s)) as [|k]; [discriminate V|].
  now rewrite (IH k V).
Qed.

(** A string that is valid UTF-8 goes out as it is. *)
Lemma written_valid (s : string) :
  utf8.ValidString s = true -> Json.written s = s.
Proof. apply written_from_valid. Qed.

Lemma valid_ascii (s : string) :
  List.forallb (fun c => Bytes.byte_of_ascii c <? utf8.RuneSelf)
    (list_ascii_of_string s) = true ->
  utf8.ValidString s = true.
Proof.
  unfold utf8.ValidString.
  induction s as [|c s IH]; intros A; [reflexivity|].
  cbn [list_ascii_of_string List.forallb] in A.
  apply Bool.andb_true_iff in A. destruct A as [A1 A2].
  cbn [utf8.valid utf8.width]. rewrite A1. now apply IH.
Qed.

Lemma base64_char_ascii (c : ascii) :
  More.is_base64_char c = true ->
  (Bytes.byte_of_ascii c <? utf8.RuneSelf) = true.
Proof.
  unfold More.is_base64_char. intros E.
  apply List.existsb_exists in E. destruct E as [a [I E]].
  apply Ascii.eqb_eq in E. subst a.
  cbn [list_ascii_of_string base64.encodeStd List.In] in I.
  repeat (destruct I as [<-|I]; [reflexivity|]). destruct I.
Qed.

Lemma well_formed_token_valid (tok : string) :
  More.well_formed_token tok -> Json.written tok = tok.
Proof.
  intros [_ [E A]]. apply written_valid, valid_ascii.
  rewrite E. rewrite list_ascii_of_append, List.forallb_app.
  apply Bool.andb_true_iff. split; [|reflexivity].
  apply List.forallb_forall. intros c I.
  apply base64_char_ascii.
  now apply (proj1 (List.forallb_forall _ _) A).
Qed.

(** ** The shape of a token *)

Lemma enc_base64 (x : Z) : More.is_base64_char (base64.enc (Z.land x 63)) = true.
Proof.
  change 63 with (Z.ones 6). rewrite Z.land_ones by lia.
  pose proof (Z.mod_pos_bound x (2 ^ 6) eq_refl) as B.
  unfold base64.enc.
  assert (L : (Z.to_nat (x mod 2 ^ 6) < 64)%nat) by lia.
  revert L. generalize (Z.to_nat (x mod 2 ^ 6)). intros n L.
  do 64 (destruct n as [|n]; [reflexivity|]). lia.
Qed.

Lemma EncodeToString_32 (src : list Z) :
  List.length src = 32%nat -> More.well_formed_token (base64.EncodeToString src).
Proof.
  intros L.
  do 32 (destruct src as [|? src]; [discriminate L|]).
  destruct src; [|discriminate L]. clear L.
  unfold More.well_formed_token, base64.EncodeToString.
  cbn [List.length base64.encode].
  split; [reflexivity|]. split; [reflexivity|].
  cbn [String.substring list_ascii_of_string List.forallb].
  rewrite !enc_base64. reflexivity.
Qed.

Lemma token_well_formed (cfg : config.PayTRConfig) (input : string) :
  More.well_formed_token (Spec.token cfg input).
Proof.
  unfold Spec.token, Spec.HMAC_SHA256. cbv zeta.
  apply EncodeToString_32, Sum256_length.
Qed.

Lemma token_written (cfg : config.PayTRConfig) (input : string) :
  Json.written (Spec.token cfg input) = Spec.token cfg input.
Proof. apply well_formed_token_valid, token_well_formed. Qed.

Lemma Sprintf_10s (a1 a2 a3 a4 a5 a6 a7 a8 a9 a10 : string) :
  fmt.Sprintf "%s%s%s%s%s%s%s%s%s%s"
    [fmt.Str a1; fmt.Str a2; fmt.Str a3; fmt.Str a4; fmt.Str a5;
     fmt.Str a6; fmt.Str a7; fmt.Str a8; fmt.Str a9; fmt.Str a10]
  = String.concat "" [a1; a2; a3; a4; a5; a6; a7; a8; a9; a10].
Proof.
  unfold fmt.Sprintf.
  cbn [fmt.doPrintf fmt.verb_s List.hd_error List.tl].
  now rewrite !concat_nil_cons.
Qed.

Lemma Sprintf_s_s_2f (a b : string) (f : float64) :
  fmt.Sprintf "%s%s%.2f" [fmt.Str a; fmt.Str b; fmt.Float64 f]
  = a ++ b ++ strconv.FormatFloat_f f 2.
Proof.
  unfold fmt.Sprintf.
  cbn [fmt.doPrintf fmt.verb_s fmt.verb_f List.hd_error List.tl].
  change (fmt.is_digit "2") with true.
  change (Z.to_nat (Bytes.byte_of_ascii "2" - 48)) with 2%nat.
  cbv iota. now rewrite append_nil_r.
Qed.

Lemma Sprintf_2f (f : float64) :
  fmt.Sprintf "%.2f" [fmt.Float64 f] = strconv.FormatFloat_f f 2.
Proof.
  unfold fmt.Sprintf.
  cbn [fmt.doPrintf fmt.verb_f List.hd_error List.tl].
  change (fmt.is_digit "2") with true.
  change (Z.to_nat (Bytes.byte_of_ascii "2" - 48)) with 2%nat.
  cbv iota. now rewrite append_nil_r.
Qed.

Section Service_properties.
Context `{Runtime}.
Import payment Run domain.

(** ** Tokens *)

Lemma generateSimpleToken_spec (s : service) (data : string) :
  generateSimpleToken s data = Spec.token (config s) data.
Proof.
  unfold generateSimpleToken, Spec.token.
  now rewrite hmac_object_is_HMAC.
Qed.

Lemma generateToken_spec (s : service) (req : CommonPaymentRequest.t) :
  generateToken s req = Spec.primary_token (config s) req.
Proof.
  unfold generateToken, Spec.primary_token, Spec.token, Spec.primary_input,
    Spec.primary_fields, Spec.amount2.
  now rewrite Sprintf_10s, hmac_object_is_HMAC.
Qed.

(** ** One call of sendRequest *)

(** The tokens are ASCII: they go out as they are. *)
Lemma generateToken_written (s : service) (req : CommonPaymentRequest.t) :
  Json.written (generateToken s req) = generateToken s req.
Proof.
  rewrite generateToken_spec. unfold Spec.primary_token. apply token_written.
Qed.

Lemma generateSimpleToken_written (s : service) (data : string) :
  Json.written (generateSimpleToken s data) = generateSimpleToken s data.
Proof. rewrite generateSimpleToken_spec. apply token_written. Qed.

Lemma sendRequest_run {A} `{Marshaler A} (s : service) (req : A) (url : string)
    (w : World) :
  run (sendRequest s req url) w =
  match Marshal req with
  | Err err => (Err err, MkState w [])
  | Ok doc =>
      match url_Parse url with
      | Some err => (Err err, MkState w [])
      | None =>
          (read_envelope (fst (client s (the_request url doc) w)),
           MkState (snd (client s (the_request url doc) w))
             [EvDo (the_request url doc)])
      end
  end.
Proof.
  unfold run, sendRequest, http_NewRequest.
  destruct (Marshal req) as [doc|err]; [|reflexivity].
  destruct (url_Parse url) as [err|]; [reflexivity|].
  unfold bind, Do, ret, read_envelope. cbn [world trace List.app].
  change (http.Header_Set "Content-Type" "application/json"
            (http.MkRequest "POST" url [] doc)) with (the_request url doc).
  destruct (client s (the_request url doc) w) as [[resp|err] w']; cbn [fst snd];
    [|reflexivity].
  destruct (io.ReadAll (http.RespBody resp)) as [body|err]; [|reflexivity].
  destruct (json_Unmarshal body); reflexivity.
Qed.

Lemma sendRequest_outbound {A} `{Marshaler A} (s : service) (req : A)
    (url : string) (w : World) :
  outbound (sendRequest s req url) w =
  match Marshal req, url_Parse url with
  | Ok doc, None => [the_request url doc]
  | _, _ => []
  end.
Proof.
  unfold outbound. rewrite sendRequest_run.
  destruct (Marshal req); [|reflexivity].
  destruct (url_Parse url); reflexivity.
Qed.

Lemma sendRequest_decoded {A} `{Marshaler A} (s : service) (req : A)
    (url : string) (w : World) :
  decoded (sendRequest s req url) w = [].
Proof.
  unfold decoded. rewrite sendRequest_run.
  destruct (Marshal req); [|reflexivity].
  destruct (url_Parse url); reflexivity.
Qed.

(** Every request of a [sendRequest] carries the token its payload
    serializes with. *)
Lemma sendRequest_signed {A} `{Marshaler A} (s : service) (req : A)
    (url tok : string) (w : World) :
  (forall doc, Marshal req = Ok doc ->
               Json.member "paytr_token" doc = Some (JString tok)) ->
  List.Forall (signed_with tok) (outbound (sendRequest s req url) w).
Proof.
  intros Htok. rewrite sendRequest_outbound.
  destruct (Marshal req) as [doc|]; [|constructor].
  destruct (url_Parse url); constructor; [|constructor].
  now apply Htok.
Qed.

Lemma sendRequest_posted {A} `{Marshaler A} (s : service) (req : A)
    (url : string) (w : World) :
  List.Forall (posted_to url) (outbound (sendRequest s req url) w).
Proof.
  rewrite sendRequest_outbound.
  destruct (Marshal req) as [doc|]; [|constructor].
  destruct (url_Parse url); constructor; [|constructor].
  repeat split.
Qed.

End Service_properties.

Section Endpoint_properties.
Context `{Runtime}.
Import payment Run domain.

Ltac marshal_cases :=
  cbn [List.app List.map Json.encode_fields Json.omitempty Json.value Json.key
       andb Json.encode_value Json.isEmptyValue];
  repeat match goal with
         | |- context [if ?b then _ else _] => destruct b
         end.

(** ** Serialization of the payloads *)

Lemma Marshal_NewCardPaymentRequest_eq (r : NewCardPaymentRequest.t) :
  Marshal r =
  if strconv.is_finite
       (CommonPaymentRequest.PaymentAmount (NewCardPaymentRequest.CommonPaymentRequest r))
  then Ok (JObject (Json.pairs (NewCardPaymentRequest.fields r)))
  else Err (UnsupportedValueError
              (strconv.FormatFloat_f
                 (CommonPaymentRequest.PaymentAmount
                    (NewCardPaymentRequest.CommonPaymentRequest r)) 2)).
Proof.
  unfold Marshal, Marshal_NewCardPaymentRequest, Json.marshal_struct,
    NewCardPaymentRequest.fields, CommonPaymentRequest.fields, Json.pairs.
  marshal_cases; reflexivity.
Qed.

Lemma Marshal_SavedCardPaymentRequest_eq (r : SavedCardPaymentRequest.t) :
  Marshal r =
  if strconv.is_finite
       (CommonPaymentRequest.PaymentAmount (SavedCardPaymentRequest.CommonPaymentRequest r))
  then Ok (JObject (Json.pairs (SavedCardPaymentRequest.fields r)))
  else Err (UnsupportedValueError
              (strconv.FormatFloat_f
                 (CommonPaymentRequest.PaymentAmount
                    (SavedCardPaymentRequest.CommonPaymentRequest r)) 2)).
Proof.
  unfold Marshal, Marshal_SavedCardPaymentRequest, Json.marshal_struct,
    SavedCardPaymentRequest.fields, CommonPaymentRequest.fields, Json.pairs.
  marshal_cases; reflexivity.
Qed.

Lemma Marshal_RefundPaymentReq_eq (r : RefundPaymentReq.t) :
  Marshal r =
  if strconv.is_finite (RefundPaymentReq.ReturnAmount r)
  then Ok (JObject
             ([ ("merchant_id", JString (Json.written (RefundPaymentReq.MerchantID r)));
                ("merchant_oid", JString (Json.written (RefundPaymentReq.MerchantOid r)));
                ("return_amount", JNumber (RefundPaymentReq.ReturnAmount r));
                ("paytr_token", JString (Json.written (RefundPaymentReq.PayTRToken r))) ]
              ++ (if (String.length (RefundPaymentReq.ReferenceNo r) =? 0)%nat
                  then []
                  else [("reference_no",
                         JString (Json.written (RefundPaymentReq.ReferenceNo r)))])))
  else Err (UnsupportedValueError
              (strconv.FormatFloat_f (RefundPaymentReq.ReturnAmount r) 2)).
Proof.
  unfold Marshal, Marshal_RefundPaymentReq, Json.marshal_struct,
    RefundPaymentReq.fields.
  marshal_cases; reflexivity.
Qed.

Lemma Marshal_StatusInquiryReq_eq (r : StatusInquiryReq.t) :
  Marshal r = Ok (JObject (Json.pairs (StatusInquiryReq.fields r))).
Proof. reflexivity. Qed.

Lemma Marshal_TransactionDetailsReq_eq (r : TransactionDetailsReq.t) :
  Marshal r =
  Ok (JObject
        ([ ("merchant_id", JString (Json.written (TransactionDetailsReq.MerchantID r)));
           ("start_date", JString (Json.written (TransactionDetailsReq.StartDate r)));
           ("end_date", JString (Json.written (TransactionDetailsReq.EndDate r))) ]
         ++ (if (TransactionDetailsReq.Dummy r =? 0)%Z then []
             else [("dummy", JInt (TransactionDetailsReq.Dummy r))])
         ++ [("paytr_token", JString (Json.written (TransactionDetailsReq.PayTRToken r)))])).
Proof.
  unfold Marshal, Marshal_TransactionDetailsReq, Json.marshal_struct,
    TransactionDetailsReq.fields.
  marshal_cases; reflexivity.
Qed.

Lemma Marshal_BinDetailsReq_eq (r : BinDetailsReq.t) :
  Marshal r = Ok (JObject (Json.pairs (BinDetailsReq.fields r))).
Proof. reflexivity. Qed.

Lemma Marshal_SavedCardsReq_eq (r : SavedCardsReq.t) :
  Marshal r = Ok (JObject (Json.pairs (SavedCardsReq.fields r))).
Proof. reflexivity. Qed.

Lemma Marshal_DeleteSavedCardReq_eq (r : DeleteSavedCardReq.t) :
  Marshal r = Ok (JObject (Json.pairs (DeleteSavedCardReq.fields r))).
Proof. reflexivity. Qed.

Lemma NewCard_token_member (r : NewCardPaymentRequest.t) :
  Json.member "paytr_token" (JObject (Json.pairs (NewCardPaymentRequest.fields r)))
  = Some (JString (Json.written (CommonPaymentRequest.PayTRToken
                     (NewCardPaymentRequest.CommonPaymentRequest r)))).
Proof. reflexivity. Qed.

Lemma SavedCard_token_member (r : SavedCardPaymentRequest.t) :
  Json.member "paytr_token" (JObject (Json.pairs (SavedCardPaymentRequest.fields r)))
  = Some (JString (Json.written (CommonPaymentRequest.PayTRToken
                     (SavedCardPaymentRequest.CommonPaymentRequest r)))).
Proof. reflexivity. Qed.

Lemma NewCard_merchant_member (r : NewCardPaymentRequest.t) :
  Json.member "merchant_id" (JObject (Json.pairs (NewCardPaymentRequest.fields r)))
  = Some (JString (Json.written (CommonPaymentRequest.MerchantID
                     (NewCardPaymentRequest.CommonPaymentRequest r)))).
Proof. reflexivity. Qed.

Lemma SavedCard_merchant_member (r : SavedCardPaymentRequest.t) :
  Json.member "merchant_id" (JObject (Json.pairs (SavedCardPaymentRequest.fields r)))
  = Some (JString (Json.written (CommonPaymentRequest.MerchantID
                     (SavedCardPaymentRequest.CommonPaymentRequest r)))).
Proof. reflexivity. Qed.

(** ** The two decoding endpoints, step by step *)

Lemma requests_of_app (t1 t2 : list event) :
  requests_of (t1 ++ t2) = (requests_of t1 ++ requests_of t2)%list.
Proof. unfold requests_of. now rewrite List.flat_map_app. Qed.

Lemma decodes_of_app (t1 t2 : list event) :
  decodes_of (t1 ++ t2) = (decodes_of t1 ++ decodes_of t2)%list.
Proof. unfold decodes_of. now rewrite List.flat_map_app. Qed.

Lemma MerchantStatusInquiry_run (s : service) (req : StatusInquiryRequest.t)
    (w : World) :
  run (MerchantStatusInquiry s req) w =
  let r := run (sendRequest s (status_inquiry_payload s req)
                  (PayTRBaseURL ++ "/odeme/durum-sorgu")) w in
  match fst r with
  | Err err => (Err err, snd r)
  | Ok env =>
      if String.eqb (PayTRResponse.Status env) "success"
      then (decoded_or_error
              (mapstructure.Decode mapstructure.decode_StatusInquiryResponse
                 (PayTRResponse.Data env)),
            MkState (world (snd r))
              (trace (snd r) ++ [EvDecode (PayTRResponse.Data env)]))
      else (Err (gateway_error env), snd r)
  end.
Proof.
  unfold MerchantStatusInquiry, run, bind.
  change (StatusInquiryReq.set_PayTRToken _ _)
    with (status_inquiry_payload s req).
  destruct (sendRequest s (status_inquiry_payload s req) _ (MkState w []))
    as [[env|err] st]; cbn [fst snd]; [|reflexivity].
  destruct (String.eqb (PayTRResponse.Status env) "success"); cbn [negb];
    [|reflexivity].
  unfold mapstructure_Decode, decoded_or_error, decoding_error, ret.
  destruct (mapstructure.Decode _ _); reflexivity.
Qed.

Lemma GetTransactionDetails_run (s : service) (req : TransactionDetailsRequest.t)
    (w : World) :
  run (GetTransactionDetails s req) w =
  let r := run (sendRequest s (transaction_details_payload s req)
                  (PayTRBaseURL ++ "/rapor/islem-dokumu")) w in
  match fst r with
  | Err err => (Err err, snd r)
  | Ok env =>
      (decoded_or_error
         (mapstructure.Decode mapstructure.decode_TransactionDetailsResponse
            (PayTRResponse.Data env)),
       MkState (world (snd r))
         (trace (snd r) ++ [EvDecode (PayTRResponse.Data env)]))
  end.
Proof.
  unfold GetTransactionDetails, run, bind.
  change (TransactionDetailsReq.set_PayTRToken _ _)
    with (transaction_details_payload s req).
  destruct (sendRequest s (transaction_details_payload s req) _ (MkState w []))
    as [[env|err] st]; cbn [fst snd]; [|reflexivity].
  unfold mapstructure_Decode, decoded_or_error, decoding_error, ret.
  destruct (mapstructure.Decode _ _); reflexivity.
Qed.

Lemma MerchantStatusInquiry_outbound (s : service) (req : StatusInquiryRequest.t)
    (w : World) :
  outbound (MerchantStatusInquiry s req) w =
  outbound (sendRequest s (status_inquiry_payload s req)
              (PayTRBaseURL ++ "/odeme/durum-sorgu")) w.
Proof.
  unfold outbound. rewrite MerchantStatusInquiry_run. cbv zeta.
  destruct (fst (run _ w)) as [env|err]; [|reflexivity].
  destruct (String.eqb _ _); [|reflexivity].
  cbn [snd trace]. rewrite requests_of_app. cbn. now rewrite List.app_nil_r.
Qed.

Lemma GetTransactionDetails_outbound (s : service)
    (req : TransactionDetailsRequest.t) (w : World) :
  outbound (GetTransactionDetails s req) w =
  outbound (sendRequest s (transaction_details_payload s req)
              (PayTRBaseURL ++ "/rapor/islem-dokumu")) w.
Proof.
  unfold outbound. rewrite GetTransactionDetails_run. cbv zeta.
  destruct (fst (run _ w)) as [env|err]; [|reflexivity].
  cbn [snd trace]. rewrite requests_of_app. cbn. now rewrite List.app_nil_r.
Qed.

(** ** The tokens the endpoints send *)

(** C1. For every request and every set of credentials the token of the
    primary scheme is base64(HMAC-SHA256(MerchantKey, MerchantID ++ UserIP
    ++ MerchantOid ++ Email ++ amount with two decimals ++ PaymentType ++
    InstallmentCount ++ Currency ++ TestMode ++ NonThreeD ++ MerchantSalt)),
    and it is the [paytr_token] of every request a new-card, saved-card or
    recurring payment sends. *)
Theorem primary_token_scheme (s : service) :
  (forall req : CommonPaymentRequest.t,
     generateToken s req
     = base64.EncodeToString
         (Spec.HMAC_SHA256 (Bytes.of_string (config.MerchantKey (config s)))
            (Bytes.of_string
               ((config.MerchantID (config s)
                 ++ CommonPaymentRequest.UserIP req
                 ++ CommonPaymentRequest.MerchantOid req
                 ++ CommonPaymentRequest.Email req
                 ++ Spec.amount2 (CommonPaymentRequest.PaymentAmount req)
                 ++ CommonPaymentRequest.PaymentType req
                 ++ CommonPaymentRequest.InstallmentCount req
                 ++ CommonPaymentRequest.Currency req
                 ++ CommonPaymentRequest.TestMode req
                 ++ CommonPaymentRequest.NonThreeD req)
                ++ config.MerchantSalt (config s))))
     /\ generateToken s req = Spec.primary_token (config s) req)
  /\ (forall (req : NewCardPaymentRequest.t) (w : World),
        List.Forall
          (signed_with
             (Spec.primary_token (config s)
                (NewCardPaymentRequest.CommonPaymentRequest req)))
          (outbound (NewCardPayment s req) w))
  /\ (forall (req : SavedCardPaymentRequest.t) (w : World),
        List.Forall
          (signed_with
             (Spec.primary_token (config s)
                (SavedCardPaymentRequest.CommonPaymentRequest req)))
          (outbound (SavedCardPayment s req) w))
  /\ (forall (req : SavedCardPaymentRequest.t) (w : World),
        List.Forall
          (signed_with
             (Spec.primary_token (config s)
                (SavedCardPaymentRequest.CommonPaymentRequest req)))
          (outbound (RecurringPayment s req) w)).
Proof.
  split; [|split; [|split]].
  - intros req. split; [|apply generateToken_spec].
    rewrite generateToken_spec.
    unfold Spec.primary_token, Spec.token, Spec.primary_input, Spec.primary_fields.
    rewrite !concat_nil_cons. cbn [String.concat].
    now rewrite append_nil_r.
  - intros req w. unfold NewCardPayment. cbv zeta.
    match goal with |- context [sendRequest s ?p _] => set (r := p) end.
    apply sendRequest_signed. intros doc.
    rewrite Marshal_NewCardPaymentRequest_eq.
    destruct (strconv.is_finite _); [|discriminate].
    intros E. assert (doc = JObject (Json.pairs (NewCardPaymentRequest.fields r))) as ->
      by congruence.
    rewrite NewCard_token_member. subst r. rewrite <- generateToken_spec.
    do 2 f_equal. exact (generateToken_written s _).
  - intros req w. unfold SavedCardPayment. cbv zeta.
    match goal with |- context [sendRequest s ?p _] => set (r := p) end.
    apply sendRequest_signed. intros doc.
    rewrite Marshal_SavedCardPaymentRequest_eq.
    destruct (strconv.is_finite _); [|discriminate].
    intros E. assert (doc = JObject (Json.pairs (SavedCardPaymentRequest.fields r))) as ->
      by congruence.
    rewrite SavedCard_token_member. subst r. rewrite <- generateToken_spec.
    do 2 f_equal. exact (generateToken_written s _).
  - intros req w. unfold RecurringPayment. cbv zeta.
    match goal with |- context [sendRequest s ?p _] => set (r := p) end.
    apply sendRequest_signed. intros doc.
    rewrite Marshal_SavedCardPaymentRequest_eq.
    destruct (strconv.is_finite _); [|discriminate].
    intros E. assert (doc = JObject (Json.pairs (SavedCardPaymentRequest.fields r))) as ->
      by congruence.
    rewrite SavedCard_token_member. subst r. rewrite <- generateToken_spec.
    do 2 f_equal. exact (generateToken_written s _).
Qed.

(** The payment calls do send a request: one, when the amount is finite
    and the URL parses. *)
Lemma payment_calls_post_once (s : service) :
  url_Parse (PayTRBaseURL ++ "/odeme") = None ->
  (forall req w,
     strconv.is_finite
       (CommonPaymentRequest.PaymentAmount
          (NewCardPaymentRequest.CommonPaymentRequest req)) = true ->
     List.length (outbound (NewCardPayment s req) w) = 1%nat)
  /\ (forall req w,
        strconv.is_finite
          (CommonPaymentRequest.PaymentAmount
             (SavedCardPaymentRequest.CommonPaymentRequest req)) = true ->
        List.length (outbound (SavedCardPayment s req) w) = 1%nat
        /\ List.length (outbound (RecurringPayment s req) w) = 1%nat).
Proof.
  intros U. split; [|intros req w F; split].
  - intros req w F. unfold NewCardPayment. cbv zeta.
    rewrite sendRequest_outbound, Marshal_NewCardPaymentRequest_eq, U.
    cbn [NewCardPaymentRequest.CommonPaymentRequest
         NewCardPaymentRequest.set_PayTRToken
         CommonPaymentRequest.PaymentAmount CommonPaymentRequest.set_PayTRToken].
    now rewrite F.
  - unfold SavedCardPayment. cbv zeta.
    rewrite sendRequest_outbound, Marshal_SavedCardPaymentRequest_eq, U.
    cbn [SavedCardPaymentRequest.CommonPaymentRequest
         SavedCardPaymentRequest.set_PayTRToken
         CommonPaymentRequest.PaymentAmount CommonPaymentRequest.set_PayTRToken].
    now rewrite F.
  - unfold RecurringPayment. cbv zeta.
    rewrite sendRequest_outbound, Marshal_SavedCardPaymentRequest_eq, U.
    cbn [SavedCardPaymentRequest.CommonPaymentRequest
         SavedCardPaymentRequest.set_PayTRToken
         SavedCardPaymentRequest.set_RecurringPayment
         CommonPaymentRequest.PaymentAmount CommonPaymentRequest.set_PayTRToken].
    now rewrite F.
Qed.

Ltac token_member tok W :=
  unfold signed_with, the_request; cbn [http.Body];
  transitivity (Some (JString (Json.written tok)));
  [reflexivity | rewrite W; reflexivity].

(** The goal: every request is as [tac] shows, and one is made where the
    URL parses and the amount is finite. *)
Ltac all_and_one tac :=
  repeat match goal with
         | |- context [if ?b then _ else _] => destruct b
         end;
  try match goal with
      | |- context [url_Parse ?u] => destruct (url_Parse u)
      end;
  (split;
   [ first [ constructor; [tac | constructor] | constructor ]
   | intros;
     first [ discriminate
           | eexists; split; [reflexivity | tac] ] ]).

Ltac signed_and_sent tok W := all_and_one ltac:(token_member tok W).

Ltac identified_and_sent tok W :=
  all_and_one ltac:(unfold carries_identity;
                    split; [token_member tok W | reflexivity]).

Ltac name_token :=
  match goal with
  | |- context [Spec.token ?c ?x] =>
      let W := fresh "W" in
      pose proof (token_written c x) as W;
      revert W; generalize (Spec.token c x)
  end.

(** C2. The tokens of the secondary scheme: the pre-salt input is
    merchantID ++ orderID ++ amount with two decimals for a refund,
    merchantID ++ orderID for a status inquiry, merchantID ++ startDate ++
    endDate for a transaction report, binNumber ++ merchantID for a BIN
    lookup, userToken for the saved-card list and userToken ++ cardToken
    for a saved-card delete; the salt is appended, the result hashed with
    HMAC-SHA256 under the secret key and encoded as base64, by the
    algorithm of the primary scheme.  Each endpoint makes a request that
    carries this token wherever its URL parses (and, for a refund, the
    amount is finite), and never a request with another token. *)
Theorem secondary_token_scheme (s : service) :
  (forall data : string,
     generateSimpleToken s data
     = base64.EncodeToString
         (Spec.HMAC_SHA256 (Bytes.of_string (config.MerchantKey (config s)))
            (Bytes.of_string (data ++ config.MerchantSalt (config s)))))
  /\ (forall req : CommonPaymentRequest.t,
        generateToken s req
        = generateSimpleToken s (Spec.primary_input (config s) req))
  /\ (forall (req : RefundRequest.t) (w : World),
        List.Forall
          (signed_with
             (Spec.secondary_token (config s)
                (Spec.Refund (RefundRequest.MerchantOid req)
                   (RefundRequest.ReturnAmount req))))
          (outbound (RefundPayment s req) w)
        /\ (url_Parse (PayTRBaseURL ++ "/odeme/iade") = None ->
            strconv.is_finite (RefundRequest.ReturnAmount req) = true ->
            sends_one
              (signed_with
                 (Spec.secondary_token (config s)
                    (Spec.Refund (RefundRequest.MerchantOid req)
                       (RefundRequest.ReturnAmount req))))
              (outbound (RefundPayment s req) w)))
  /\ (forall (req : StatusInquiryRequest.t) (w : World),
        List.Forall
          (signed_with
             (Spec.secondary_token (config s)
                (Spec.StatusInquiry (StatusInquiryRequest.MerchantOid req))))
          (outbound (MerchantStatusInquiry s req) w)
        /\ (url_Parse (PayTRBaseURL ++ "/odeme/durum-sorgu") = None ->
            sends_one
              (signed_with
                 (Spec.secondary_token (config s)
                    (Spec.StatusInquiry (StatusInquiryRequest.MerchantOid req))))
              (outbound (MerchantStatusInquiry s req) w)))
  /\ (forall (req : TransactionDetailsRequest.t) (w : World),
        List.Forall
          (signed_with
             (Spec.secondary_token (config s)
                (Spec.TransactionReport (TransactionDetailsRequest.StartDate req)
                   (TransactionDetailsRequest.EndDate req))))
          (outbound (GetTransactionDetails s req) w)
        /\ (url_Parse (PayTRBaseURL ++ "/rapor/islem-dokumu") = None ->
            sends_one
              (signed_with
                 (Spec.secondary_token (config s)
                    (Spec.TransactionReport
                       (TransactionDetailsRequest.StartDate req)
                       (TransactionDetailsRequest.EndDate req))))
              (outbound (GetTransactionDetails s req) w)))
  /\ (forall (binNumber : string) (w : World),
        List.Forall
          (signed_with (Spec.secondary_token (config s) (Spec.BinLookup binNumber)))
          (outbound (GetBinDetails s binNumber) w)
        /\ (url_Parse (PayTRBaseURL ++ "/odeme/api/bin-detail") = None ->
            sends_one
              (signed_with
                 (Spec.secondary_token (config s) (Spec.BinLookup binNumber)))
              (outbound (GetBinDetails s binNumber) w)))
  /\ (forall (utoken : string) (w : World),
        List.Forall
          (signed_with (Spec.secondary_token (config s) (Spec.SavedCardList utoken)))
          (outbound (GetSavedCards s utoken) w)
        /\ (url_Parse (PayTRBaseURL ++ "/odeme/capi/list") = None ->
            sends_one
              (signed_with
                 (Spec.secondary_token (config s) (Spec.SavedCardList utoken)))
              (outbound (GetSavedCards s utoken) w)))
  /\ (forall (utoken ctoken : string) (w : World),
        List.Forall
          (signed_with
             (Spec.secondary_token (config s) (Spec.SavedCardDelete utoken ctoken)))
          (outbound (DeleteSavedCard s utoken ctoken) w)
        /\ (url_Parse (PayTRBaseURL ++ "/odeme/capi/delete") = None ->
            sends_one
              (signed_with
                 (Spec.secondary_token (config s)
                    (Spec.SavedCardDelete utoken ctoken)))
              (outbound (DeleteSavedCard s utoken ctoken) w))).
Proof.
  unfold Spec.secondary_token, Spec.secondary_input, Spec.amount2.
  repeat match goal with |- _ /\ _ => split end.
  - intros data. now rewrite generateSimpleToken_spec.
  - intros req. now rewrite generateSimpleToken_spec, generateToken_spec.
  - intros req w. unfold RefundPayment. cbv zeta.
    rewrite Sprintf_s_s_2f, generateSimpleToken_spec.
    name_token. intros tok W.
    rewrite !sendRequest_outbound, !Marshal_RefundPaymentReq_eq.
    cbn [RefundPaymentReq.ReturnAmount RefundPaymentReq.set_PayTRToken
         RefundPaymentReq.MerchantID RefundPaymentReq.MerchantOid
         RefundPaymentReq.PayTRToken RefundPaymentReq.ReferenceNo].
    signed_and_sent tok W.
  - intros req w. rewrite MerchantStatusInquiry_outbound.
    unfold status_inquiry_payload. rewrite generateSimpleToken_spec.
    name_token. intros tok W.
    rewrite !sendRequest_outbound, !Marshal_StatusInquiryReq_eq.
    signed_and_sent tok W.
  - intros req w. rewrite GetTransactionDetails_outbound.
    unfold transaction_details_payload. rewrite generateSimpleToken_spec.
    name_token. intros tok W.
    rewrite !sendRequest_outbound, !Marshal_TransactionDetailsReq_eq.
    cbn [TransactionDetailsReq.MerchantID TransactionDetailsReq.StartDate
         TransactionDetailsReq.EndDate TransactionDetailsReq.Dummy
         TransactionDetailsReq.PayTRToken].
    signed_and_sent tok W.
  - intros binNumber w. unfold GetBinDetails. cbv zeta.
    rewrite generateSimpleToken_spec.
    name_token. intros tok W.
    rewrite !sendRequest_outbound, !Marshal_BinDetailsReq_eq.
    signed_and_sent tok W.
  - intros utoken w. unfold GetSavedCards. cbv zeta.
    rewrite generateSimpleToken_spec.
    name_token. intros tok W.
    rewrite !sendRequest_outbound, !Marshal_SavedCardsReq_eq.
    signed_and_sent tok W.
  - intros utoken ctoken w. unfold DeleteSavedCard. cbv zeta.
    rewrite generateSimpleToken_spec.
    name_token. intros tok W.
    rewrite !sendRequest_outbound, !Marshal_DeleteSavedCardReq_eq.
    signed_and_sent tok W.
Qed.

(** ** Recurring payments *)

(** C5. A recurring payment sets the [RecurringPayment] flag to "1" and
    then does what a saved-card payment does: the same token over the same
    common fields, sent to the same payment-submission endpoint; but for
    the forced flag the request is the one [SavedCardPayment] sends for the
    same input. *)
Theorem recurring_payment_is_saved_card_payment (s : service)
    (req : SavedCardPaymentRequest.t) (w : World) :
  run (RecurringPayment s req) w
  = run (SavedCardPayment s (SavedCardPaymentRequest.set_RecurringPayment "1" req)) w
  /\ generateToken s
       (SavedCardPaymentRequest.CommonPaymentRequest
          (SavedCardPaymentRequest.set_RecurringPayment "1" req))
     = generateToken s (SavedCardPaymentRequest.CommonPaymentRequest req)
  /\ List.Forall (posted_to (PayTRBaseURL ++ "/odeme"))
       (outbound (RecurringPayment s req) w)
  /\ List.Forall (posted_to (PayTRBaseURL ++ "/odeme"))
       (outbound (SavedCardPayment s req) w)
  /\ List.Forall
       (fun r => Json.member "recurring_payment" (http.Body r) = Some (JString "1"))
       (outbound (RecurringPayment s req) w)
  /\ List.map (without_member "recurring_payment")
       (outbound (RecurringPayment s req) w)
     = List.map (without_member "recurring_payment")
         (outbound (SavedCardPayment s req) w).
Proof.
  split; [unfold RecurringPayment, SavedCardPayment; cbv zeta; reflexivity|].
  split; [reflexivity|].
  split; [apply sendRequest_posted|]. split; [apply sendRequest_posted|].
  unfold RecurringPayment, SavedCardPayment. cbv zeta.
  rewrite !sendRequest_outbound, !Marshal_SavedCardPaymentRequest_eq.
  cbn [SavedCardPaymentRequest.CommonPaymentRequest
       SavedCardPaymentRequest.set_PayTRToken
       SavedCardPaymentRequest.set_RecurringPayment
       CommonPaymentRequest.PaymentAmount CommonPaymentRequest.set_PayTRToken].
  generalize (generateToken s (SavedCardPaymentRequest.CommonPaymentRequest req)).
  intros tok.
  destruct (strconv.is_finite _).
  - destruct (url_Parse _).
    + split; constructor.
    + split.
      * constructor; [reflexivity|constructor].
      * cbv -[Json.written]. reflexivity.
  - split; [constructor | reflexivity].
Qed.

(** ** What the primary token depends on *)

Lemma primary_fields_of_signed_part (cfg : config.PayTRConfig)
    (r1 r2 : CommonPaymentRequest.t) :
  Spec.signed_part r1 = Spec.signed_part r2 ->
  Spec.primary_fields cfg r1 = Spec.primary_fields cfg r2.
Proof.
  unfold Spec.signed_part, Spec.primary_fields. intros E.
  injection E as -> -> -> -> -> -> -> -> ->. reflexivity.
Qed.

(** C10, as the code has it.  The primary token is a function of the
    configured credentials and of the request's UserIP, MerchantOid, Email,
    PaymentAmount, PaymentType, InstallmentCount, Currency, TestMode and
    NonThreeD: two requests that agree on these get the same token,
    whatever their MerchantID and PayTRToken fields hold.  The configured
    merchant ID is the one hashed and a token set by the caller is
    overwritten, while the [merchant_id] of the serialized payload is the
    caller's as the JSON encoder writes it: the caller's value itself when
    that is valid UTF-8.  A new-card and a saved-card payment make the
    request that shows it wherever the URL parses and the amount is
    finite. *)
Theorem primary_token_ignores_caller_identity (s : service)
    (r1 r2 : CommonPaymentRequest.t)
    (Hsigned : Spec.signed_part r1 = Spec.signed_part r2) :
  generateToken s r1 = generateToken s r2
  /\ (forall id tok : string,
        generateToken s
          (CommonPaymentRequest.set_MerchantID id
             (CommonPaymentRequest.set_PayTRToken tok r1))
        = generateToken s r1)
  /\ (forall (req : NewCardPaymentRequest.t) (w : World),
        NewCardPaymentRequest.CommonPaymentRequest req = r1 ->
        List.Forall
          (carries_identity (generateToken s r2)
             (CommonPaymentRequest.MerchantID r1))
          (outbound (NewCardPayment s req) w)
        /\ (url_Parse (PayTRBaseURL ++ "/odeme") = None ->
            strconv.is_finite (CommonPaymentRequest.PaymentAmount r1) = true ->
            sends_one
              (carries_identity (generateToken s r2)
                 (CommonPaymentRequest.MerchantID r1))
              (outbound (NewCardPayment s req) w)))
  /\ (forall (req : SavedCardPaymentRequest.t) (w : World),
        SavedCardPaymentRequest.CommonPaymentRequest req = r1 ->
        List.Forall
          (carries_identity (generateToken s r2)
             (CommonPaymentRequest.MerchantID r1))
          (outbound (SavedCardPayment s req) w)
        /\ (url_Parse (PayTRBaseURL ++ "/odeme") = None ->
            strconv.is_finite (CommonPaymentRequest.PaymentAmount r1) = true ->
            sends_one
              (carries_identity (generateToken s r2)
                 (CommonPaymentRequest.MerchantID r1))
              (outbound (SavedCardPayment s req) w)))
  /\ (utf8.ValidString (CommonPaymentRequest.MerchantID r1) = true ->
      Json.written (CommonPaymentRequest.MerchantID r1)
      = CommonPaymentRequest.MerchantID r1).
Proof.
  assert (Htok : generateToken s r1 = generateToken s r2).
  { rewrite !generateToken_spec. unfold Spec.primary_token, Spec.primary_input.
    now rewrite (primary_fields_of_signed_part (config s) r1 r2 Hsigned). }
  split; [exact Htok|]. split.
  { intros id tok. rewrite !generateToken_spec.
    unfold Spec.primary_token, Spec.primary_input.
    now rewrite (primary_fields_of_signed_part (config s)
                   (CommonPaymentRequest.set_MerchantID id
                      (CommonPaymentRequest.set_PayTRToken tok r1)) r1 eq_refl). }
  split; [|split; [|apply written_valid]].
  - intros req w <-. rewrite <- Htok. clear Htok Hsigned r2.
    unfold NewCardPayment. cbv zeta.
    pose proof (generateToken_written s
                  (NewCardPaymentRequest.CommonPaymentRequest req)) as W.
    revert W.
    generalize (generateToken s (NewCardPaymentRequest.CommonPaymentRequest req)).
    intros tok W.
    rewrite !sendRequest_outbound, !Marshal_NewCardPaymentRequest_eq.
    cbn [NewCardPaymentRequest.CommonPaymentRequest
         NewCardPaymentRequest.set_PayTRToken
         CommonPaymentRequest.PaymentAmount CommonPaymentRequest.set_PayTRToken].
    identified_and_sent tok W.
  - intros req w <-. rewrite <- Htok. clear Htok Hsigned r2.
    unfold SavedCardPayment. cbv zeta.
    pose proof (generateToken_written s
                  (SavedCardPaymentRequest.CommonPaymentRequest req)) as W.
    revert W.
    generalize (generateToken s (SavedCardPaymentRequest.CommonPaymentRequest req)).
    intros tok W.
    rewrite !sendRequest_outbound, !Marshal_SavedCardPaymentRequest_eq.
    cbn [SavedCardPaymentRequest.CommonPaymentRequest
         SavedCardPaymentRequest.set_PayTRToken
         CommonPaymentRequest.PaymentAmount CommonPaymentRequest.set_PayTRToken].
    identified_and_sent tok W.
Qed.

(** ** The stages of sendRequest *)

Lemma NewRequest_eq (url : string) (doc : json) :
  http_NewRequest "POST" url doc =
  match url_Parse url with
  | Some err => Err err
  | None => Ok (http.MkRequest "POST" url [] doc)
  end.
Proof. reflexivity. Qed.

Lemma returned_sendRequest {A} `{Marshaler A} (s : service) (req : A)
    (url : string) (w : World) :
  returned (sendRequest s req url) w =
  match Marshal req with
  | Err err => Err err
  | Ok doc =>
      match url_Parse url with
      | Some err => Err err
      | None => read_envelope (fst (client s (the_request url doc) w))
      end
  end.
Proof.
  unfold returned. rewrite sendRequest_run.
  destruct (Marshal req); [|reflexivity].
  destruct (url_Parse url); reflexivity.
Qed.

Lemma fails_at_returned {A} `{Marshaler A} (s : service) (req : A)
    (url : string) (w : World) (st : stage) (err : error) :
  fails_at s req url w st err ->
  returned (sendRequest s req url) w = Err err
  /\ List.length (outbound (sendRequest s req url) w) = posts_before_failure st.
Proof.
  rewrite returned_sendRequest, sendRequest_outbound.
  intros F; destruct F as [err E1 | doc err E1 E2 | doc r err E1 E2 E3
                          | doc r resp err E1 E2 E3 E4
                          | doc r resp body err E1 E2 E3 E4 E5];
    rewrite E1; try rewrite NewRequest_eq in E2;
    try (destruct (url_Parse url); [discriminate E2|]; injection E2 as <-;
         change (http.Header_Set "Content-Type" "application/json"
                   (http.MkRequest "POST" url [] doc))
           with (the_request url doc) in E3; rewrite E3).
  - now split.
  - destruct (url_Parse url); [|discriminate E2]. injection E2 as ->. now split.
  - now split.
  - cbn [read_envelope]. rewrite E4. now split.
  - cbn [read_envelope]. rewrite E4. now split.
Qed.

(** C8. [sendRequest] returns an error exactly when one of its five
    stages (serializing the payload, constructing the request, the
    transport call, reading the body, deserializing it) fails, and the
    error is that stage's own; the failing stage is unique and nothing is
    retried: no request has been made when one of the first two stages
    fails, one otherwise, and never more than one; when all stages
    succeed the decoded envelope is returned as it is. *)
Theorem sendRequest_failure_modes {A} `{Marshaler A} (s : service) (req : A)
    (url : string) (w : World) :
  (forall err,
     returned (sendRequest s req url) w = Err err
     <-> exists st, fails_at s req url w st err)
  /\ (forall st1 err1 st2 err2,
        fails_at s req url w st1 err1 ->
        fails_at s req url w st2 err2 ->
        st1 = st2 /\ err1 = err2)
  /\ (forall st err,
        fails_at s req url w st err ->
        List.length (outbound (sendRequest s req url) w) = posts_before_failure st)
  /\ (List.length (outbound (sendRequest s req url) w) <= 1)%nat
  /\ (forall env,
        returned (sendRequest s req url) w = Ok env
        <-> succeeds s req url w env)
  /\ (forall env,
        succeeds s req url w env ->
        List.length (outbound (sendRequest s req url) w) = 1%nat).
Proof.
  split; [|split; [|split; [|split; [|split]]]].
  - intros err. split.
    + rewrite returned_sendRequest.
      destruct (Marshal req) as [doc|e] eqn:E1.
      2:{ intros [= ->]. exists Serialize. now constructor. }
      destruct (url_Parse url) as [e|] eqn:E2.
      { intros [= ->]. exists Construct. apply fails_Construct with doc; [easy|].
        now rewrite NewRequest_eq, E2. }
      assert (N : http_NewRequest "POST" url doc
                  = Ok (http.MkRequest "POST" url [] doc))
        by now rewrite NewRequest_eq, E2.
      destruct (fst (client s (the_request url doc) w)) as [resp|e] eqn:E3.
      2:{ intros [= ->]. exists Transport. now apply fails_Transport with doc
            (http.MkRequest "POST" url [] doc). }
      cbn [read_envelope].
      destruct (io.ReadAll (http.RespBody resp)) as [body|e] eqn:E4.
      2:{ intros [= ->]. exists ReadBody. now apply fails_ReadBody with doc
            (http.MkRequest "POST" url [] doc) resp. }
      intros E5. exists Deserialize.
      now apply fails_Deserialize with doc (http.MkRequest "POST" url [] doc)
        resp body.
    + intros [st F]. now apply (fails_at_returned s req url w st err).
  - intros st1 err1 st2 err2 F1 F2.
    destruct (fails_at_returned s req url w st1 err1 F1) as [R1 _].
    destruct (fails_at_returned s req url w st2 err2 F2) as [R2 _].
    assert (err1 = err2) as -> by congruence. split; [|reflexivity].
    destruct F1 as [e E1 | doc e E1 E2 | doc r e E1 E2 E3
                   | doc r resp e E1 E2 E3 E4 | doc r resp body e E1 E2 E3 E4 E5];
      destruct F2 as [e' E1' | doc' e' E1' E2' | doc' r' e' E1' E2' E3'
                     | doc' r' resp' e' E1' E2' E3' E4'
                     | doc' r' resp' body' e' E1' E2' E3' E4' E5'];
      try reflexivity; try congruence;
      assert (doc' = doc) as -> by congruence;
      try congruence;
      assert (r' = r) as -> by congruence;
      try congruence;
      assert (resp' = resp) as -> by congruence;
      try congruence;
      assert (body' = body) as -> by congruence; congruence.
  - intros st err F. now apply (fails_at_returned s req url w st err).
  - rewrite sendRequest_outbound.
    destruct (Marshal req); [|cbn; lia].
    destruct (url_Parse url); cbn; lia.
  - intros env. rewrite returned_sendRequest. split.
    + destruct (Marshal req) as [doc|e] eqn:E1; [|discriminate].
      destruct (url_Parse url) as [e|] eqn:E2; [discriminate|].
      destruct (fst (client s (the_request url doc) w)) as [resp|e] eqn:E3;
        [|discriminate].
      cbn [read_envelope].
      destruct (io.ReadAll (http.RespBody resp)) as [body|e] eqn:E4;
        [|discriminate].
      intros E5.
      apply all_stages with doc (http.MkRequest "POST" url [] doc) resp body;
        try easy.
      now rewrite NewRequest_eq, E2.
    + intros [doc r resp body E1 E2 E3 E4 E5].
      rewrite E1. rewrite NewRequest_eq in E2.
      destruct (url_Parse url); [discriminate|]. injection E2 as <-.
      change (http.Header_Set "Content-Type" "application/json"
                (http.MkRequest "POST" url [] doc))
        with (the_request url doc) in E3.
      rewrite E3. cbn [read_envelope]. now rewrite E4.
  - intros env [doc r resp body E1 E2 E3 E4 E5].
    rewrite sendRequest_outbound, E1. rewrite NewRequest_eq in E2.
    destruct (url_Parse url); [discriminate|]. reflexivity.
Qed.

(** ** Status inquiry: the gateway's refusal *)

Lemma Sprintf_gateway_error (msg : string) :
  fmt.Sprintf "PayTR error: %s" [fmt.Str msg] = "PayTR error: " ++ msg.
Proof.
  unfold fmt.Sprintf. cbn [fmt.doPrintf fmt.verb_s List.hd_error List.tl].
  cbn [append]. now rewrite append_nil_r.
Qed.

Lemma decoded_MerchantStatusInquiry (s : service) (req : StatusInquiryRequest.t)
    (w : World) :
  decoded (MerchantStatusInquiry s req) w =
  match returned (sendRequest s (status_inquiry_payload s req)
                    (PayTRBaseURL ++ "/odeme/durum-sorgu")) w with
  | Err _ => []
  | Ok env =>
      if String.eqb (PayTRResponse.Status env) "success"
      then [PayTRResponse.Data env] else []
  end.
Proof.
  unfold decoded, returned. rewrite MerchantStatusInquiry_run. cbv zeta.
  pose proof (sendRequest_decoded s (status_inquiry_payload s req)
                (PayTRBaseURL ++ "/odeme/durum-sorgu") w) as D.
  unfold decoded in D.
  destruct (fst (run _ w)) as [env|err]; [|exact D].
  destruct (String.eqb _ _); [|exact D].
  cbn [snd trace]. rewrite decodes_of_app, D. reflexivity.
Qed.

(** C3. When the envelope a status inquiry receives has a status other
    than "success", the call fails with an error that carries the
    gateway's message and [mapstructure.Decode] is not called; in any
    call, a decoding is of the payload of an envelope whose status is
    "success". *)
Theorem status_inquiry_refusal (s : service) (req : StatusInquiryRequest.t)
    (w : World) (env : PayTRResponse.t) (st : state)
    (Hsend : run (sendRequest s (status_inquiry_payload s req)
                    (PayTRBaseURL ++ "/odeme/durum-sorgu")) w = (Ok env, st))
    (Hstatus : PayTRResponse.Status env <> "success") :
  run (MerchantStatusInquiry s req) w = (Err (gateway_error env), st)
  /\ Error (gateway_error env) = "PayTR error: " ++ PayTRResponse.Message env
  /\ decoded (MerchantStatusInquiry s req) w = []
  /\ (forall (req' : StatusInquiryRequest.t) (w' : World) d,
        List.In d (decoded (MerchantStatusInquiry s req') w') ->
        exists env',
          returned (sendRequest s (status_inquiry_payload s req')
                      (PayTRBaseURL ++ "/odeme/durum-sorgu")) w' = Ok env'
          /\ PayTRResponse.Status env' = "success"
          /\ d = PayTRResponse.Data env').
Proof.
  apply String.eqb_neq in Hstatus.
  split; [|split; [|split]].
  - rewrite MerchantStatusInquiry_run, Hsend. cbn [fst snd]. now rewrite Hstatus.
  - unfold gateway_error, Errorf.Errorf. cbn [Error].
    apply Sprintf_gateway_error.
  - rewrite decoded_MerchantStatusInquiry. unfold returned.
    rewrite Hsend. cbn [fst]. now rewrite Hstatus.
  - intros req' w' d. rewrite decoded_MerchantStatusInquiry.
    destruct (returned _ w') as [env'|err];
      [|intros F; cbn in F; contradiction].
    destruct (String.eqb (PayTRResponse.Status env') "success") eqn:E;
      [|intros F; cbn in F; contradiction].
    intros [<-|F]; [|cbn in F; contradiction].
    exists env'. apply String.eqb_eq in E. now repeat split.
Qed.

(** ** Decoding the payload of an envelope *)

Lemma lookup_In (k : string) (m : list (string * json)) (v : json) :
  Json.lookup k m = Some v -> List.In (k, v) m.
Proof.
  induction m as [|[k' v'] m IH]; simpl; [discriminate|].
  destruct (String.eqb k' k) eqn:E.
  - apply String.eqb_eq in E. intros [= ->]. left. now subst.
  - intros L. right. now apply IH.
Qed.

Lemma search_Some (m : list (string * json)) (f : string) (v : json) :
  mapstructure.search m f = Some v ->
  exists k, List.In (k, v) m /\ strings.EqualFold k f = true.
Proof.
  induction m as [|[k' v'] m IH]; simpl; [discriminate|].
  destruct (strings.EqualFold k' f) eqn:E.
  - intros [= ->]. exists k'. split; [now left | exact E].
  - intros S. destruct (IH S) as [k [I F]]. exists k. split; [now right | exact F].
Qed.

Lemma search_None (m : list (string * json)) (f : string) :
  mapstructure.search m f = None ->
  forall k v, List.In (k, v) m -> strings.EqualFold k f = false.
Proof.
  induction m as [|[k' v'] m IH]; simpl; [intros _ k v []|].
  destruct (strings.EqualFold k' f) eqn:E; [discriminate|].
  intros S k v [[= <- <-]|I]; [exact E | now apply (IH S k v)].
Qed.

Lemma find_carried (m : list (string * json)) (f : string) (v : json) :
  (exists k, List.In (k, v) m /\ strings.EqualFold k f = true) ->
  (forall k v', List.In (k, v') m -> strings.EqualFold k f = true -> v' = v) ->
  strings.EqualFold f f = true ->
  mapstructure.find m f = Some v.
Proof.
  intros [k [I F]] U R. unfold mapstructure.find.
  destruct (Json.lookup f m) as [v'|] eqn:L.
  - f_equal. apply (U f); [now apply lookup_In | exact R].
  - destruct (mapstructure.search m f) as [v'|] eqn:S.
    + destruct (search_Some m f v' S) as [k' [I' F']]. f_equal. now apply (U k').
    + rewrite (search_None m f S k v I) in F. discriminate.
Qed.

Lemma find_absent (m : list (string * json)) (f : string) :
  (forall k v, List.In (k, v) m -> strings.EqualFold k f = false) ->
  strings.EqualFold f f = true ->
  mapstructure.find m f = None.
Proof.
  intros A R. unfold mapstructure.find.
  destruct (Json.lookup f m) as [v'|] eqn:L.
  - apply lookup_In in L. rewrite (A f v' L) in R. discriminate.
  - destruct (mapstructure.search m f) as [v''|] eqn:S; [|reflexivity].
    destruct (search_Some m f v'' S) as [k' [I' F']].
    rewrite (A k' v'' I') in F'. discriminate.
Qed.

Ltac split_lets :=
  repeat match goal with
         | |- context [let '(_, _) := ?x in _] => destruct x
         end.

Lemma Status_of_StatusInquiryResponse (m : list (string * json)) :
  StatusInquiryResponse.Status (fst (mapstructure.decode_StatusInquiryResponse m))
  = fst (mapstructure.field_string "" m "Status").
Proof.
  unfold mapstructure.decode_StatusInquiryResponse. cbv zeta.
  destruct (mapstructure.field_string "" m "Status") as [f1 e1].
  split_lets. reflexivity.
Qed.

Lemma Status_of_TransactionDetailsResponse (m : list (string * json)) :
  TransactionDetailsResponse.Status
    (fst (mapstructure.decode_TransactionDetailsResponse m))
  = fst (mapstructure.field_string "" m "Status").
Proof.
  unfold mapstructure.decode_TransactionDetailsResponse. cbv zeta.
  destruct (mapstructure.field_string "" m "Status") as [f1 e1].
  split_lets. reflexivity.
Qed.

Lemma field_Status_carried (m : list (string * json)) (v : string) :
  carries_status m v ->
  fst (mapstructure.field_string "" m "Status") = v.
Proof.
  intros [E U]. unfold mapstructure.field_string.
  rewrite (find_carried m "Status" (JString v) E U eq_refl). reflexivity.
Qed.

Lemma field_Status_absent (m : list (string * json)) :
  no_status m ->
  fst (mapstructure.field_string "" m "Status") = "".
Proof.
  intros A. unfold mapstructure.field_string.
  now rewrite (find_absent m "Status" A eq_refl).
Qed.

Lemma Decode_Ok {A} (decode : list (string * json) -> A * list string)
    (data : option (list (string * json))) (a : A) :
  mapstructure.Decode decode data = Ok a ->
  a = fst (decode (match data with Some m => m | None => [] end)).
Proof.
  unfold mapstructure.Decode.
  destruct (decode _) as [a' [|e errs]]; [|discriminate].
  now intros [= ->].
Qed.

Lemma Decode_nil_StatusInquiryResponse :
  mapstructure.Decode mapstructure.decode_StatusInquiryResponse None
  = Ok (StatusInquiryResponse.Mk "" "" "" "" "" "" "" "" "" "" "" "" "" "" "" []).
Proof. reflexivity. Qed.

Lemma Decode_nil_TransactionDetailsResponse :
  mapstructure.Decode mapstructure.decode_TransactionDetailsResponse None
  = Ok (TransactionDetailsResponse.Mk "" [] "").
Proof. reflexivity. Qed.

(** ** A transport that answers every request with one success envelope *)

Lemma sendRequest_answered {A} `{Marshaler A} (s : service) (req : A)
    (url : string) (w : World) (doc : json) (resp : http.Response)
    (body : string) (env : PayTRResponse.t) :
  Marshal req = Ok doc ->
  url_Parse url = None ->
  (forall r w, fst (client s r w) = Ok resp) ->
  io.ReadAll (http.RespBody resp) = Ok body ->
  json_Unmarshal body = Ok env ->
  returned (sendRequest s req url) w = Ok env.
Proof.
  intros E1 E2 E3 E4 E5. rewrite returned_sendRequest, E1, E2, E3.
  cbn [read_envelope]. now rewrite E4.
Qed.

(** C9, as the code has it.  Let the transport answer every request with
    one response whose body decodes to an envelope of status "success",
    and let the endpoint URLs parse.  Then the eight calls that hand the
    envelope back return it, provided the request serializes (its amount,
    where it has one, is finite).  A status inquiry and a transaction
    report return what [mapstructure.Decode] makes of the envelope's data
    payload: an error when the payload does not decode, else a result
    whose [Status] is the string the payload holds under its status key
    and is empty when the payload has no such key or is absent. *)
Theorem fixed_success_envelope (s : service) (resp : http.Response)
    (body : string) (env : PayTRResponse.t)
    (Hurls : forall path, List.In path endpoint_paths ->
                          url_Parse (PayTRBaseURL ++ path) = None)
    (Hmock : forall r w, fst (client s r w) = Ok resp)
    (Hbody : io.ReadAll (http.RespBody resp) = Ok body)
    (Hjson : json_Unmarshal body = Ok env)
    (Hstatus : PayTRResponse.Status env = "success") :
  (forall req w,
     strconv.is_finite
       (CommonPaymentRequest.PaymentAmount
          (NewCardPaymentRequest.CommonPaymentRequest req)) = true ->
     returned (NewCardPayment s req) w = Ok env)
  /\ (forall req w,
        strconv.is_finite
          (CommonPaymentRequest.PaymentAmount
             (SavedCardPaymentRequest.CommonPaymentRequest req)) = true ->
        returned (SavedCardPayment s req) w = Ok env
        /\ returned (RecurringPayment s req) w = Ok env)
  /\ (forall req w,
        strconv.is_finite (RefundRequest.ReturnAmount req) = true ->
        returned (RefundPayment s req) w = Ok env)
  /\ (forall req w, returned (AddNewCard s req) w = Ok env)
  /\ (forall binNumber w, returned (GetBinDetails s binNumber) w = Ok env)
  /\ (forall utoken w, returned (GetSavedCards s utoken) w = Ok env)
  /\ (forall utoken ctoken w,
        returned (DeleteSavedCard s utoken ctoken) w = Ok env)
  /\ (forall req w,
        returned (MerchantStatusInquiry s req) w
        = decoded_or_error
            (mapstructure.Decode mapstructure.decode_StatusInquiryResponse
               (PayTRResponse.Data env)))
  /\ (forall req w,
        returned (GetTransactionDetails s req) w
        = decoded_or_error
            (mapstructure.Decode mapstructure.decode_TransactionDetailsResponse
               (PayTRResponse.Data env)))
  /\ (forall req w res,
        returned (MerchantStatusInquiry s req) w = Ok res ->
        match PayTRResponse.Data env with
        | None => StatusInquiryResponse.Status res = ""
        | Some m =>
            (carries_status m "success" ->
             StatusInquiryResponse.Status res = "success")
            /\ (no_status m -> StatusInquiryResponse.Status res = "")
        end)
  /\ (forall req w res,
        returned (GetTransactionDetails s req) w = Ok res ->
        match PayTRResponse.Data env with
        | None => TransactionDetailsResponse.Status res = ""
        | Some m =>
            (carries_status m "success" ->
             TransactionDetailsResponse.Status res = "success")
            /\ (no_status m -> TransactionDetailsResponse.Status res = "")
        end).
Proof.
  assert (Hsend : forall A (M : Marshaler A) (req : A) path w doc,
            Marshal req = Ok doc -> List.In path endpoint_paths ->
            returned (sendRequest s req (PayTRBaseURL ++ path)) w = Ok env).
  { intros A M req path w doc E I.
    apply (sendRequest_answered s req _ w doc resp body env E (Hurls path I)
             Hmock Hbody Hjson). }
  assert (Hinquiry : forall req w,
            returned (MerchantStatusInquiry s req) w
            = decoded_or_error
                (mapstructure.Decode mapstructure.decode_StatusInquiryResponse
                   (PayTRResponse.Data env))).
  { intros req w. unfold returned. rewrite MerchantStatusInquiry_run. cbv zeta.
    fold (returned (sendRequest s (status_inquiry_payload s req)
                      (PayTRBaseURL ++ "/odeme/durum-sorgu")) w).
    rewrite (Hsend _ _ (status_inquiry_payload s req) "/odeme/durum-sorgu" w _
               (Marshal_StatusInquiryReq_eq _)) by (cbn; tauto).
    rewrite Hstatus. reflexivity. }
  assert (Hreport : forall req w,
            returned (GetTransactionDetails s req) w
            = decoded_or_error
                (mapstructure.Decode mapstructure.decode_TransactionDetailsResponse
                   (PayTRResponse.Data env))).
  { intros req w. unfold returned. rewrite GetTransactionDetails_run. cbv zeta.
    fold (returned (sendRequest s (transaction_details_payload s req)
                      (PayTRBaseURL ++ "/rapor/islem-dokumu")) w).
    rewrite (Hsend _ _ (transaction_details_payload s req) "/rapor/islem-dokumu"
               w _ (Marshal_TransactionDetailsReq_eq _)) by (cbn; tauto).
    reflexivity. }
  repeat match goal with |- _ /\ _ => split end.
  - intros req w F. unfold NewCardPayment. cbv zeta.
    eapply Hsend with (path := "/odeme"); [|cbn; tauto].
    rewrite Marshal_NewCardPaymentRequest_eq.
    cbn [NewCardPaymentRequest.CommonPaymentRequest
         NewCardPaymentRequest.set_PayTRToken
         CommonPaymentRequest.PaymentAmount CommonPaymentRequest.set_PayTRToken].
    rewrite F. reflexivity.
  - intros req w F. split.
    + unfold SavedCardPayment. cbv zeta.
      eapply Hsend with (path := "/odeme"); [|cbn; tauto].
      rewrite Marshal_SavedCardPaymentRequest_eq.
      cbn [SavedCardPaymentRequest.CommonPaymentRequest
           SavedCardPaymentRequest.set_PayTRToken
           CommonPaymentRequest.PaymentAmount CommonPaymentRequest.set_PayTRToken].
      rewrite F. reflexivity.
    + unfold RecurringPayment. cbv zeta.
      eapply Hsend with (path := "/odeme"); [|cbn; tauto].
      rewrite Marshal_SavedCardPaymentRequest_eq.
      cbn [SavedCardPaymentRequest.CommonPaymentRequest
           SavedCardPaymentRequest.set_PayTRToken
           SavedCardPaymentRequest.set_RecurringPayment
           CommonPaymentRequest.PaymentAmount CommonPaymentRequest.set_PayTRToken].
      rewrite F. reflexivity.
  - intros req w F. unfold RefundPayment. cbv zeta.
    eapply Hsend with (path := "/odeme/iade"); [|cbn; tauto].
    rewrite Marshal_RefundPaymentReq_eq.
    cbn [RefundPaymentReq.ReturnAmount RefundPaymentReq.set_PayTRToken].
    rewrite F. reflexivity.
  - intros req w. unfold AddNewCard. cbv zeta.
    eapply Hsend with (path := "/odeme"); [|cbn; tauto].
    rewrite Marshal_NewCardPaymentRequest_eq.
    cbn [NewCardPaymentRequest.CommonPaymentRequest
         NewCardPaymentRequest.set_PayTRToken
         CommonPaymentRequest.PaymentAmount CommonPaymentRequest.set_PayTRToken].
    change (strconv.is_finite F64.of_1) with true. reflexivity.
  - intros binNumber w. unfold GetBinDetails. cbv zeta.
    eapply Hsend with (path := "/odeme/api/bin-detail"); [|cbn; tauto].
    apply Marshal_BinDetailsReq_eq.
  - intros utoken w. unfold GetSavedCards. cbv zeta.
    eapply Hsend with (path := "/odeme/capi/list"); [|cbn; tauto].
    apply Marshal_SavedCardsReq_eq.
  - intros utoken ctoken w. unfold DeleteSavedCard. cbv zeta.
    eapply Hsend with (path := "/odeme/capi/delete"); [|cbn; tauto].
    apply Marshal_DeleteSavedCardReq_eq.
  - exact Hinquiry.
  - exact Hreport.
  - intros req w res. rewrite Hinquiry. unfold decoded_or_error.
    destruct (mapstructure.Decode mapstructure.decode_StatusInquiryResponse _)
      as [r|e] eqn:D; cbv beta iota;
      [|intros X; discriminate X].
    intros [= ->]. apply Decode_Ok in D. subst res.
    rewrite Status_of_StatusInquiryResponse.
    destruct (PayTRResponse.Data env) as [m|]; [|reflexivity].
    split; [apply field_Status_carried | apply field_Status_absent].
  - intros req w res. rewrite Hreport. unfold decoded_or_error.
    destruct (mapstructure.Decode mapstructure.decode_TransactionDetailsResponse _)
      as [r|e] eqn:D; cbv beta iota;
      [|intros X; discriminate X].
    intros [= ->]. apply Decode_Ok in D. subst res.
    rewrite Status_of_TransactionDetailsResponse.
    destruct (PayTRResponse.Data env) as [m|]; [|reflexivity].
    split; [apply field_Status_carried | apply field_Status_absent].
Qed.

(** ** Adding a card *)

Lemma amount2_of_1 : Spec.amount2 F64.of_1 = "1.00".
Proof. vm_compute. reflexivity. Qed.

(** C6, as the code has it.  [AddNewCard] sends to the payment-submission
    path a new-card payment request whose amount is the nominal validation
    amount 1 (rendered "1.00" in the token), whose test-mode flag is "1",
    whose basket is the fixed single-item description, whose store-card
    flag is "1", whose merchant ID is the configured one, and whose user
    IP, order ID, e-mail, return URLs, address, phone and card fields are
    the caller's as the JSON encoder writes them: the caller's strings
    themselves when they are valid UTF-8.  The user name is the card
    owner's.  Its token is the primary scheme's over that request. *)
Theorem add_new_card_request (s : service) (req : AddNewCardRequest.t)
    (w : World) :
  List.Forall
    (fun r =>
       posted_to (PayTRBaseURL ++ "/odeme") r
       /\ has_members
            [ ("payment_amount", JNumber F64.of_1);
              ("test_mode", JString "1");
              ("user_basket", JString card_validation_basket);
              ("store_card", JString "1");
              ("merchant_id", JString (Json.written (config.MerchantID (config s))));
              ("user_ip", JString (Json.written (AddNewCardRequest.UserIP req)));
              ("merchant_oid", JString (Json.written (AddNewCardRequest.MerchantOid req)));
              ("email", JString (Json.written (AddNewCardRequest.Email req)));
              ("merchant_ok_url", JString (Json.written (AddNewCardRequest.MerchantOkURL req)));
              ("merchant_fail_url", JString (Json.written (AddNewCardRequest.MerchantFailURL req)));
              ("user_address", JString (Json.written (AddNewCardRequest.UserAddress req)));
              ("user_phone", JString (Json.written (AddNewCardRequest.UserPhone req)));
              ("user_name", JString (Json.written (AddNewCardRequest.CardOwner req)));
              ("cc_owner", JString (Json.written (AddNewCardRequest.CardOwner req)));
              ("card_number", JString (Json.written (AddNewCardRequest.CardNumber req)));
              ("expiry_month", JString (Json.written (AddNewCardRequest.ExpiryMonth req)));
              ("expiry_year", JString (Json.written (AddNewCardRequest.ExpiryYear req)));
              ("cvv", JString (Json.written (AddNewCardRequest.CVV req)));
              ("card_type", JString (Json.written (AddNewCardRequest.CardType req))) ] r
       /\ signed_with
            (Spec.token (config s)
               (config.MerchantID (config s) ++ AddNewCardRequest.UserIP req
                  ++ AddNewCardRequest.MerchantOid req
                  ++ AddNewCardRequest.Email req
                  ++ "1.00" ++ "card" ++ "0" ++ "TRY" ++ "1" ++ "0")) r)
    (outbound (AddNewCard s req) w)
  /\ (url_Parse (PayTRBaseURL ++ "/odeme") = None ->
      List.length (outbound (AddNewCard s req) w) = 1%nat)
  /\ list_ascii_of_string card_validation_basket
     = List.map ascii_of_nat
         [ 91; 91; 34; 67; 97; 114; 100; 32; 86; 97; 108; 105; 100; 97; 116;
           105; 111; 110; 34; 44; 32; 34; 49; 34; 44; 32; 49; 93; 93 ]%nat
  /\ (forall (card : NewCardPaymentRequest.t) (w' : World),
        List.Forall (posted_to (PayTRBaseURL ++ "/odeme"))
          (outbound (NewCardPayment s card) w'))
  /\ (forall x : string, utf8.ValidString x = true -> Json.written x = x).
Proof.
  split; [|split; [|split; [|split; [|exact written_valid]]]].
  - unfold AddNewCard. cbv zeta.
    rewrite generateToken_spec.
    unfold Spec.primary_token, Spec.primary_input, Spec.primary_fields.
    cbn [NewCardPaymentRequest.CommonPaymentRequest
         CommonPaymentRequest.UserIP CommonPaymentRequest.MerchantOid
         CommonPaymentRequest.Email CommonPaymentRequest.PaymentAmount
         CommonPaymentRequest.PaymentType CommonPaymentRequest.InstallmentCount
         CommonPaymentRequest.Currency CommonPaymentRequest.TestMode
         CommonPaymentRequest.NonThreeD].
    rewrite amount2_of_1, !concat_nil_cons. cbn [String.concat].
    rewrite append_nil_r.
    match goal with
    | |- context [Spec.token (config s) ?i] =>
        change i with
          (config.MerchantID (config s) ++ AddNewCardRequest.UserIP req
             ++ AddNewCardRequest.MerchantOid req ++ AddNewCardRequest.Email req
             ++ "1.00" ++ "card" ++ "0" ++ "TRY" ++ "1" ++ "0")
    end.
    name_token. intros tok W.
    rewrite sendRequest_outbound, Marshal_NewCardPaymentRequest_eq.
    cbn [NewCardPaymentRequest.CommonPaymentRequest
         NewCardPaymentRequest.set_PayTRToken
         CommonPaymentRequest.PaymentAmount CommonPaymentRequest.set_PayTRToken].
    change (strconv.is_finite F64.of_1) with true. cbv iota.
    destruct (url_Parse _); constructor; [|constructor].
    split; [repeat split|]. split.
    + unfold has_members. repeat (constructor; [reflexivity|]). constructor.
    + token_member tok W.
  - intros U. unfold AddNewCard. cbv zeta.
    rewrite sendRequest_outbound, Marshal_NewCardPaymentRequest_eq, U.
    cbn [NewCardPaymentRequest.CommonPaymentRequest
         NewCardPaymentRequest.set_PayTRToken
         CommonPaymentRequest.PaymentAmount CommonPaymentRequest.set_PayTRToken].
    change (strconv.is_finite F64.of_1) with true. reflexivity.
  - vm_compute. reflexivity.
  - intros card w'. apply sendRequest_posted.
Qed.

(** ** Changing one signed field *)

Lemma concat_around (pre post : list string) (x : string) :
  String.concat "" (pre ++ x :: post)
  = String.concat "" pre ++ x ++ String.concat "" post.
Proof. now rewrite concat_nil_app, concat_nil_cons. Qed.

(** C4, as the code has it.  When the signed fields of two requests (the
    amount as rendered) are the same but for one, the strings that are
    hashed differ, with and without the salt; the tokens are the base64
    HMAC-SHA256 of these strings.  (Nothing separates the fields: a change
    spread over two neighbouring fields can leave the string, and so the
    token, unchanged.) *)
Theorem one_changed_field_changes_hash_input (s : service)
    (r1 r2 : CommonPaymentRequest.t) (pre post : list string) (x y : string)
    (H1 : Spec.primary_fields (config s) r1 = (pre ++ x :: post)%list)
    (H2 : Spec.primary_fields (config s) r2 = (pre ++ y :: post)%list)
    (Hxy : x <> y) :
  Spec.primary_input (config s) r1 <> Spec.primary_input (config s) r2
  /\ Spec.primary_input (config s) r1 ++ config.MerchantSalt (config s)
     <> Spec.primary_input (config s) r2 ++ config.MerchantSalt (config s)
  /\ generateToken s r1 = Spec.token (config s) (Spec.primary_input (config s) r1)
  /\ generateToken s r2 = Spec.token (config s) (Spec.primary_input (config s) r2).
Proof.
  assert (N : Spec.primary_input (config s) r1 <> Spec.primary_input (config s) r2).
  { unfold Spec.primary_input. rewrite H1, H2, !concat_around.
    intros E. apply append_inj_l, append_inj_r in E. now apply Hxy. }
  split; [exact N|]. split.
  - intros E. apply append_inj_r in E. now apply N.
  - split; apply generateToken_spec.
Qed.

End Endpoint_properties.

(** ** The two-decimal rendering of an amount *)

Section Two_decimals.

Lemma byte_of_ascii_of_byte (b : Z) :
  0 <= b < 256 -> Bytes.byte_of_ascii (Bytes.ascii_of_byte b) = b.
Proof.
  intros Hb. unfold Bytes.byte_of_ascii, Bytes.ascii_of_byte.
  rewrite Z.mod_small by exact Hb.
  rewrite N_ascii_embedding by lia. lia.
Qed.

Lemma digit_is_digit (v : Z) : 0 <= v <= 9 -> Spec.is_digit (strconv.digit v).
Proof.
  intros Hv. unfold Spec.is_digit, strconv.digit.
  rewrite byte_of_ascii_of_byte; lia.
Qed.

Lemma zero_is_digit : Spec.is_digit "0".
Proof. unfold Spec.is_digit. vm_compute. split; discriminate. Qed.

Lemma one_is_digit : Spec.is_digit "1".
Proof. unfold Spec.is_digit. vm_compute. split; discriminate. Qed.

Lemma digits_aux_wf (fuel : nat) (n : Z) (acc : list ascii) :
  List.Forall Spec.is_digit acc ->
  List.Forall Spec.is_digit (strconv.digits_aux fuel n acc).
Proof.
  revert n acc. induction fuel as [|fuel IH]; intros n acc Hacc; simpl.
  - exact Hacc.
  - destruct (n <=? 0); [exact Hacc|].
    apply IH. constructor; [|exact Hacc].
    apply digit_is_digit. pose proof (Z.mod_pos_bound n 10). lia.
Qed.

Lemma digits_of_wf (n : Z) : List.Forall Spec.is_digit (strconv.digits_of n).
Proof. apply digits_aux_wf. constructor. Qed.

Lemma strip0_wf (l : list ascii) :
  List.Forall Spec.is_digit l -> List.Forall Spec.is_digit (strconv.strip0 l).
Proof.
  induction 1 as [|c l Hc Hl IH]; simpl; [constructor|].
  destruct (Ascii.eqb c "0"); [exact IH | now constructor].
Qed.

#[local] Abbreviation wf := Spec.wf_decimal.

Lemma Forall_firstn {A} (P : A -> Prop) (n : nat) (l : list A) :
  List.Forall P l -> List.Forall P (firstn n l).
Proof.
  intros Hl. revert n. induction Hl as [|x l Hx Hl IH]; intros [|n]; simpl;
    try constructor; [exact Hx | apply IH].
Qed.

Lemma trim_wf (a : strconv.decimal) : wf a -> wf (strconv.trim a).
Proof.
  unfold wf, strconv.trim. intros Ha.
  assert (W : List.Forall Spec.is_digit
                (List.rev (strconv.strip0 (List.rev (strconv.d a))))).
  { apply List.Forall_rev, strip0_wf, List.Forall_rev, Ha. }
  destruct (List.rev (strconv.strip0 (List.rev (strconv.d a)))); [constructor|].
  exact W.
Qed.

Lemma assign_shift_wf (mant k : Z) : wf (strconv.assign_shift mant k).
Proof.
  unfold strconv.assign_shift.
  destruct (0 <=? k); apply trim_wf; apply digits_of_wf.
Qed.

Lemma carry_wf (l l' : list ascii) :
  List.Forall Spec.is_digit l -> strconv.carry l = Some l' ->
  List.Forall Spec.is_digit l'.
Proof.
  induction 1 as [|c l Hc Hl IH]; simpl; [discriminate|].
  destruct (Bytes.byte_of_ascii c <? 57) eqn:E.
  - intros [= <-]. constructor; [|exact Hl].
    apply Z.ltb_lt in E. unfold Spec.is_digit in *.
    rewrite byte_of_ascii_of_byte; lia.
  - exact IH.
Qed.

Lemma Round_wf (a : strconv.decimal) (n : Z) : wf a -> wf (strconv.Round a n).
Proof.
  intros Ha. unfold strconv.Round.
  destruct ((n <? 0) || (strconv.nd a <=? n)); [exact Ha|].
  destruct (strconv.shouldRoundUp a n).
  - unfold strconv.RoundUp.
    destruct ((n <? 0) || (strconv.nd a <=? n)); [exact Ha|].
    destruct (strconv.carry _) as [l'|] eqn:C.
    + unfold wf. cbn [strconv.d]. apply List.Forall_rev.
      apply (carry_wf _ _ (List.Forall_rev (Forall_firstn _ _ _ Ha)) C).
    + unfold wf. cbn [strconv.d]. constructor; [apply one_is_digit|constructor].
  - unfold strconv.RoundDown.
    destruct ((n <? 0) || (strconv.nd a <=? n)); [exact Ha|].
    apply trim_wf. unfold wf. cbn [strconv.d]. now apply Forall_firstn.
Qed.

Lemma digit_at_wf (a : strconv.decimal) (i : Z) :
  wf a -> Spec.is_digit (strconv.digit_at a i).
Proof.
  intros Ha. unfold strconv.digit_at.
  destruct (List.nth_in_or_default (Z.to_nat i) (strconv.d a) "0"%char) as [I|E].
  - unfold wf in Ha. rewrite List.Forall_forall in Ha. now apply Ha.
  - rewrite E. apply zero_is_digit.
Qed.

Lemma fmtF_two_decimals (neg : bool) (a : strconv.decimal) :
  wf a -> Spec.two_decimals (strconv.fmtF neg a 2).
Proof.
  intros Ha. unfold strconv.fmtF.
  set (g := fun i : nat =>
              let j := strconv.dp a + Z.of_nat i in
              if (0 <=? j) && (j <? strconv.nd a) then strconv.digit_at a j
              else "0"%char).
  set (int := if 0 <? strconv.dp a
              then (firstn (Z.to_nat (Z.min (strconv.nd a) (strconv.dp a)))
                      (strconv.d a)
                    ++ List.repeat "0"%char
                         (Z.to_nat (strconv.dp a
                                    - Z.min (strconv.nd a) (strconv.dp a))))%list
              else ["0"%char]).
  exists (if neg then "-" else ""), int, (g 0%nat), (g 1%nat).
  assert (Hg : forall i, Spec.is_digit (g i)).
  { intros i. unfold g. cbv zeta.
    destruct ((0 <=? _) && (_ <? _)); [now apply digit_at_wf | apply zero_is_digit]. }
  split; [reflexivity|]. split; [destruct neg; auto|].
  split; [|split; [|split; apply Hg]].
  - unfold int. destruct (0 <? strconv.dp a) eqn:E; [|discriminate].
    apply Z.ltb_lt in E. intros N. apply (f_equal (@List.length ascii)) in N.
    rewrite List.length_app, List.repeat_length, List.length_firstn in N.
    unfold strconv.nd in N. cbn [List.length] in N. lia.
  - unfold int. destruct (0 <? strconv.dp a).
    + apply List.Forall_app. split; [now apply Forall_firstn|].
      apply List.Forall_forall. intros c I. apply List.repeat_spec in I.
      subst c. apply zero_is_digit.
    + constructor; [apply zero_is_digit | constructor].
Qed.

Lemma FormatFloat_f_finite (f : float64) (prec : nat) :
  strconv.is_finite f = true ->
  exists mant exp,
    strconv.FormatFloat_f f prec
    = strconv.bigFtoa_f prec (strconv.neg_of f) mant exp.
Proof.
  unfold strconv.is_finite, strconv.FormatFloat_f. intros F.
  apply Bool.negb_true_iff in F. rewrite F.
  destruct (strconv.exp_of f =? 0); eexists; eexists; reflexivity.
Qed.

Lemma two_decimals_has_point (s : string) :
  Spec.two_decimals s -> List.In "."%char (list_ascii_of_string s).
Proof.
  intros [sign [int [d1 [d2 [E _]]]]]. subst s.
  rewrite list_ascii_of_append, list_ascii_of_string_of_list_ascii.
  apply List.in_or_app. right. apply List.in_or_app. right. now left.
Qed.

(** C7, as the code has it.  The amount of a token input is rendered with
    exactly two fractional digits after a "." whenever it is finite, by
    [strconv.FormatFloat] in the primary scheme and by [%.2f] in the refund
    token, which render alike; 100 gives "100.00" and 99.999 gives
    "100.00". *)
Theorem finite_amount_has_two_decimals (f : float64)
    (Hfinite : strconv.is_finite f = true) :
  Spec.two_decimals (strconv.FormatFloat_f f 2)
  /\ fmt.Sprintf "%.2f" [fmt.Float64 f] = strconv.FormatFloat_f f 2
  /\ (forall a b : string,
        fmt.Sprintf "%s%s%.2f" [fmt.Str a; fmt.Str b; fmt.Float64 f]
        = a ++ b ++ strconv.FormatFloat_f f 2)
  /\ strconv.FormatFloat_f F64.of_100 2 = "100.00"
  /\ strconv.FormatFloat_f F64.of_99_999 2 = "100.00".
Proof.
  split; [|split; [|split; [|split]]].
  - destruct (FormatFloat_f_finite f 2 Hfinite) as [mant [exp ->]].
    unfold strconv.bigFtoa_f. cbv zeta.
    apply fmtF_two_decimals, Round_wf, assign_shift_wf.
  - apply Sprintf_2f.
  - intros a b. apply Sprintf_s_s_2f.
  - vm_compute. reflexivity.
  - vm_compute. reflexivity.
Qed.

End Two_decimals.

(** * The properties on the package's tests *)

Import payment Run domain.

(** The tokens agree with HMAC-SHA256 values computed outside Rocq for the
    credentials and requests of [payment_test.go]. *)
Example tokens_of_the_tests :
  List.map (fun r => (http.URL r, Json.member "paytr_token" (http.Body r)))
    (@Run.outbound mock.runtime _
       (payment.NewCardPayment mock.s_saved (mock.new_card_request F64.of_100)) []
     ++ @Run.outbound mock.runtime _
          (payment.RefundPayment mock.s_saved
             (domain.RefundRequest.Mk "test_order_789" F64.of_50 "")) []
     ++ @Run.outbound mock.runtime _
          (payment.DeleteSavedCard mock.s_saved "u1" "c1") []
     ++ @Run.outbound mock.runtime _
          (payment.MerchantStatusInquiry mock.s_saved mock.inquiry) []
     ++ @Run.outbound mock.runtime _
          (payment.AddNewCard mock.s_saved mock.add_card_request) [])
  = [ ("https://www.paytr.com/odeme",
       Some (JString "gzS1JHhQFQfTFpwdcn9LJisIWqMbGIGCwq5IMgIwGRs="));
      ("https://www.paytr.com/odeme/iade",
       Some (JString "IrslLFltrAU9Dk4VBIWs/qn74yM2DPeVao0VmjAHxJo="));
      ("https://www.paytr.com/odeme/capi/delete",
       Some (JString "voHOqKZUfFKchTGuRTkvbkOD0r0FNaLe04ehH8MxMhU="));
      ("https://www.paytr.com/odeme/durum-sorgu",
       Some (JString "kCqCs+vWO8vk018mXWXd4uUE63gUqZjO8NYJjr+9o08="));
      ("https://www.paytr.com/odeme",
       Some (JString "MFj7OzGwZk5cTfMyjzikZfEFFhWP66tpSDttp0bTqG8=")) ].
Proof. vm_compute. reflexivity. Qed.

(** The float constants are the doubles nearest to their decimal
    literals: [m * 2^e] is within half a unit in the last place. *)
Example float_constants :
  let m f := Z.lor (strconv.mant_of f) (Z.shiftl 1 52) in
  let e f := strconv.exp_of f - 1023 - 52 in
  (e F64.of_99_999 = -46 /\ Z.abs (1000 * m F64.of_99_999 - 99999 * 2 ^ 46) <= 500)
  /\ (e F64.of_100_001 = -46
      /\ Z.abs (1000 * m F64.of_100_001 - 100001 * 2 ^ 46) <= 500)
  /\ (e F64.of_100_002 = -46
      /\ Z.abs (1000 * m F64.of_100_002 - 100002 * 2 ^ 46) <= 500)
  /\ (e F64.of_100 = -46 /\ m F64.of_100 = 100 * 2 ^ 46)
  /\ (e F64.of_50 = -47 /\ m F64.of_50 = 50 * 2 ^ 47)
  /\ (e F64.of_1 = -52 /\ m F64.of_1 = 2 ^ 52).
Proof. vm_compute. repeat split; discriminate. Qed.

(** Witness of C3: the mock answers a status inquiry with a refusal. *)
Lemma status_inquiry_refusal_witness :
  domain.PayTRResponse.Status mock.failed_envelope <> "success"
  /\ @Run.returned mock.runtime _
       (payment.MerchantStatusInquiry mock.s_failed mock.inquiry) []
     = Err (errorString "PayTR error: Order not found")
  /\ @Run.decoded mock.runtime _
       (payment.MerchantStatusInquiry mock.s_failed mock.inquiry) [] = []
  /\ List.length
       (@Run.outbound mock.runtime _
          (payment.MerchantStatusInquiry mock.s_failed mock.inquiry) []) = 1%nat.
Proof.
  assert (Hstatus : domain.PayTRResponse.Status mock.failed_envelope <> "success")
    by discriminate.
  assert (Hsend :
    @Run.run mock.runtime _
      (payment.sendRequest mock.s_failed
         (@Run.status_inquiry_payload mock.runtime mock.s_failed mock.inquiry)
         (domain.PayTRBaseURL ++ "/odeme/durum-sorgu")) []
    = (Ok mock.failed_envelope,
       snd (@Run.run mock.runtime _
              (payment.sendRequest mock.s_failed
                 (@Run.status_inquiry_payload mock.runtime mock.s_failed
                    mock.inquiry)
                 (domain.PayTRBaseURL ++ "/odeme/durum-sorgu")) [])))
    by (vm_compute; reflexivity).
  destruct (@status_inquiry_refusal mock.runtime mock.s_failed mock.inquiry []
              mock.failed_envelope _ Hsend Hstatus) as [R [E [D _]]].
  split; [exact Hstatus|]. split; [|split].
  - unfold Run.returned. rewrite R. reflexivity.
  - exact D.
  - vm_compute. reflexivity.
Defined.

(** Witness of C4: two requests of the test service that differ in the
    order ID only. *)
Lemma one_changed_field_witness :
  "test_order_1" <> "test_order_2"
  /\ Spec.primary_input mock.test_config
       (mock.common_request "127.0.0.1" "test_order_1" F64.of_100)
     <> Spec.primary_input mock.test_config
          (mock.common_request "127.0.0.1" "test_order_2" F64.of_100).
Proof.
  assert (Hxy : "test_order_1" <> "test_order_2") by discriminate.
  split; [exact Hxy|].
  exact (proj1 (@one_changed_field_changes_hash_input mock.runtime mock.s_saved
                  (mock.common_request "127.0.0.1" "test_order_1" F64.of_100)
                  (mock.common_request "127.0.0.1" "test_order_2" F64.of_100)
                  ["test_merchant"; "127.0.0.1"]
                  ["test@example.com"; "100.00"; "card"; ""; "TRY"; "1"; ""]
                  "test_order_1" "test_order_2" eq_refl eq_refl Hxy)).
Defined.

(** Counterexample to C4 as stated: the tokens of two requests that differ
    in the amount only are equal when the amounts round to the same two
    decimals, and moving a character from the user IP to the order ID
    changes neither the hashed string nor the token. *)
Lemma equal_tokens_for_different_requests :
  (Spec.signed_part (mock.common_request "127.0.0.1" "o" F64.of_100_001)
   <> Spec.signed_part (mock.common_request "127.0.0.1" "o" F64.of_100_002)
   /\ @generateToken mock.runtime mock.s_saved
        (mock.common_request "127.0.0.1" "o" F64.of_100_001)
      = @generateToken mock.runtime mock.s_saved
          (mock.common_request "127.0.0.1" "o" F64.of_100_002))
  /\ (Spec.signed_part (mock.common_request "ab" "c" F64.of_100)
      <> Spec.signed_part (mock.common_request "a" "bc" F64.of_100)
      /\ Spec.primary_input mock.test_config (mock.common_request "ab" "c" F64.of_100)
         = Spec.primary_input mock.test_config (mock.common_request "a" "bc" F64.of_100)
      /\ @generateToken mock.runtime mock.s_saved (mock.common_request "ab" "c" F64.of_100)
         = @generateToken mock.runtime mock.s_saved (mock.common_request "a" "bc" F64.of_100)).
Proof.
  split; [split | split; [|split]];
    try discriminate; vm_compute; reflexivity.
Qed.

(** Counterexample to C6 as stated: the user name of the caller is not in
    the request; the card owner's name is sent in its place.  And a card
    owner's name in Latin-1, "Jos" followed by the byte E9, which is not
    valid UTF-8, is not sent as it is: the request has U+FFFD for that
    byte. *)
Lemma add_new_card_replaces_user_name :
  let latin1 := Bytes.to_string [0x4A; 0x6F; 0x73; 0xE9] in
  (AddNewCardRequest.UserName mock.add_card_request = "Jane Roe"
   /\ List.map (fun r => Json.member "user_name" (http.Body r))
        (@outbound mock.runtime _
           (AddNewCard mock.s_saved mock.add_card_request) [])
      = [Some (JString "John Doe")])
  /\ (List.map (fun r => Json.member "cc_owner" (http.Body r))
        (@outbound mock.runtime _
           (AddNewCard mock.s_saved
              (AddNewCardRequest.Mk "test_user" latin1 "4111111111111111" "12"
                 "2025" "123" "" "127.0.0.1" "card_order_1" "jane@example.com"
                 "Jane Roe" "1 Main St" "5550100" "https://shop.example/ok"
                 "https://shop.example/fail" "en" "USD" F64.of_50)) [])
      = [Some (JString ("Jos" ++ utf8.RuneError))]
      /\ "Jos" ++ utf8.RuneError <> latin1).
Proof.
  split; split; try (vm_compute; reflexivity).
  vm_compute. discriminate.
Qed.

(** Witness of C2: the refund and the card delete of the tests each make
    one request, with the token of the table. *)
Lemma secondary_token_scheme_witness :
  sends_one
    (signed_with
       (Spec.secondary_token mock.test_config
          (Spec.Refund "test_order_789" F64.of_50)))
    (@outbound mock.runtime _
       (RefundPayment mock.s_saved (RefundRequest.Mk "test_order_789" F64.of_50 ""))
       [])
  /\ sends_one
       (signed_with
          (Spec.secondary_token mock.test_config (Spec.SavedCardDelete "u1" "c1")))
       (@outbound mock.runtime _ (DeleteSavedCard mock.s_saved "u1" "c1") []).
Proof.
  destruct (@secondary_token_scheme mock.runtime mock.s_saved)
    as [_ [_ [Hrefund [_ [_ [_ [_ Hdelete]]]]]]].
  split.
  - exact (proj2 (Hrefund (RefundRequest.Mk "test_order_789" F64.of_50 "") [])
             eq_refl eq_refl).
  - exact (proj2 (Hdelete "u1" "c1" []) eq_refl).
Defined.

(** Counterexample to C10 as stated: a caller's merchant ID that is not
    valid UTF-8, "m" followed by the byte FF, does not remain what it was
    in the serialized payload: the request has U+FFFD for that byte. *)
Lemma caller_merchant_id_is_rewritten :
  let id := Bytes.to_string [0x6D; 0xFF] in
  List.map (fun r => Json.member "merchant_id" (http.Body r))
    (@outbound mock.runtime _
       (NewCardPayment mock.s_saved
          (NewCardPaymentRequest.Mk
             (CommonPaymentRequest.set_MerchantID id
                (mock.common_request "127.0.0.1" "test_order_123" F64.of_100))
             "John Doe" "4111111111111111" "12" "2025" "123" "" "")) [])
  = [Some (JString ("m" ++ utf8.RuneError))]
  /\ "m" ++ utf8.RuneError <> id.
Proof.
  split; [vm_compute; reflexivity|]. vm_compute. discriminate.
Qed.

(** Witness of C7: 99.999 is finite. *)
Lemma finite_amount_witness :
  strconv.is_finite F64.of_99_999 = true
  /\ Spec.two_decimals (strconv.FormatFloat_f F64.of_99_999 2).
Proof.
  split; [reflexivity|].
  exact (proj1 (finite_amount_has_two_decimals F64.of_99_999 eq_refl)).
Defined.

(** Counterexample to C7 as stated: a NaN or infinite amount is rendered
    without digits, and that rendering is what the token input holds. *)
Lemma NaN_amount_has_no_decimals :
  strconv.FormatFloat_f F64.NaN 2 = "NaN"
  /\ ~ Spec.two_decimals (strconv.FormatFloat_f F64.NaN 2)
  /\ strconv.FormatFloat_f F64.Inf 2 = "+Inf"
  /\ ~ Spec.two_decimals (strconv.FormatFloat_f F64.Inf 2)
  /\ Spec.primary_input mock.test_config
       (mock.common_request "127.0.0.1" "test_order_123" F64.NaN)
     = "test_merchant127.0.0.1test_order_123test@example.comNaNcardTRY1"
  /\ fmt.Sprintf "%s%s%.2f"
       [fmt.Str "test_merchant"; fmt.Str "test_order_789"; fmt.Float64 F64.NaN]
     = "test_merchanttest_order_789NaN".
Proof.
  repeat split; try (vm_compute; reflexivity).
  - intros T. apply two_decimals_has_point in T. vm_compute in T.
    repeat (destruct T as [T|T]; [discriminate T|]). exact T.
  - intros T. apply two_decimals_has_point in T. vm_compute in T.
    repeat (destruct T as [T|T]; [discriminate T|]). exact T.
Qed.

Lemma mock_urls_parse (path : string) :
  List.In path endpoint_paths ->
  @url_Parse mock.runtime (PayTRBaseURL ++ path) = None.
Proof.
  intros I. repeat (destruct I as [<-|I]; [vm_compute; reflexivity|]).
  destruct I.
Qed.

(** Witness of C9: the mock of [TestMerchantStatusInquiry], whose envelope
    carries status "success" in its data payload too. *)
Lemma fixed_success_envelope_witness :
  PayTRResponse.Status mock.status_envelope = "success"
  /\ carries_status
       [ ("currency", JString "TRY"); ("payment_amount", JString "100.00");
         ("status", JString "success") ] "success"
  /\ @returned mock.runtime _ (MerchantStatusInquiry mock.s_status mock.inquiry) []
     = Ok (StatusInquiryResponse.Mk "success" "" "" "" "TRY" "" "" "" "" "" ""
             "" "" "" "" [])
  /\ @returned mock.runtime _
       (NewCardPayment mock.s_status (mock.new_card_request F64.of_100)) []
     = Ok mock.status_envelope
  /\ @returned mock.runtime _ (DeleteSavedCard mock.s_status "u1" "c1") []
     = Ok mock.status_envelope.
Proof.
  pose proof (@fixed_success_envelope mock.runtime mock.s_status
                (http.MkResponse 200 (http.Bytes mock.status_body))
                mock.status_body mock.status_envelope
                mock_urls_parse (fun r w => eq_refl) eq_refl eq_refl eq_refl)
    as [Hnew [_ [_ [_ [_ [_ [Hdel [Hinq _]]]]]]]].
  split; [reflexivity|]. split; [|split; [|split]].
  - split.
    + exists "status". split; [right; right; now left | reflexivity].
    + intros k v' I F.
      destruct I as [[= <- <-]|[[= <- <-]|[[= <- <-]|[]]]];
        first [reflexivity | discriminate F].
  - rewrite Hinq. reflexivity.
  - apply Hnew. reflexivity.
  - apply Hdel.
Defined.

(** Counterexample to C9 as stated: with the success envelope of
    [TestSavedCardPayment], which has no data payload, a status inquiry and
    a transaction report return without error a result whose [Status] is
    empty; with a payload of the wrong type they fail; and a payment whose
    amount is NaN fails before any request is made. *)
Lemma success_envelope_without_status :
  @json_Unmarshal mock.runtime mock.saved_card_body = Ok mock.saved_card_envelope
  /\ PayTRResponse.Status mock.saved_card_envelope = "success"
  /\ @returned mock.runtime _ (MerchantStatusInquiry mock.s_saved mock.inquiry) []
     = Ok (StatusInquiryResponse.Mk "" "" "" "" "" "" "" "" "" "" "" "" "" "" "" [])
  /\ @returned mock.runtime _
       (GetTransactionDetails mock.s_saved
          (TransactionDetailsRequest.Mk "2023-01-01" "2023-12-31" 0)) []
     = Ok (TransactionDetailsResponse.Mk "" [] "")
  /\ is_ok (@returned mock.runtime _
              (MerchantStatusInquiry (mock.setupTestService mock.mistyped_body)
                 mock.inquiry) []) = false
  /\ @returned mock.runtime _
       (NewCardPayment mock.s_saved (mock.new_card_request F64.NaN)) []
     = Err (UnsupportedValueError "NaN")
  /\ @outbound mock.runtime _
       (NewCardPayment mock.s_saved (mock.new_card_request F64.NaN)) [] = [].
Proof. repeat split; vm_compute; reflexivity. Qed.

(** Witness of C10: a request that names another merchant and brings a
    token of its own. *)
Lemma primary_token_ignores_caller_identity_witness :
  Spec.signed_part (mock.common_request "127.0.0.1" "test_order_123" F64.of_100)
  = Spec.signed_part
      (CommonPaymentRequest.set_MerchantID "another_merchant"
         (CommonPaymentRequest.set_PayTRToken "forged"
            (mock.common_request "127.0.0.1" "test_order_123" F64.of_100)))
  /\ @generateToken mock.runtime mock.s_saved
       (mock.common_request "127.0.0.1" "test_order_123" F64.of_100)
     = @generateToken mock.runtime mock.s_saved
         (CommonPaymentRequest.set_MerchantID "another_merchant"
            (CommonPaymentRequest.set_PayTRToken "forged"
               (mock.common_request "127.0.0.1" "test_order_123" F64.of_100)))
  /\ List.map
       (fun r => (Json.member "merchant_id" (http.Body r),
                  Json.member "paytr_token" (http.Body r)))
       (@outbound mock.runtime _
          (NewCardPayment mock.s_saved
             (NewCardPaymentRequest.Mk
                (CommonPaymentRequest.set_MerchantID "another_merchant"
                   (CommonPaymentRequest.set_PayTRToken "forged"
                      (mock.common_request "127.0.0.1" "test_order_123"
                         F64.of_100)))
                "John Doe" "4111111111111111" "12" "2025" "123" "" "")) [])
     = [ (Some (JString "another_merchant"),
          Some (JString "gzS1JHhQFQfTFpwdcn9LJisIWqMbGIGCwq5IMgIwGRs=")) ].
Proof.
  split; [reflexivity|]. split.
  - exact (proj1 (@primary_token_ignores_caller_identity mock.runtime mock.s_saved
                    (mock.common_request "127.0.0.1" "test_order_123" F64.of_100)
                    (CommonPaymentRequest.set_MerchantID "another_merchant"
                       (CommonPaymentRequest.set_PayTRToken "forged"
                          (mock.common_request "127.0.0.1" "test_order_123"
                             F64.of_100)))
                    eq_refl)).
  - vm_compute. reflexivity.
Defined.

(** * Further properties of the package *)

Section More_properties.
Context `{Runtime}.
Import More.

Lemma FormatFloat_f_not_finite (f : float64) (prec : nat) :
  strconv.is_finite f = false -> not_a_number_text (strconv.FormatFloat_f f prec).
Proof.
  unfold strconv.is_finite, strconv.FormatFloat_f, not_a_number_text. intros F.
  apply Bool.negb_false_iff in F. rewrite F.
  destruct (negb (strconv.mant_of f =? 0)); [now left|].
  destruct (strconv.neg_of f); auto.
Qed.

(** X1. A payment or a refund whose amount is NaN or an infinity fails at
    serialization with [json.UnsupportedValueError] carrying "NaN", "+Inf"
    or "-Inf": no request is made and the world is left as it was. *)
Theorem non_finite_amount_fails_before_sending (s : service) (w : World)
    (new : NewCardPaymentRequest.t) (saved : SavedCardPaymentRequest.t)
    (refund : RefundRequest.t)
    (Hnew : strconv.is_finite
              (CommonPaymentRequest.PaymentAmount
                 (NewCardPaymentRequest.CommonPaymentRequest new)) = false)
    (Hsaved : strconv.is_finite
                (CommonPaymentRequest.PaymentAmount
                   (SavedCardPaymentRequest.CommonPaymentRequest saved)) = false)
    (Hrefund : strconv.is_finite (RefundRequest.ReturnAmount refund) = false) :
  (exists str, not_a_number_text str
     /\ run (NewCardPayment s new) w = (Err (UnsupportedValueError str), MkState w []))
  /\ (exists str, not_a_number_text str
        /\ run (SavedCardPayment s saved) w
           = (Err (UnsupportedValueError str), MkState w [])
        /\ run (RecurringPayment s saved) w
           = (Err (UnsupportedValueError str), MkState w []))
  /\ (exists str, not_a_number_text str
        /\ run (RefundPayment s refund) w
           = (Err (UnsupportedValueError str), MkState w [])).
Proof.
  split; [|split].
  - eexists. split; [apply (FormatFloat_f_not_finite _ 2 Hnew)|].
    unfold NewCardPayment. cbv zeta.
    rewrite sendRequest_run, Marshal_NewCardPaymentRequest_eq.
    cbn [NewCardPaymentRequest.CommonPaymentRequest
         NewCardPaymentRequest.set_PayTRToken
         CommonPaymentRequest.PaymentAmount CommonPaymentRequest.set_PayTRToken].
    now rewrite Hnew.
  - eexists. split; [apply (FormatFloat_f_not_finite _ 2 Hsaved)|]. split.
    + unfold SavedCardPayment. cbv zeta.
      rewrite sendRequest_run, Marshal_SavedCardPaymentRequest_eq.
      cbn [SavedCardPaymentRequest.CommonPaymentRequest
           SavedCardPaymentRequest.set_PayTRToken
           CommonPaymentRequest.PaymentAmount CommonPaymentRequest.set_PayTRToken].
      now rewrite Hsaved.
    + unfold RecurringPayment. cbv zeta.
      rewrite sendRequest_run, Marshal_SavedCardPaymentRequest_eq.
      cbn [SavedCardPaymentRequest.CommonPaymentRequest
           SavedCardPaymentRequest.set_PayTRToken
           SavedCardPaymentRequest.set_RecurringPayment
           CommonPaymentRequest.PaymentAmount CommonPaymentRequest.set_PayTRToken].
      now rewrite Hsaved.
  - eexists. split; [apply (FormatFloat_f_not_finite _ 2 Hrefund)|].
    unfold RefundPayment. cbv zeta.
    rewrite sendRequest_run, Marshal_RefundPaymentReq_eq.
    cbn [RefundPaymentReq.ReturnAmount RefundPaymentReq.set_PayTRToken].
    now rewrite Hrefund.
Qed.

(** X2. [AddNewCard] reads the card fields, the user IP, the order ID, the
    e-mail, the address, the phone and the two return URLs of its request
    and nothing else: requests that agree on these behave alike, whatever
    their UserID, UserName, ClientLang, Currency and PaymentAmount. *)
Theorem add_new_card_reads_only (s : service) (r1 r2 : AddNewCardRequest.t)
    (w : World) (Hused : add_card_used r1 = add_card_used r2) :
  run (AddNewCard s r1) w = run (AddNewCard s r2) w.
Proof.
  unfold add_card_used in Hused.
  injection Hused as E1 E2 E3 E4 E5 E6 E7 E8 E9 E10 E11 E12 E13.
  unfold AddNewCard.
  rewrite E1, E2, E3, E4, E5, E6, E7, E8, E9, E10, E11, E12, E13.
  reflexivity.
Qed.

Ltac forget_token :=
  match goal with
  | |- context [generateSimpleToken ?s ?x] =>
      generalize (generateSimpleToken s x); intro
  end.

Ltac members_by_marshal :=
  rewrite sendRequest_outbound;
  first [ rewrite Marshal_RefundPaymentReq_eq
        | rewrite Marshal_StatusInquiryReq_eq
        | rewrite Marshal_TransactionDetailsReq_eq
        | rewrite Marshal_BinDetailsReq_eq
        | rewrite Marshal_SavedCardsReq_eq
        | rewrite Marshal_DeleteSavedCardReq_eq ];
  cbn [RefundPaymentReq.ReturnAmount RefundPaymentReq.set_PayTRToken
       RefundPaymentReq.MerchantID RefundPaymentReq.MerchantOid
       RefundPaymentReq.PayTRToken RefundPaymentReq.ReferenceNo];
  repeat match goal with
         | |- context [if ?b then _ else _] => destruct b
         end;
  try (destruct (url_Parse _));
  repeat constructor.

(** X3. The requests of the six secondary endpoints carry the configured
    merchant ID, which the caller cannot set, and the caller's values
    under the keys of the gateway, each string as the JSON encoder writes
    it: the string itself when it is valid UTF-8, and with U+FFFD in the
    place of every byte that is not. *)
Theorem secondary_requests_carry (s : service) (w : World) :
  (forall req,
     List.Forall
       (has_members
          [ ("merchant_id",
             JString (Json.written (config.MerchantID (config s))));
            ("merchant_oid",
             JString (Json.written (RefundRequest.MerchantOid req)));
            ("return_amount", JNumber (RefundRequest.ReturnAmount req)) ])
       (outbound (RefundPayment s req) w))
  /\ (forall req,
        List.Forall
          (has_members
             [ ("merchant_id",
                JString (Json.written (config.MerchantID (config s))));
               ("merchant_oid",
                JString (Json.written (StatusInquiryRequest.MerchantOid req))) ])
          (outbound (MerchantStatusInquiry s req) w))
  /\ (forall req,
        List.Forall
          (has_members
             [ ("merchant_id",
                JString (Json.written (config.MerchantID (config s))));
               ("start_date",
                JString (Json.written (TransactionDetailsRequest.StartDate req)));
               ("end_date",
                JString (Json.written (TransactionDetailsRequest.EndDate req))) ])
          (outbound (GetTransactionDetails s req) w))
  /\ (forall binNumber,
        List.Forall
          (has_members
             [ ("merchant_id",
                JString (Json.written (config.MerchantID (config s))));
               ("bin_number", JString (Json.written binNumber)) ])
          (outbound (GetBinDetails s binNumber) w))
  /\ (forall utoken,
        List.Forall
          (has_members
             [ ("merchant_id",
                JString (Json.written (config.MerchantID (config s))));
               ("utoken", JString (Json.written utoken)) ])
          (outbound (GetSavedCards s utoken) w))
  /\ (forall utoken ctoken,
        List.Forall
          (has_members
             [ ("merchant_id",
                JString (Json.written (config.MerchantID (config s))));
               ("utoken", JString (Json.written utoken));
               ("ctoken", JString (Json.written ctoken)) ])
          (outbound (DeleteSavedCard s utoken ctoken) w))
  /\ (forall x : string, utf8.ValidString x = true -> Json.written x = x).
Proof.
  repeat match goal with |- _ /\ _ => split end.
  - intros req. unfold RefundPayment. cbv zeta. forget_token. members_by_marshal.
  - intros req. rewrite MerchantStatusInquiry_outbound.
    unfold status_inquiry_payload. forget_token. members_by_marshal.
  - intros req. rewrite GetTransactionDetails_outbound.
    unfold transaction_details_payload. forget_token. members_by_marshal.
  - intros binNumber. unfold GetBinDetails. cbv zeta. forget_token.
    members_by_marshal.
  - intros utoken. unfold GetSavedCards. cbv zeta. forget_token.
    members_by_marshal.
  - intros utoken ctoken. unfold DeleteSavedCard. cbv zeta. forget_token.
    members_by_marshal.
  - exact written_valid.
Qed.

(** X4. The reference number of a refund and the dummy flag of a
    transaction report are optional members: each is sent only when it is
    not the zero value ([omitempty]), the reference number as the JSON
    encoder writes it, and neither is signed, so changing it leaves the
    token as it is. *)
Theorem optional_members_are_unsigned (s : service) (w w' : World) :
  (forall oid amount ref,
     List.Forall
       (fun r => Json.member "reference_no" (http.Body r)
                 = if (String.length ref =? 0)%nat then None
                   else Some (JString (Json.written ref)))
       (outbound (RefundPayment s (RefundRequest.Mk oid amount ref)) w))
  /\ (forall oid amount ref1 ref2,
        tokens_sent (outbound (RefundPayment s (RefundRequest.Mk oid amount ref1)) w)
        = tokens_sent
            (outbound (RefundPayment s (RefundRequest.Mk oid amount ref2)) w'))
  /\ (forall startDate endDate dummy,
        List.Forall
          (fun r => Json.member "dummy" (http.Body r)
                    = if (dummy =? 0)%Z then None else Some (JInt dummy))
          (outbound (GetTransactionDetails s
                       (TransactionDetailsRequest.Mk startDate endDate dummy)) w))
  /\ (forall startDate endDate dummy1 dummy2,
        tokens_sent
          (outbound (GetTransactionDetails s
                       (TransactionDetailsRequest.Mk startDate endDate dummy1)) w)
        = tokens_sent
            (outbound (GetTransactionDetails s
                         (TransactionDetailsRequest.Mk startDate endDate dummy2)) w')).
Proof.
  repeat match goal with |- _ /\ _ => split end.
  - intros oid amount ref. unfold RefundPayment. cbv zeta. forget_token.
    rewrite sendRequest_outbound, Marshal_RefundPaymentReq_eq.
    cbn [RefundPaymentReq.ReturnAmount RefundPaymentReq.set_PayTRToken
         RefundPaymentReq.MerchantID RefundPaymentReq.MerchantOid
         RefundPaymentReq.PayTRToken RefundPaymentReq.ReferenceNo
         RefundRequest.MerchantOid RefundRequest.ReturnAmount
         RefundRequest.ReferenceNo].
    destruct (strconv.is_finite amount); [|constructor].
    destruct (url_Parse _); [constructor|].
    constructor; [|constructor].
    destruct (String.length ref =? 0)%nat; reflexivity.
  - intros oid amount ref1 ref2. unfold RefundPayment. cbv zeta.
    cbn [RefundRequest.MerchantOid RefundRequest.ReturnAmount
         RefundRequest.ReferenceNo].
    forget_token.
    rewrite !sendRequest_outbound, !Marshal_RefundPaymentReq_eq.
    cbn [RefundPaymentReq.ReturnAmount RefundPaymentReq.set_PayTRToken
         RefundPaymentReq.MerchantID RefundPaymentReq.MerchantOid
         RefundPaymentReq.PayTRToken RefundPaymentReq.ReferenceNo].
    destruct (strconv.is_finite amount); [|reflexivity].
    destruct (url_Parse _); [reflexivity|].
    destruct (String.length ref1 =? 0)%nat, (String.length ref2 =? 0)%nat;
      reflexivity.
  - intros startDate endDate dummy. rewrite GetTransactionDetails_outbound.
    unfold transaction_details_payload. forget_token.
    rewrite sendRequest_outbound, Marshal_TransactionDetailsReq_eq.
    cbn [TransactionDetailsReq.MerchantID TransactionDetailsReq.StartDate
         TransactionDetailsReq.EndDate TransactionDetailsReq.Dummy
         TransactionDetailsReq.PayTRToken TransactionDetailsRequest.Dummy].
    destruct (url_Parse _); [constructor|].
    constructor; [|constructor].
    destruct (dummy =? 0)%Z; reflexivity.
  - intros startDate endDate dummy1 dummy2.
    rewrite !GetTransactionDetails_outbound.
    unfold transaction_details_payload.
    cbn [TransactionDetailsRequest.StartDate TransactionDetailsRequest.EndDate
         TransactionDetailsRequest.Dummy].
    forget_token.
    rewrite !sendRequest_outbound, !Marshal_TransactionDetailsReq_eq.
    cbn [TransactionDetailsReq.MerchantID TransactionDetailsReq.StartDate
         TransactionDetailsReq.EndDate TransactionDetailsReq.Dummy
         TransactionDetailsReq.PayTRToken].
    destruct (url_Parse _); [reflexivity|].
    destruct (dummy1 =? 0)%Z, (dummy2 =? 0)%Z; reflexivity.
Qed.

Lemma sendRequest_at_most_one {A} `{Marshaler A} (s : service) (req : A)
    (url : string) (w : World) :
  (List.length (outbound (sendRequest s req url) w) <= 1)%nat.
Proof.
  rewrite sendRequest_outbound.
  destruct (Marshal req); [|cbn; lia].
  destruct (url_Parse url); cbn; lia.
Qed.

(** X5. Every operation makes at most one request, a POST with a JSON
    content type.  The four payment operations (new card, saved card,
    recurring, add card) post to the shared payment path; refund, status
    inquiry, transaction report, BIN lookup, saved-card list and
    saved-card delete each post to a path of their own, and the seven
    paths of the package are pairwise different. *)
Theorem endpoints_post_once (s : service) (w : World) :
  (forall req,
     List.Forall (posted_to (PayTRBaseURL ++ "/odeme/iade"))
       (outbound (RefundPayment s req) w)
     /\ (List.length (outbound (RefundPayment s req) w) <= 1)%nat)
  /\ (forall req,
        List.Forall (posted_to (PayTRBaseURL ++ "/odeme/durum-sorgu"))
          (outbound (MerchantStatusInquiry s req) w)
        /\ (List.length (outbound (MerchantStatusInquiry s req) w) <= 1)%nat)
  /\ (forall req,
        List.Forall (posted_to (PayTRBaseURL ++ "/rapor/islem-dokumu"))
          (outbound (GetTransactionDetails s req) w)
        /\ (List.length (outbound (GetTransactionDetails s req) w) <= 1)%nat)
  /\ (forall binNumber,
        List.Forall (posted_to (PayTRBaseURL ++ "/odeme/api/bin-detail"))
          (outbound (GetBinDetails s binNumber) w)
        /\ (List.length (outbound (GetBinDetails s binNumber) w) <= 1)%nat)
  /\ (forall utoken,
        List.Forall (posted_to (PayTRBaseURL ++ "/odeme/capi/list"))
          (outbound (GetSavedCards s utoken) w)
        /\ (List.length (outbound (GetSavedCards s utoken) w) <= 1)%nat)
  /\ (forall utoken ctoken,
        List.Forall (posted_to (PayTRBaseURL ++ "/odeme/capi/delete"))
          (outbound (DeleteSavedCard s utoken ctoken) w)
        /\ (List.length (outbound (DeleteSavedCard s utoken ctoken) w) <= 1)%nat)
  /\ (forall new saved card,
        List.Forall (posted_to (PayTRBaseURL ++ "/odeme"))
          (outbound (NewCardPayment s new) w
             ++ outbound (SavedCardPayment s saved) w
             ++ outbound (RecurringPayment s saved) w
             ++ outbound (AddNewCard s card) w)
        /\ (List.length (outbound (NewCardPayment s new) w) <= 1)%nat
        /\ (List.length (outbound (SavedCardPayment s saved) w) <= 1)%nat
        /\ (List.length (outbound (RecurringPayment s saved) w) <= 1)%nat
        /\ (List.length (outbound (AddNewCard s card) w) <= 1)%nat)
  /\ List.NoDup endpoint_paths.
Proof.
  repeat match goal with |- _ /\ _ => split end;
    intros;
    repeat match goal with |- _ /\ _ => split end;
    try rewrite MerchantStatusInquiry_outbound;
    try rewrite GetTransactionDetails_outbound;
    repeat (apply List.Forall_app; split);
    try apply sendRequest_posted; try apply sendRequest_at_most_one.
  unfold endpoint_paths.
  repeat (constructor;
          [cbn [List.In]; intros I;
           repeat (destruct I as [I|I]; [discriminate I|]); exact I|]).
  constructor.
Qed.

Ltac same_requests :=
  unfold status_inquiry_payload, transaction_details_payload;
  cbv zeta;
  rewrite ?generateToken_spec, ?generateSimpleToken_spec;
  cbn [config];
  rewrite !sendRequest_outbound;
  reflexivity.

(** X6. What an operation sends is decided by the configuration and the
    input alone: replacing the transport with [SetHTTPClient] changes
    neither the tokens nor the requests of any operation.  The client set
    last is the one called: it gets the request once, and its answer is
    the result and the next world. *)
Theorem requests_do_not_depend_on_transport (s : service) (c : HTTPClient)
    (w : World) :
  (forall req, generateToken (SetHTTPClient s c) req = generateToken s req)
  /\ (forall data,
        generateSimpleToken (SetHTTPClient s c) data = generateSimpleToken s data)
  /\ (forall new saved card,
        outbound (NewCardPayment (SetHTTPClient s c) new) w
        = outbound (NewCardPayment s new) w
        /\ outbound (SavedCardPayment (SetHTTPClient s c) saved) w
           = outbound (SavedCardPayment s saved) w
        /\ outbound (RecurringPayment (SetHTTPClient s c) saved) w
           = outbound (RecurringPayment s saved) w
        /\ outbound (AddNewCard (SetHTTPClient s c) card) w
           = outbound (AddNewCard s card) w)
  /\ (forall refund inquiry report,
        outbound (RefundPayment (SetHTTPClient s c) refund) w
        = outbound (RefundPayment s refund) w
        /\ outbound (MerchantStatusInquiry (SetHTTPClient s c) inquiry) w
           = outbound (MerchantStatusInquiry s inquiry) w
        /\ outbound (GetTransactionDetails (SetHTTPClient s c) report) w
           = outbound (GetTransactionDetails s report) w)
  /\ (forall binNumber utoken ctoken,
        outbound (GetBinDetails (SetHTTPClient s c) binNumber) w
        = outbound (GetBinDetails s binNumber) w
        /\ outbound (GetSavedCards (SetHTTPClient s c) utoken) w
           = outbound (GetSavedCards s utoken) w
        /\ outbound (DeleteSavedCard (SetHTTPClient s c) utoken ctoken) w
           = outbound (DeleteSavedCard s utoken ctoken) w)
  /\ (forall (A : Type) (M : Marshaler A) (req : A) (url : string)
             (c' : HTTPClient) (r : http.Request),
        outbound (sendRequest s req url) w = [r] ->
        run (sendRequest (SetHTTPClient (SetHTTPClient s c') c) req url) w
        = (read_envelope (fst (c r w)), MkState (snd (c r w)) [EvDo r])).
Proof.
  destruct s as [cfg c0]. unfold SetHTTPClient. cbn [config].
  repeat match goal with |- _ /\ _ => split end.
  - intros req. now rewrite !generateToken_spec.
  - intros data. now rewrite !generateSimpleToken_spec.
  - intros new saved card. repeat split.
    + unfold NewCardPayment. same_requests.
    + unfold SavedCardPayment. same_requests.
    + unfold RecurringPayment. same_requests.
    + unfold AddNewCard. same_requests.
  - intros refund inquiry report. repeat split.
    + unfold RefundPayment. same_requests.
    + rewrite !MerchantStatusInquiry_outbound. same_requests.
    + rewrite !GetTransactionDetails_outbound. same_requests.
  - intros binNumber utoken ctoken. repeat split.
    + unfold GetBinDetails. same_requests.
    + unfold GetSavedCards. same_requests.
    + unfold DeleteSavedCard. same_requests.
  - intros A M req url c' r. rewrite sendRequest_outbound, sendRequest_run.
    destruct (Marshal req) as [doc|e]; [|discriminate].
    destruct (url_Parse url); [discriminate|].
    intros [= <-]. reflexivity.
Qed.

(** X7. [sendRequest] never looks at the HTTP status code of the
    response: the same body under another status code gives the same
    result, the same trace and the same world. *)
Theorem status_code_is_ignored {A} `{Marshaler A} (s : service) (code : Z)
    (req : A) (url : string) (w : World) :
  run (sendRequest (SetHTTPClient s (with_status code (client s))) req url) w
  = run (sendRequest s req url) w.
Proof.
  rewrite !sendRequest_run. unfold SetHTTPClient, with_status. cbn [client].
  destruct (Marshal req) as [doc|e]; [|reflexivity].
  destruct (url_Parse url); [reflexivity|].
  destruct (client s (the_request url doc) w) as [[resp|e] w']; reflexivity.
Qed.

Lemma Sprintf_decoding_error (msg : string) :
  fmt.Sprintf "error decoding response: %v" [fmt.Str msg]
  = "error decoding response: " ++ msg.
Proof.
  unfold fmt.Sprintf. cbn [fmt.doPrintf fmt.verb_s List.hd_error List.tl].
  cbn [append]. now rewrite append_nil_r.
Qed.

(** X8. [GetTransactionDetails] does not check the status of the
    envelope: whatever the status, it decodes the data payload once and
    returns the outcome.  A refusal of the gateway that comes without a
    data payload is therefore returned as an empty report, without an
    error and without the gateway's message. *)
Theorem transaction_report_ignores_envelope_status (s : service)
    (req : TransactionDetailsRequest.t) (w : World) (env : PayTRResponse.t)
    (st : state)
    (Hsend : run (sendRequest s (transaction_details_payload s req)
                    (PayTRBaseURL ++ "/rapor/islem-dokumu")) w = (Ok env, st)) :
  returned (GetTransactionDetails s req) w
  = decoded_or_error
      (mapstructure.Decode mapstructure.decode_TransactionDetailsResponse
         (PayTRResponse.Data env))
  /\ trace (snd (run (GetTransactionDetails s req) w))
     = (trace st ++ [EvDecode (PayTRResponse.Data env)])%list
  /\ (PayTRResponse.Data env = None ->
      returned (GetTransactionDetails s req) w = Ok zero_TransactionDetailsResponse).
Proof.
  unfold returned. rewrite GetTransactionDetails_run, Hsend. cbn [fst snd trace].
  repeat split. intros ->. reflexivity.
Qed.

(** X9. An error of [sendRequest] comes out of [MerchantStatusInquiry]
    as it is, not wrapped, and nothing is decoded; and so it does out of
    [GetTransactionDetails]. *)
Theorem send_errors_pass_through (s : service) (w : World) :
  (forall (inquiry : StatusInquiryRequest.t) (err : error),
     returned (sendRequest s (status_inquiry_payload s inquiry)
                 (PayTRBaseURL ++ "/odeme/durum-sorgu")) w = Err err ->
     returned (MerchantStatusInquiry s inquiry) w = Err err
     /\ decoded (MerchantStatusInquiry s inquiry) w = [])
  /\ (forall (report : TransactionDetailsRequest.t) (err : error),
        returned (sendRequest s (transaction_details_payload s report)
                    (PayTRBaseURL ++ "/rapor/islem-dokumu")) w = Err err ->
        returned (GetTransactionDetails s report) w = Err err
        /\ decoded (GetTransactionDetails s report) w = []).
Proof.
  split.
  - intros inquiry err Hsend.
    pose proof (sendRequest_decoded s (status_inquiry_payload s inquiry)
                  (PayTRBaseURL ++ "/odeme/durum-sorgu") w) as D.
    unfold returned, decoded in *.
    rewrite MerchantStatusInquiry_run. cbv zeta.
    rewrite Hsend. cbn [fst snd]. now split.
  - intros report err Hsend.
    pose proof (sendRequest_decoded s (transaction_details_payload s report)
                  (PayTRBaseURL ++ "/rapor/islem-dokumu") w) as D.
    unfold returned, decoded in *.
    rewrite GetTransactionDetails_run. cbv zeta.
    rewrite Hsend. cbn [fst snd]. now split.
Qed.

(** X10. On an envelope of status "success" a status inquiry makes its
    one request, then decodes the data payload of that envelope once, and
    returns the decoded result, or, when the payload does not decode, an
    error whose text starts with "error decoding response: ". *)
Theorem status_inquiry_on_success (s : service) (req : StatusInquiryRequest.t)
    (w : World) (env : PayTRResponse.t) (st : state)
    (Hsend : run (sendRequest s (status_inquiry_payload s req)
                    (PayTRBaseURL ++ "/odeme/durum-sorgu")) w = (Ok env, st))
    (Hstatus : PayTRResponse.Status env = "success") :
  trace (snd (run (MerchantStatusInquiry s req) w))
  = (trace st ++ [EvDecode (PayTRResponse.Data env)])%list
  /\ (exists r, trace st = [EvDo r])
  /\ match mapstructure.Decode mapstructure.decode_StatusInquiryResponse
             (PayTRResponse.Data env) with
     | Ok result => returned (MerchantStatusInquiry s req) w = Ok result
     | Err err =>
         returned (MerchantStatusInquiry s req) w
         = Err (errorString ("error decoding response: " ++ Error err))
     end.
Proof.
  unfold returned. rewrite MerchantStatusInquiry_run, Hsend. cbn [fst snd].
  rewrite Hstatus. cbn [String.eqb Ascii.eqb Bool.eqb fst snd trace].
  split; [reflexivity|]. split.
  - rewrite sendRequest_run in Hsend.
    destruct (Marshal _) as [doc|e]; [|discriminate Hsend].
    destruct (url_Parse _); [discriminate Hsend|].
    injection Hsend as _ <-. eexists. reflexivity.
  - destruct (mapstructure.Decode _ _) as [result|err]; [reflexivity|].
    unfold decoded_or_error, decoding_error, Errorf.Errorf.
    now rewrite Sprintf_decoding_error.
Qed.

(** ** Keys and field names *)

Lemma underscore_byte (c : ascii) :
  c = "_"%char -> Bytes.byte_of_ascii c = 95.
Proof. now intros ->. Qed.

Lemma lower_underscore (c : ascii) :
  strings.lower c = "_"%char -> c = "_"%char.
Proof.
  unfold strings.lower, strings.is_upper.
  destruct ((65 <=? Bytes.byte_of_ascii c) && (Bytes.byte_of_ascii c <=? 90))
    eqn:U; [|easy].
  apply Bool.andb_true_iff in U. destruct U as [U1 U2].
  apply Z.leb_le in U1. apply Z.leb_le in U2.
  intros E. apply underscore_byte in E.
  rewrite byte_of_ascii_of_byte in E; lia.
Qed.

Lemma EqualFold_underscore (t : string) :
  forall s,
    has_underscore s -> ~ has_underscore t -> strings.EqualFold s t = false.
Proof.
  unfold has_underscore.
  induction t as [|ct t IH]; intros [|cs s] Hs Ht; cbn [strings.EqualFold];
    try reflexivity; try (now destruct Hs).
  assert (Ht' : ~ List.In "_"%char (list_ascii_of_string t))
    by (intros I; apply Ht; now right).
  assert (Hct : ct <> "_"%char) by (intros ->; apply Ht; now left).
  cbn [list_ascii_of_string] in Hs.
  destruct (Bytes.byte_of_ascii cs <? 128) eqn:A.
  - destruct Hs as [->|Hs].
    + destruct (Ascii.eqb (strings.lower "_"%char) (strings.lower ct)) eqn:E;
        [|reflexivity].
      apply Ascii.eqb_eq in E. exfalso. apply Hct, lower_underscore.
      now rewrite <- E.
    + rewrite (IH s Hs Ht'). apply Bool.andb_false_r.
  - destruct Hs as [->|Hs]; [discriminate A|].
    destruct s as [|c1 [|c2 s3]].
    + destruct Hs.
    + destruct ((Bytes.byte_of_ascii cs =? 197) && (Bytes.byte_of_ascii c1 =? 191))
        eqn:L; [|reflexivity].
      apply Bool.andb_true_iff in L. destruct L as [_ L]. apply Z.eqb_eq in L.
      destruct Hs as [->|[]]. discriminate L.
    + cbn [list_ascii_of_string] in Hs.
      destruct ((Bytes.byte_of_ascii cs =? 226) && (Bytes.byte_of_ascii c1 =? 132)
                && (Bytes.byte_of_ascii c2 =? 170)) eqn:K.
      * apply Bool.andb_true_iff in K. destruct K as [K K2].
        apply Bool.andb_true_iff in K. destruct K as [_ K1].
        apply Z.eqb_eq in K1. apply Z.eqb_eq in K2.
        destruct Hs as [->|[->|Hs]]; [discriminate K1|discriminate K2|].
        rewrite (IH s3 Hs Ht'). apply Bool.andb_false_r.
      * destruct ((Bytes.byte_of_ascii cs =? 197) && (Bytes.byte_of_ascii c1 =? 191))
          eqn:L; [|reflexivity].
        apply Bool.andb_true_iff in L. destruct L as [_ L]. apply Z.eqb_eq in L.
        destruct Hs as [->|Hs]; [discriminate L|].
        rewrite (IH (String c2 s3) Hs Ht'). apply Bool.andb_false_r.
Qed.

Lemma find_underscore (m : list (string * json)) (f : string) :
  (forall k v, List.In (k, v) m -> has_underscore k) ->
  ~ has_underscore f -> strings.EqualFold f f = true ->
  mapstructure.find m f = None.
Proof.
  intros Hm Hf R. apply find_absent; [|exact R].
  intros k v I. apply EqualFold_underscore; [now apply (Hm k v)|exact Hf].
Qed.

Lemma field_string_underscore (name : string) (m : list (string * json))
    (f : string) :
  (forall k v, List.In (k, v) m -> has_underscore k) ->
  ~ has_underscore f -> strings.EqualFold f f = true ->
  mapstructure.field_string name m f = ("", []).
Proof.
  intros Hm Hf R. unfold mapstructure.field_string.
  now rewrite (find_underscore m f Hm Hf R).
Qed.

Lemma field_slice_underscore {A} (elem : string -> json -> A * list string)
    (name : string) (m : list (string * json)) (f : string) :
  (forall k v, List.In (k, v) m -> has_underscore k) ->
  ~ has_underscore f -> strings.EqualFold f f = true ->
  mapstructure.field_slice elem name m f = ([], []).
Proof.
  intros Hm Hf R. unfold mapstructure.field_slice.
  now rewrite (find_underscore m f Hm Hf R).
Qed.

Ltac no_underscore :=
  first [ assumption
        | reflexivity
        | unfold has_underscore; cbn [list_ascii_of_string List.In];
          intros I; repeat (destruct I as [I|I]; [discriminate I|]); exact I ].

(** X11. The typed results are filled from the keys of the data payload
    that equal a Go field name up to letter case; the [json] tags of the
    structs are not consulted.  A payload whose keys all have an
    underscore in them (the gateway's [payment_amount], [net_tutar],
    [err_msg], ...) therefore fills no field of either result: the
    decoding succeeds and yields the zero value. *)
Theorem snake_case_payload_fills_nothing (m : list (string * json))
    (Hkeys : forall k v, List.In (k, v) m -> has_underscore k) :
  mapstructure.Decode mapstructure.decode_StatusInquiryResponse (Some m)
  = Ok zero_StatusInquiryResponse
  /\ mapstructure.Decode mapstructure.decode_TransactionDetailsResponse (Some m)
     = Ok zero_TransactionDetailsResponse.
Proof.
  unfold mapstructure.Decode, mapstructure.decode_StatusInquiryResponse,
    mapstructure.decode_TransactionDetailsResponse.
  cbv zeta.
  rewrite !(field_string_underscore "" m) by no_underscore.
  rewrite !(field_slice_underscore _ "" m) by no_underscore.
  split; reflexivity.
Qed.

Ltac split_fields :=
  repeat match goal with
         | |- context [mapstructure.field_string ?n ?m ?f] =>
             destruct (mapstructure.field_string n m f) as [? ?]
         | |- context [mapstructure.field_slice ?d ?n ?m ?f] =>
             destruct (mapstructure.field_slice d n m f) as [? ?]
         end.

(** X12. Decoding is strict about types.  When the entry of the data
    payload that the [Status] field is read from is neither a string nor
    null (a number, a boolean, an array, an object), decoding into either
    typed result fails, and the error lists the complaint about
    ['Status'] with the Go type and the rendering of the value found. *)
Theorem mistyped_status_fails_decoding (m : list (string * json)) (v : json)
    (Hfind : mapstructure.find m "Status" = Some v)
    (Hv : string_or_nil v = false) :
  let complaint :=
    "'Status' expected type 'string', got unconvertible type '"
      ++ mapstructure.typeName v ++ "', value: '" ++ fmt_v v ++ "'" in
  (exists errs,
      List.In complaint errs
      /\ mapstructure.Decode mapstructure.decode_StatusInquiryResponse (Some m)
         = Err (mapstructure_Error errs))
  /\ (exists errs,
         List.In complaint errs
         /\ mapstructure.Decode mapstructure.decode_TransactionDetailsResponse
              (Some m)
            = Err (mapstructure_Error errs)).
Proof.
  cbv zeta.
  assert (F : mapstructure.field_string "" m "Status"
              = ("", ["'Status' expected type 'string', got unconvertible type '"
                        ++ mapstructure.typeName v ++ "', value: '"
                        ++ fmt_v v ++ "'"])).
  { unfold mapstructure.field_string. rewrite Hfind.
    destruct v; try discriminate Hv; reflexivity. }
  unfold mapstructure.Decode, mapstructure.decode_StatusInquiryResponse,
    mapstructure.decode_TransactionDetailsResponse.
  cbv zeta. rewrite F. split; split_fields; cbn [app];
    (eexists; split; [|reflexivity]; left; reflexivity).
Qed.

Ltac carried_by_marshal tok Htok :=
  rewrite sendRequest_outbound;
  first [ rewrite Marshal_NewCardPaymentRequest_eq
        | rewrite Marshal_SavedCardPaymentRequest_eq
        | rewrite Marshal_RefundPaymentReq_eq
        | rewrite Marshal_StatusInquiryReq_eq
        | rewrite Marshal_TransactionDetailsReq_eq
        | rewrite Marshal_BinDetailsReq_eq
        | rewrite Marshal_SavedCardsReq_eq
        | rewrite Marshal_DeleteSavedCardReq_eq ];
  repeat match goal with
         | |- context [if ?b then _ else _] => destruct b
         end;
  try (destruct (url_Parse _));
  try (constructor;
       [exists tok; split;
        [ unfold signed_with, the_request; cbn [http.Body];
          transitivity (Some (JString (Json.written tok)));
          [reflexivity | rewrite (well_formed_token_valid tok Htok); reflexivity]
        | exact Htok]|]);
  constructor.

Ltac primary_token_carried :=
  match goal with
  | |- context [generateToken ?s ?x] =>
      let Htok := fresh "Htok" in
      pose proof (token_well_formed (config s)
                    (Spec.primary_input (config s) x)) as Htok;
      change (Spec.token (config s) (Spec.primary_input (config s) x))
        with (Spec.primary_token (config s) x) in Htok;
      rewrite <- generateToken_spec in Htok;
      revert Htok; generalize (generateToken s x); intros tok Htok;
      carried_by_marshal tok Htok
  end.

Ltac secondary_token_carried :=
  match goal with
  | |- context [generateSimpleToken ?s ?x] =>
      let Htok := fresh "Htok" in
      pose proof (token_well_formed (config s) x) as Htok;
      rewrite <- generateSimpleToken_spec in Htok;
      revert Htok; generalize (generateSimpleToken s x); intros tok Htok;
      carried_by_marshal tok Htok
  end.

(** X13. Every token the package makes is 44 characters long: 43
    characters of the standard base64 alphabet followed by one "="; it is
    the encoding of the 32 bytes of a SHA-256 MAC, whatever the key, the
    salt and the signed values.  Every request any of the ten operations
    sends carries such a token under [paytr_token]. *)
Theorem tokens_are_well_formed (s : service) (w : World) :
  (forall data, well_formed_token (generateSimpleToken s data))
  /\ (forall req, well_formed_token (generateToken s req))
  /\ (forall req, List.Forall carries_token (outbound (NewCardPayment s req) w))
  /\ (forall req, List.Forall carries_token (outbound (SavedCardPayment s req) w))
  /\ (forall req, List.Forall carries_token (outbound (RecurringPayment s req) w))
  /\ (forall req, List.Forall carries_token (outbound (AddNewCard s req) w))
  /\ (forall req, List.Forall carries_token (outbound (RefundPayment s req) w))
  /\ (forall req,
        List.Forall carries_token (outbound (MerchantStatusInquiry s req) w))
  /\ (forall req,
        List.Forall carries_token (outbound (GetTransactionDetails s req) w))
  /\ (forall binNumber,
        List.Forall carries_token (outbound (GetBinDetails s binNumber) w))
  /\ (forall utoken,
        List.Forall carries_token (outbound (GetSavedCards s utoken) w))
  /\ (forall utoken ctoken,
        List.Forall carries_token (outbound (DeleteSavedCard s utoken ctoken) w)).
Proof.
  repeat match goal with |- _ /\ _ => split end.
  - intros data. rewrite generateSimpleToken_spec. apply token_well_formed.
  - intros req. rewrite generateToken_spec. apply token_well_formed.
  - intros req. unfold NewCardPayment. cbv zeta. primary_token_carried.
  - intros req. unfold SavedCardPayment. cbv zeta. primary_token_carried.
  - intros req. unfold RecurringPayment. cbv zeta. primary_token_carried.
  - intros req. unfold AddNewCard. cbv zeta. primary_token_carried.
  - intros req. unfold RefundPayment. cbv zeta. secondary_token_carried.
  - intros req. rewrite MerchantStatusInquiry_outbound.
    unfold status_inquiry_payload. secondary_token_carried.
  - intros req. rewrite GetTransactionDetails_outbound.
    unfold transaction_details_payload. secondary_token_carried.
  - intros binNumber. unfold GetBinDetails. cbv zeta. secondary_token_carried.
  - intros utoken. unfold GetSavedCards. cbv zeta. secondary_token_carried.
  - intros utoken ctoken. unfold DeleteSavedCard. cbv zeta.
    secondary_token_carried.
Qed.

(** ** What a token of the secondary scheme is bound to *)

Ltac same_token_by_marshal :=
  repeat match goal with
         | |- context [generateSimpleToken ?s ?x] =>
             generalize (generateSimpleToken s x); intro
         end;
  unfold same_token;
  rewrite !sendRequest_outbound;
  repeat first [ rewrite Marshal_RefundPaymentReq_eq
               | rewrite Marshal_StatusInquiryReq_eq
               | rewrite Marshal_TransactionDetailsReq_eq
               | rewrite Marshal_BinDetailsReq_eq
               | rewrite Marshal_SavedCardsReq_eq
               | rewrite Marshal_DeleteSavedCardReq_eq ];
  cbn [RefundPaymentReq.ReturnAmount RefundPaymentReq.set_PayTRToken
       RefundPaymentReq.MerchantID RefundPaymentReq.MerchantOid
       RefundPaymentReq.PayTRToken RefundPaymentReq.ReferenceNo
       TransactionDetailsReq.MerchantID TransactionDetailsReq.StartDate
       TransactionDetailsReq.EndDate TransactionDetailsReq.Dummy
       TransactionDetailsReq.PayTRToken];
  repeat match goal with
         | |- context [if ?b then _ else _] => destruct b
         end;
  repeat match goal with
         | |- context [url_Parse ?u] => destruct (url_Parse u)
         end;
  let r1 := fresh "r1" in
  let r2 := fresh "r2" in
  let I1 := fresh "I1" in
  let I2 := fresh "I2" in
  intros r1 r2 I1 I2;
  first [ destruct I1 as [<-|[]] | destruct I1 ];
  first [ destruct I2 as [<-|[]] | destruct I2 ];
  reflexivity.

(** X14. A token of the secondary scheme is bound neither to the endpoint
    nor to the boundaries between the signed values, only to their
    concatenation.  The token of a transaction report from [a] to [b] is
    the token of a status inquiry for the order [a ++ b]; the token of a
    refund is that of a status inquiry for the order ID followed by the
    amount with two decimals; the token that deletes card [c] of user [u]
    is the token that lists the cards of user [u ++ c]; the token of a BIN
    lookup lists the cards of the user named by the BIN followed by the
    merchant ID; and moving characters between the two signed values of a
    report or of a delete leaves the token as it is. *)
Theorem secondary_tokens_are_bound_to_concatenation_only (s : service)
    (w w' : World) :
  (forall a b dummy,
     same_token
       (outbound (MerchantStatusInquiry s (StatusInquiryRequest.Mk (a ++ b))) w)
       (outbound (GetTransactionDetails s
                    (TransactionDetailsRequest.Mk a b dummy)) w'))
  /\ (forall oid amount ref,
        same_token
          (outbound (MerchantStatusInquiry s
                       (StatusInquiryRequest.Mk
                          (oid ++ strconv.FormatFloat_f amount 2))) w)
          (outbound (RefundPayment s (RefundRequest.Mk oid amount ref)) w'))
  /\ (forall u c,
        same_token (outbound (GetSavedCards s (u ++ c)) w)
          (outbound (DeleteSavedCard s u c) w'))
  /\ (forall binNumber,
        same_token
          (outbound (GetSavedCards s (binNumber ++ config.MerchantID (config s))) w)
          (outbound (GetBinDetails s binNumber) w'))
  /\ (forall u x c,
        same_token (outbound (DeleteSavedCard s (u ++ x) c) w)
          (outbound (DeleteSavedCard s u (x ++ c)) w'))
  /\ (forall a x b dummy,
        same_token
          (outbound (GetTransactionDetails s
                       (TransactionDetailsRequest.Mk (a ++ x) b dummy)) w)
          (outbound (GetTransactionDetails s
                       (TransactionDetailsRequest.Mk a (x ++ b) dummy)) w')).
Proof.
  repeat match goal with |- _ /\ _ => split end.
  - intros a b dummy.
    rewrite MerchantStatusInquiry_outbound, GetTransactionDetails_outbound.
    unfold status_inquiry_payload, transaction_details_payload.
    cbn [StatusInquiryRequest.MerchantOid TransactionDetailsRequest.StartDate
         TransactionDetailsRequest.EndDate TransactionDetailsRequest.Dummy].
    same_token_by_marshal.
  - intros oid amount ref. rewrite MerchantStatusInquiry_outbound.
    unfold status_inquiry_payload, RefundPayment. cbv zeta.
    rewrite Sprintf_s_s_2f.
    cbn [StatusInquiryRequest.MerchantOid RefundRequest.MerchantOid
         RefundRequest.ReturnAmount RefundRequest.ReferenceNo].
    same_token_by_marshal.
  - intros u c. unfold GetSavedCards, DeleteSavedCard. cbv zeta.
    same_token_by_marshal.
  - intros binNumber. unfold GetSavedCards, GetBinDetails. cbv zeta.
    same_token_by_marshal.
  - intros u x c. unfold DeleteSavedCard. cbv zeta. rewrite append_assoc.
    same_token_by_marshal.
  - intros a x b dummy. rewrite !GetTransactionDetails_outbound.
    unfold transaction_details_payload.
    cbn [TransactionDetailsRequest.StartDate TransactionDetailsRequest.EndDate
         TransactionDetailsRequest.Dummy].
    rewrite append_assoc.
    same_token_by_marshal.
Qed.

(** ** No validation of the input *)

Ltac parsed Hurls :=
  match goal with
  | |- context [url_Parse (PayTRBaseURL ++ ?path)] =>
      rewrite (Hurls path
                 ltac:(unfold endpoint_paths; cbn [List.In]; tauto))
  end.

(** X15. The package validates nothing.  Where the seven URLs parse,
    every call of the six operations without an amount and of
    [AddNewCard] makes exactly one request, whatever strings it is given
    (empty ones too); a payment or a refund makes exactly one request
    when its amount is finite (negative and zero amounts too) and none
    otherwise. *)
Theorem operations_send_exactly_one (s : service) (w : World)
    (Hurls : forall path, List.In path endpoint_paths ->
                          url_Parse (PayTRBaseURL ++ path) = None) :
  (forall req,
     List.length (outbound (NewCardPayment s req) w)
     = if strconv.is_finite
            (CommonPaymentRequest.PaymentAmount
               (NewCardPaymentRequest.CommonPaymentRequest req))
       then 1%nat else 0%nat)
  /\ (forall req,
        List.length (outbound (SavedCardPayment s req) w)
        = (if strconv.is_finite
                (CommonPaymentRequest.PaymentAmount
                   (SavedCardPaymentRequest.CommonPaymentRequest req))
           then 1%nat else 0%nat)
        /\ List.length (outbound (RecurringPayment s req) w)
           = (if strconv.is_finite
                   (CommonPaymentRequest.PaymentAmount
                      (SavedCardPaymentRequest.CommonPaymentRequest req))
              then 1%nat else 0%nat))
  /\ (forall req,
        List.length (outbound (RefundPayment s req) w)
        = if strconv.is_finite (RefundRequest.ReturnAmount req)
          then 1%nat else 0%nat)
  /\ (forall req, List.length (outbound (AddNewCard s req) w) = 1%nat)
  /\ (forall req, List.length (outbound (MerchantStatusInquiry s req) w) = 1%nat)
  /\ (forall req, List.length (outbound (GetTransactionDetails s req) w) = 1%nat)
  /\ (forall binNumber,
        List.length (outbound (GetBinDetails s binNumber) w) = 1%nat)
  /\ (forall utoken, List.length (outbound (GetSavedCards s utoken) w) = 1%nat)
  /\ (forall utoken ctoken,
        List.length (outbound (DeleteSavedCard s utoken ctoken) w) = 1%nat).
Proof.
  repeat match goal with |- _ /\ _ => split end.
  - intros req. unfold NewCardPayment. cbv zeta.
    rewrite sendRequest_outbound, Marshal_NewCardPaymentRequest_eq.
    parsed Hurls.
    cbn [NewCardPaymentRequest.CommonPaymentRequest
         NewCardPaymentRequest.set_PayTRToken
         CommonPaymentRequest.PaymentAmount CommonPaymentRequest.set_PayTRToken].
    destruct (strconv.is_finite _); reflexivity.
  - intros req. split.
    + unfold SavedCardPayment. cbv zeta.
      rewrite sendRequest_outbound, Marshal_SavedCardPaymentRequest_eq.
      parsed Hurls.
      cbn [SavedCardPaymentRequest.CommonPaymentRequest
           SavedCardPaymentRequest.set_PayTRToken
           CommonPaymentRequest.PaymentAmount CommonPaymentRequest.set_PayTRToken].
      destruct (strconv.is_finite _); reflexivity.
    + unfold RecurringPayment. cbv zeta.
      rewrite sendRequest_outbound, Marshal_SavedCardPaymentRequest_eq.
      parsed Hurls.
      cbn [SavedCardPaymentRequest.CommonPaymentRequest
           SavedCardPaymentRequest.set_PayTRToken
           SavedCardPaymentRequest.set_RecurringPayment
           CommonPaymentRequest.PaymentAmount CommonPaymentRequest.set_PayTRToken].
      destruct (strconv.is_finite _); reflexivity.
  - intros req. unfold RefundPayment. cbv zeta.
    rewrite sendRequest_outbound, Marshal_RefundPaymentReq_eq.
    parsed Hurls.
    cbn [RefundPaymentReq.ReturnAmount RefundPaymentReq.set_PayTRToken].
    destruct (strconv.is_finite _); reflexivity.
  - intros req. unfold AddNewCard. cbv zeta.
    rewrite sendRequest_outbound, Marshal_NewCardPaymentRequest_eq.
    parsed Hurls.
    cbn [NewCardPaymentRequest.CommonPaymentRequest
         NewCardPaymentRequest.set_PayTRToken
         CommonPaymentRequest.PaymentAmount CommonPaymentRequest.set_PayTRToken].
    change (strconv.is_finite F64.of_1) with true. reflexivity.
  - intros req. rewrite MerchantStatusInquiry_outbound, sendRequest_outbound,
      Marshal_StatusInquiryReq_eq.
    parsed Hurls. reflexivity.
  - intros req. rewrite GetTransactionDetails_outbound, sendRequest_outbound,
      Marshal_TransactionDetailsReq_eq.
    parsed Hurls. reflexivity.
  - intros binNumber. unfold GetBinDetails. cbv zeta.
    rewrite sendRequest_outbound, Marshal_BinDetailsReq_eq.
    parsed Hurls. reflexivity.
  - intros utoken. unfold GetSavedCards. cbv zeta.
    rewrite sendRequest_outbound, Marshal_SavedCardsReq_eq.
    parsed Hurls. reflexivity.
  - intros utoken ctoken. unfold DeleteSavedCard. cbv zeta.
    rewrite sendRequest_outbound, Marshal_DeleteSavedCardReq_eq.
    parsed Hurls. reflexivity.
Qed.

End More_properties.

Import More.

(** Witness of X1: the payments of the tests with NaN and an infinity for
    the amount. *)
Lemma non_finite_amount_witness :
  strconv.is_finite F64.NaN = false /\ strconv.is_finite F64.Inf = false
  /\ exists str, not_a_number_text str
       /\ @run mock.runtime _
            (NewCardPayment mock.s_saved (mock.new_card_request F64.NaN)) []
          = (Err (UnsupportedValueError str), @MkState mock.runtime [] []).
Proof.
  split; [reflexivity|]. split; [reflexivity|].
  exact (proj1 (@non_finite_amount_fails_before_sending mock.runtime mock.s_saved []
                  (mock.new_card_request F64.NaN)
                  (mock.saved_card_request F64.Inf)
                  (RefundRequest.Mk "test_order_789" F64.NaN "")
                  eq_refl eq_refl eq_refl)).
Defined.

(** Witness of X2: two add-card requests that differ in the user ID, the
    user name, the language, the currency and the amount. *)
Lemma add_new_card_reads_only_witness :
  add_card_used mock.add_card_request
  = add_card_used
      (AddNewCardRequest.Mk "another_user" "John Doe" "4111111111111111" "12"
         "2025" "123" "" "127.0.0.1" "card_order_1" "jane@example.com"
         "Someone Else" "1 Main St" "5550100" "https://shop.example/ok"
         "https://shop.example/fail" "de" "EUR" F64.of_100)
  /\ @run mock.runtime _ (AddNewCard mock.s_saved mock.add_card_request) []
     = @run mock.runtime _
         (AddNewCard mock.s_saved
            (AddNewCardRequest.Mk "another_user" "John Doe" "4111111111111111"
               "12" "2025" "123" "" "127.0.0.1" "card_order_1" "jane@example.com"
               "Someone Else" "1 Main St" "5550100" "https://shop.example/ok"
               "https://shop.example/fail" "de" "EUR" F64.of_100)) [].
Proof.
  split; [reflexivity|].
  apply (@add_new_card_reads_only mock.runtime mock.s_saved). reflexivity.
Defined.

(** Witness of X8: the mock answers a transaction report with a refusal
    that has no data payload; the caller gets an empty report. *)
Lemma transaction_report_witness :
  PayTRResponse.Status mock.failed_envelope = "failed"
  /\ @returned mock.runtime _
       (GetTransactionDetails mock.s_failed
          (TransactionDetailsRequest.Mk "2023-01-01" "2023-12-31" 0)) []
     = Ok zero_TransactionDetailsResponse.
Proof.
  split; [reflexivity|].
  assert (Hsend :
    @run mock.runtime _
      (sendRequest mock.s_failed
         (@transaction_details_payload mock.runtime mock.s_failed
            (TransactionDetailsRequest.Mk "2023-01-01" "2023-12-31" 0))
         (PayTRBaseURL ++ "/rapor/islem-dokumu")) []
    = (Ok mock.failed_envelope,
       snd (@run mock.runtime _
              (sendRequest mock.s_failed
                 (@transaction_details_payload mock.runtime mock.s_failed
                    (TransactionDetailsRequest.Mk "2023-01-01" "2023-12-31" 0))
                 (PayTRBaseURL ++ "/rapor/islem-dokumu")) [])))
    by (vm_compute; reflexivity).
  exact (proj2 (proj2 (@transaction_report_ignores_envelope_status mock.runtime
                         mock.s_failed
                         (TransactionDetailsRequest.Mk "2023-01-01" "2023-12-31" 0)
                         [] mock.failed_envelope _ Hsend))
           eq_refl).
Defined.

(** Witness of X9: a service that was given no client and cannot connect. *)
Lemma send_errors_witness :
  @returned mock.runtime _
    (MerchantStatusInquiry (@NewService mock.runtime mock.test_config)
       mock.inquiry) []
  = Err (foreign "net/http" "dial tcp: connection refused")
  /\ @returned mock.runtime _
       (GetTransactionDetails (@NewService mock.runtime mock.test_config)
          (TransactionDetailsRequest.Mk "2023-01-01" "2023-12-31" 0)) []
     = Err (foreign "net/http" "dial tcp: connection refused").
Proof.
  assert (H1 :
    @returned mock.runtime _
      (sendRequest (@NewService mock.runtime mock.test_config)
         (@status_inquiry_payload mock.runtime
            (@NewService mock.runtime mock.test_config) mock.inquiry)
         (PayTRBaseURL ++ "/odeme/durum-sorgu")) []
    = Err (foreign "net/http" "dial tcp: connection refused"))
    by (vm_compute; reflexivity).
  assert (H2 :
    @returned mock.runtime _
      (sendRequest (@NewService mock.runtime mock.test_config)
         (@transaction_details_payload mock.runtime
            (@NewService mock.runtime mock.test_config)
            (TransactionDetailsRequest.Mk "2023-01-01" "2023-12-31" 0))
         (PayTRBaseURL ++ "/rapor/islem-dokumu")) []
    = Err (foreign "net/http" "dial tcp: connection refused"))
    by (vm_compute; reflexivity).
  destruct (@send_errors_pass_through mock.runtime
              (@NewService mock.runtime mock.test_config) []) as [P1 P2].
  split.
  - exact (proj1 (P1 mock.inquiry _ H1)).
  - exact (proj1 (P2 (TransactionDetailsRequest.Mk "2023-01-01" "2023-12-31" 0)
                    _ H2)).
Defined.

(** Witness of X10: the mock of [TestMerchantStatusInquiry]. *)
Lemma status_inquiry_on_success_witness :
  PayTRResponse.Status mock.status_envelope = "success"
  /\ decodes_of
       (trace (snd (@run mock.runtime _
                      (MerchantStatusInquiry mock.s_status mock.inquiry) [])))
     = [PayTRResponse.Data mock.status_envelope].
Proof.
  split; [reflexivity|].
  assert (Hsend :
    @run mock.runtime _
      (sendRequest mock.s_status
         (@status_inquiry_payload mock.runtime mock.s_status mock.inquiry)
         (PayTRBaseURL ++ "/odeme/durum-sorgu")) []
    = (Ok mock.status_envelope,
       snd (@run mock.runtime _
              (sendRequest mock.s_status
                 (@status_inquiry_payload mock.runtime mock.s_status mock.inquiry)
                 (PayTRBaseURL ++ "/odeme/durum-sorgu")) [])))
    by (vm_compute; reflexivity).
  destruct (@status_inquiry_on_success mock.runtime mock.s_status mock.inquiry []
              mock.status_envelope _ Hsend eq_refl) as [T [[r Hr] _]].
  rewrite T, Hr. reflexivity.
Defined.

(** Witness of X11: the keys of the gateway's own payload. *)
Lemma snake_case_payload_witness :
  @mapstructure.Decode _
    (@mapstructure.decode_StatusInquiryResponse mock.runtime)
    (Some [ ("payment_amount", JString "100.00");
            ("payment_total", JString "100.00");
            ("err_msg", JString "") ])
  = Ok zero_StatusInquiryResponse.
Proof.
  refine (proj1 (@snake_case_payload_fills_nothing mock.runtime
                   [ ("payment_amount", JString "100.00");
                     ("payment_total", JString "100.00");
                     ("err_msg", JString "") ] _)).
  intros k v I.
  destruct I as [[= <- <-]|[[= <- <-]|[[= <- <-]|[]]]];
    unfold has_underscore; cbn [list_ascii_of_string List.In]; tauto.
Defined.

(** Witness of X12: a payload whose status is a boolean. *)
Lemma mistyped_status_witness :
  exists errs,
    List.In "'Status' expected type 'string', got unconvertible type 'bool', value: 'true'"
      errs
    /\ @mapstructure.Decode _
         (@mapstructure.decode_StatusInquiryResponse mock.runtime)
         (PayTRResponse.Data mock.mistyped_envelope)
       = Err (mapstructure_Error errs).
Proof.
  exact (proj1 (@mistyped_status_fails_decoding mock.runtime
                  [("status", JBool true)] (JBool true) eq_refl eq_refl)).
Defined.

(** Witness of X15: the URLs of the package parse in the runtime of the
    tests; a card is deleted there with empty tokens. *)
Lemma operations_send_exactly_one_witness :
  List.length (@outbound mock.runtime _ (DeleteSavedCard mock.s_saved "" "") [])
  = 1%nat.
Proof.
  exact (proj2 (proj2 (proj2 (proj2 (proj2 (proj2 (proj2 (proj2
           (@operations_send_exactly_one mock.runtime mock.s_saved []
              mock_urls_parse)))))))) "" "").
Defined.
